(** * Video-automation workflow core: a shallow embedding

    The development follows the Python sources

      - [ideas.py]                         the idea bank and its rotation,
      - [api_clients.py]                   [KieAPI.wait_for_completion],
      - [ai_client.py]                     [EnhancedAIClient.chat],
      - [enhanced-system/database.py]      tables [videos], [workflow_runs],
      - [workflow_manager.py]              tables [workflows],
                                           [workflow_executions],
      - [enhanced-system/workflow.py]      [WorkflowEngine.run_workflow],
      - [enhanced-system/workflow_executor.py]
                                           [WorkflowExecutor.execute_workflow].

    Python values that travel through the code (API responses, ideas,
    scripts, result dictionaries) are modelled by one type [json] of
    dynamically typed values; subscripting and [.get] raise the Python
    exceptions they raise in the source.  The vendor HTTP endpoints, the
    clock, [json.loads] and string formatting are collaborators outside
    the repository: they are fields of an environment [Env] and every
    theorem about a run quantifies over them. *)

From Stdlib Require Import ZArith List String Ascii Bool Lia.
From stdpp Require Import base list.
Import ListNotations.

#[local] Set Warnings "-register-all".
#[local] Open Scope string_scope.
#[local] Open Scope Z_scope.

(** ** Python values *)

(** A Python object as it comes out of [response.json()] or a literal of
    the source: [None], [bool], [int], [str], [list], [dict] with string
    keys (an association list; the first binding of a key is the one a
    lookup sees). *)
Inductive json : Type :=
| JNull
| JBool (b : bool)
| JNum (z : Z)
| JStr (s : string)
| JArr (l : list json)
| JObj (kv : list (string * json)).

(** ** Python exceptions

    The classes the modelled code raises or meets, all below
    [Exception]; [KeyboardInterrupt] and [SystemExit] are outside the
    model. *)

Inductive exn_class : Type :=
| Exception
| OSError
| TimeoutError
| RequestException
| LookupError
| KeyError
| IndexError
| TypeError
| AttributeError
| ValueError
| JSONDecodeError
| ArithmeticError
| ZeroDivisionError.

(** The direct base class of each exception class. *)
Definition base_of (c : exn_class) : option exn_class :=
  match c with
  | Exception => None
  | OSError => Some Exception
  | TimeoutError => Some OSError
  | RequestException => Some OSError
  | LookupError => Some Exception
  | KeyError => Some LookupError
  | IndexError => Some LookupError
  | TypeError => Some Exception
  | AttributeError => Some Exception
  | ValueError => Some Exception
  | JSONDecodeError => Some ValueError
  | ArithmeticError => Some Exception
  | ZeroDivisionError => Some ArithmeticError
  end.

Definition exn_class_eqb (c d : exn_class) : bool :=
  match c, d with
  | Exception, Exception | OSError, OSError
  | TimeoutError, TimeoutError | RequestException, RequestException
  | LookupError, LookupError | KeyError, KeyError | IndexError, IndexError
  | TypeError, TypeError | AttributeError, AttributeError
  | ValueError, ValueError | JSONDecodeError, JSONDecodeError
  | ArithmeticError, ArithmeticError
  | ZeroDivisionError, ZeroDivisionError => true
  | _, _ => false
  end.

Fixpoint issubclass_fuel (n : nat) (c d : exn_class) : bool :=
  exn_class_eqb c d ||
  match n with
  | O => false
  | S n' => match base_of c with
            | Some b => issubclass_fuel n' b d
            | None => false
            end
  end.

(** [issubclass(c, d)]; the hierarchy above is three levels deep. *)
Definition issubclass (c d : exn_class) : bool := issubclass_fuel 3 c d.

(** The text of an f-string before it is rendered: literal pieces and
    interpolated values. *)
Inductive piece : Type :=
| Lit (s : string)
| Val (v : json)
| Int (z : Z).

Definition fstring : Type := list piece.

(** A raised exception: its class and the message it was built with. *)
Record exn : Type := PyExc { exc_class : exn_class; exc_args : fstring }.

Definition isinstance_exn (e : exn) (c : exn_class) : bool :=
  issubclass (exc_class e) c.

(** ** Dynamic operations of the source *)

Fixpoint assoc (k : string) (kv : list (string * json)) : option json :=
  match kv with
  | [] => None
  | (k', v) :: kv' => if String.eqb k k' then Some v else assoc k kv'
  end.

(** [v[k]] for a string key [k]. *)
Definition subscript_key (v : json) (k : string) : exn + json :=
  match v with
  | JObj kv =>
      match assoc k kv with
      | Some x => inr x
      | None => inl (PyExc KeyError [Val (JStr k)])
      end
  | JStr _ => inl (PyExc TypeError [Lit "string indices must be integers"])
  | JArr _ => inl (PyExc TypeError [Lit "list indices must be integers or slices, not str"])
  | _ => inl (PyExc TypeError [Lit "object is not subscriptable"])
  end.

(** [v[0]]: the first element of a list, the first character of a
    string. *)
Definition subscript_0 (v : json) : exn + json :=
  match v with
  | JArr (x :: _) => inr x
  | JArr [] => inl (PyExc IndexError [Lit "list index out of range"])
  | JStr (String c _) => inr (JStr (String c EmptyString))
  | JStr EmptyString => inl (PyExc IndexError [Lit "string index out of range"])
  | JObj kv => inl (PyExc KeyError [Int 0])
  | _ => inl (PyExc TypeError [Lit "object is not subscriptable"])
  end.

(** [v.get(k, default)]. *)
Definition dict_get (v : json) (k : string) (default : json) : exn + json :=
  match v with
  | JObj kv =>
      match assoc k kv with
      | Some x => inr x
      | None => inr default
      end
  | _ => inl (PyExc AttributeError [Lit "object has no attribute 'get'"])
  end.

(** [v == s] for a string literal [s]. *)
Definition eq_str (v : json) (s : string) : bool :=
  match v with
  | JStr t => String.eqb t s
  | _ => false
  end.

(** [isinstance(v, str)]. *)
Definition is_str (v : json) : bool :=
  match v with
  | JStr _ => true
  | _ => false
  end.

(** Truth value of an object, as in [if v:]. *)
Definition truthy (v : json) : bool :=
  match v with
  | JNull => false
  | JBool b => b
  | JNum z => negb (z =? 0)
  | JStr s => negb (String.eqb s EmptyString)
  | JArr l => match l with [] => false | _ => true end
  | JObj kv => match kv with [] => false | _ => true end
  end.

(** ** ideas.py *)

Definition mk_idea (slug coreHook settingHints coreCharacters coreAction
                    safetyConstraints : string) (styleTags : list string) : json :=
  JObj [ ("slug", JStr slug);
         ("language", JStr "en");
         ("coreHook", JStr coreHook);
         ("settingHints", JStr settingHints);
         ("coreCharacters", JStr coreCharacters);
         ("coreAction", JStr coreAction);
         ("safetyConstraints", JStr safetyConstraints);
         ("styleTags", JArr (map JStr styleTags)) ].

Definition IDEAS : list json :=
  [ mk_idea "baby-goat-happy-hops"
      "A newborn baby goat does tiny excited hops around a camera placed on the grass."
      "Small farm field at golden hour."
      "One tiny newborn goat kid."
      "Goat hops in energetic, clumsy bursts around the camera, occasionally sliding or stumbling cutely."
      "Gentle terrain with no obstacles."
      ["goat"; "baby-animal"; "nature"; "playful"; "viral"];
    mk_idea "baby-husky-mimic-sounds"
      "A baby babbles, and a husky puppy tries to mimic the baby's sounds."
      "Indoor nursery with warm window light."
      "One baby sitting, one husky puppy facing them."
      "Baby babbles. Husky pup responds with tiny attempts at howling, tilting its head in confusion."
      "Puppy must be gentle and stable."
      ["baby"; "husky"; "talking"; "cute"; "sound-mimic"];
    mk_idea "baby-elephant-curious-trunk"
      "A baby elephant gently explores a camera lens with its tiny trunk."
      "Sanctuary environment with soft dust and sunlight."
      "One young baby elephant."
      "Elephant taps and explores the camera with its trunk, then sneezes a tiny dust puff."
      "Elephant must act gentle. No dangerous trunk swings."
      ["elephant"; "baby-animal"; "nature"; "viral"; "cute"];
    mk_idea "baby-kitten-soft-paws"
      "A tiny kitten kneads on the baby's blanket, mesmerising the baby."
      "Indoor blanket scene with close smartphone angle."
      "One baby lying on back, one kitten near feet."
      "Kitten kneads the blanket gently. Baby reaches out curiously."
      "Kitten must be gentle. No claws extended."
      ["baby"; "kitten"; "kneading"; "adorable"; "viral"];
    mk_idea "baby-sloth-slow-hug"
      "A baby sloth slowly crawls toward the camera and hugs it."
      "Rescue center, natural wood branches, soft lighting."
      "One baby sloth."
      "Sloth crawls slowly, then wraps its arms around the camera with an innocent expression."
      "Sloth kept low and safe."
      ["sloth"; "baby-animal"; "hug"; "adorable"];
    mk_idea "fawn-curious-head-tilt"
      "A newborn fawn hears a soft sound and tilts its head repeatedly."
      "Forest edge or sanctuary meadow."
      "One newborn fawn."
      "Fawn tilts head slowly left and right, then steps forward shyly."
      "Soft terrain, calm environment."
      ["fawn"; "baby-animal"; "cute"; "nature"];
    mk_idea "baby-penguin-tiny-waddle"
      "A baby penguin waddles toward the camera and slips gently on its belly."
      "Indoor cool habitat with soft ice or snow texture."
      "One fluffy penguin chick."
      "Penguin waddles, slips, slides forward, then looks proud."
      "No sharp ice. Safe ground."
      ["penguin"; "cute"; "baby-animal"; "slip"; "viral"];
    mk_idea "hedgehog-tiny-sniff"
      "A baby hedgehog sniffs the camera lens repeatedly, twitching its tiny nose."
      "Soft wooden table or blanket."
      "One very small hedgehog."
      "Hedgehog sniffs and wiggles toward the lens, then curls into a tiny ball."
      "Safe padded surface."
      ["hedgehog"; "cute"; "micro"; "sniff"; "viral"];
    mk_idea "baby-lab-puppy-tug"
      "A baby and a Labrador puppy gently tug on opposite sides of a soft cloth."
      "Living room play mat with natural window light."
      "One baby, one lab puppy."
      "Baby pulls cloth. Puppy pulls the other side in tiny, playful motions."
      "No rough tugging. Baby must remain stable."
      ["baby"; "puppy"; "lab"; "playful"];
    mk_idea "baby-chimp-curious-hands"
      "A baby chimp explores the camera gently with its hands."
      "Sanctuary habitat with soft leaves."
      "One baby chimp."
      "Chimp touches lens with curiosity, then mimics the camera operator."
      "Chimp must remain gentle, slow, safe."
      ["chimp"; "baby-animal"; "cute"] ].

(** [get_next_idea(current_index)] over the current contents [ideas] of the
    module-level list.  Python's [%] on integers is the floor modulus,
    which is [Z.modulo] for a positive divisor, and raises on zero. *)
Definition get_next_idea (ideas : list json) (current_index : Z)
  : exn + (json * Z) :=
  let n := Z.of_nat (length ideas) in
  if n =? 0 then inl (PyExc ZeroDivisionError [Lit "integer modulo by zero"])
  else
    let index := current_index mod n in
    match ideas !! Z.to_nat index with
    | Some idea => inr (idea, (index + 1) mod n)
    | None => inl (PyExc IndexError [Lit "list index out of range"])
    end.

(** [k] successive calls, each fed the index the previous one returned;
    the ideas come back in call order. *)
Fixpoint rotation (ideas : list json) (k : nat) (index : Z)
  : exn + (list json * Z) :=
  match k with
  | O => inr ([], index)
  | S k' =>
      match get_next_idea ideas index with
      | inl e => inl e
      | inr (idea, next) =>
          match rotation ideas k' next with
          | inl e => inl e
          | inr (rest, final) => inr (idea :: rest, final)
          end
      end
  end.

(** The bank at run time: the ten literal ideas followed by whatever
    [add_custom_idea] appended. *)
Definition bank (custom : list json) : list json := IDEAS ++ custom.

(** ** The world a run acts on *)

(** External HTTP requests, with the values the source puts in them.
    Where the source renders a prompt or a caption with an f-string, the
    request carries the interpolated values. *)
Inductive Call : Type :=
| CGenerateScript (idea : json)
| CChat (idea config : json)
| CCreateVideo (prompt aspect_ratio model : json)
| CGetTaskStatus (task_id : json)
| CUploadMedia (media_url : json)
| CCreatePost (platform : string) (account_id : json)
              (description hashtags media_url : json)
              (kwargs : list (string * json)).

(** A keyword argument of [Database.update_video]; the engine uses these
    columns only. *)
Inductive VideoUpdate : Type :=
| SetSoraTaskId (v : json)
| SetVideoUrl (v : json)
| SetStatus (s : string)
| SetPostedTiktok (b : bool)
| SetPostedInstagram (b : bool)
| SetPostedYoutube (b : bool)
| SetError (s : string).

(** What a run does to the outside: the HTTP requests with what came
    back ([inl] for a raised exception), the sleeps and the writes to the
    store. *)
Inductive Event : Type :=
| ECall (c : Call) (reply : exn + json)
| ESleep (d : Z)
| EAddWorkflowRun (run_id : nat) (status : string)
| EAddVideo (video_id : nat) (status : string)
| EUpdateVideo (video_id : nat) (fields : list VideoUpdate)
| ECompleteWorkflowRun (run_id : nat) (status : string)
| ELogExecution (workflow_id : nat) (status : string).

(** A row of table [videos]; the row id is its position, counted
    from 1. *)
Record VideoRow : Type := mkVideoRow {
  v_idea_data : json;
  v_script_data : option json;
  v_sora_task_id : option json;
  v_video_url : option json;
  v_status : string;
  v_posted_tiktok : bool;
  v_posted_instagram : bool;
  v_posted_youtube : bool;
  v_error : option string
}.

(** A row of table [workflow_runs]. *)
Record RunRow : Type := mkRunRow {
  r_completed : bool;
  r_status : string;
  r_video_id : option nat;
  r_error : option string
}.

(** A row of table [workflows], as [WorkflowManager.get_workflow] returns
    it: the [config] column already decoded. *)
Record WorkflowRow : Type := mkWorkflowRow {
  wf_name : string;
  wf_type : string;
  wf_config : json;
  wf_status : string;
  wf_total_runs : Z;
  wf_successful_runs : Z;
  wf_failed_runs : Z
}.

(** A row of table [workflow_executions]. *)
Record ExecRow : Type := mkExecRow {
  x_workflow_id : nat;
  x_status : string;
  x_result : option json;
  x_error : json
}.

Record World : Type := mkWorld {
  videos : list VideoRow;
  workflow_runs : list RunRow;
  workflows : list (option WorkflowRow);
  workflow_executions : list ExecRow;
  custom_ideas : list json;
  current_idea_index : Z;
  now : Z;
  events : list Event
}.

(** The collaborators outside the repository.  [respond n c] is what the
    [n]-th action of the process gets back for request [c] ([inl] when
    [requests] or [raise_for_status] raises, [inr] for the decoded body),
    [elapse n] the time it takes. *)
Record Env : Type := mkEnv {
  respond : nat -> Call -> exn + json;
  elapse : nat -> nat;
  json_loads : string -> exn + json;
  format : fstring -> string;
  format_exc : exn -> string
}.

(** ** State and exceptions *)

Inductive outcome (A : Type) : Type :=
| Ok (a : A)
| Raise (e : exn)
| OutOfFuel.

Arguments Ok {A} a.
Arguments Raise {A} e.
Arguments OutOfFuel {A}.

Definition M (A : Type) : Type := World -> outcome A * World.

Definition ret {A} (a : A) : M A := fun w => (Ok a, w).

Definition bind {A B} (c : M A) (k : A -> M B) : M B :=
  fun w =>
    match c w with
    | (Ok a, w') => k a w'
    | (Raise e, w') => (Raise e, w')
    | (OutOfFuel, w') => (OutOfFuel, w')
    end.

Definition raise {A} (e : exn) : M A := fun w => (Raise e, w).

Definition lift {A} (r : exn + A) : M A :=
  fun w => match r with inl e => (Raise e, w) | inr a => (Ok a, w) end.

(** [try: c except Exception as e: h e] *)
Definition try_except {A} (c : M A) (h : exn -> M A) : M A :=
  fun w =>
    match c w with
    | (Raise e, w') =>
        if isinstance_exn e Exception then h e w' else (Raise e, w')
    | r => r
    end.

(** [try: c except: h], the bare clause. *)
Definition try_except_all {A} (c : M A) (h : M A) : M A :=
  fun w =>
    match c w with
    | (Raise e, w') => h w'
    | r => r
    end.

(** The result of a [try] body as a value: [inl e] when it raised an
    [Exception]. *)
Definition attempt {A} (c : M A) : M (exn + A) :=
  try_except (bind c (fun a => ret (inr a))) (fun e => ret (inl e)).

Notation "x <- c ;; k" := (bind c (fun x => k))
  (at level 20, c at level 99, k at level 200, only parsing).
Notation "c ;;; k" := (bind c (fun _ => k))
  (at level 100, k at level 200, only parsing).

Definition emit (ev : Event) (w : World) : World :=
  mkWorld (videos w) (workflow_runs w) (workflows w) (workflow_executions w)
          (custom_ideas w) (current_idea_index w) (now w) (ev :: events w).

Definition advance (d : Z) (w : World) : World :=
  mkWorld (videos w) (workflow_runs w) (workflows w) (workflow_executions w)
          (custom_ideas w) (current_idea_index w) (now w + d) (events w).

Definition set_videos (vs : list VideoRow) (w : World) : World :=
  mkWorld vs (workflow_runs w) (workflows w) (workflow_executions w)
          (custom_ideas w) (current_idea_index w) (now w) (events w).

Definition set_workflow_runs (rs : list RunRow) (w : World) : World :=
  mkWorld (videos w) rs (workflows w) (workflow_executions w)
          (custom_ideas w) (current_idea_index w) (now w) (events w).

Definition set_workflows (ws : list (option WorkflowRow)) (w : World) : World :=
  mkWorld (videos w) (workflow_runs w) ws (workflow_executions w)
          (custom_ideas w) (current_idea_index w) (now w) (events w).

Definition set_workflow_executions (xs : list ExecRow) (w : World) : World :=
  mkWorld (videos w) (workflow_runs w) (workflows w) xs
          (custom_ideas w) (current_idea_index w) (now w) (events w).

Definition set_current_idea_index (i : Z) (w : World) : World :=
  mkWorld (videos w) (workflow_runs w) (workflows w) (workflow_executions w)
          (custom_ideas w) i (now w) (events w).

(** [events] holds the newest event first; [trace] is the order in which
    they happened. *)
Definition trace (w : World) : list Event := rev (events w).

(** The row with id [id] of a table, ids counted from 1. *)
Definition row {R} (id : nat) (t : list R) : option R :=
  match id with
  | O => None
  | S i => t !! i
  end.

(** [UPDATE ... WHERE id = ?]: no row with that id, no change. *)
Definition update_row {R} (id : nat) (f : R -> R) (t : list R) : list R :=
  match id with
  | O => t
  | S i => alter f i t
  end.

Section WithEnv.

Variable E : Env.

(** One HTTP request: [requests.post]/[get], [raise_for_status],
    [response.json()]. *)
Definition http (c : Call) : M json :=
  fun w =>
    let n := length (events w) in
    let reply := respond E n c in
    let w' := advance (Z.of_nat (elapse E n)) (emit (ECall c reply) w) in
    match reply with
    | inl e => (Raise e, w')
    | inr v => (Ok v, w')
    end.

(** [time.time()] *)
Definition time_time : M Z := fun w => (Ok (now w), w).

(** [time.sleep(d)] *)
Definition time_sleep (d : Z) : M unit :=
  fun w =>
    if d <? 0
    then (Raise (PyExc ValueError [Lit "sleep length must be non-negative"]), w)
    else (Ok tt, advance d (emit (ESleep d) w)).

(** [json.loads(v)] on a dynamically typed argument. *)
Definition loads (v : json) : exn + json :=
  match v with
  | JStr s => json_loads E s
  | _ => inl (PyExc TypeError [Lit "the JSON object must be str, bytes or bytearray"])
  end.

(** [str(e)] *)
Definition str_exn (e : exn) : string := format E (exc_args e).

(** ** api_clients.py *)

(** [KieAPI.create_video] *)
Definition create_video (prompt aspect_ratio model : json) : M json :=
  http (CCreateVideo prompt aspect_ratio model).

(** [KieAPI.get_task_status] *)
Definition get_task_status (task_id : json) : M json :=
  http (CGetTaskStatus task_id).

(** [result.get('data', {}).get('status')] *)
Definition task_status (result : json) : exn + json :=
  match dict_get result "data" (JObj []) with
  | inl e => inl e
  | inr d => dict_get d "status" JNull
  end.

(** The [while] loop of [KieAPI.wait_for_completion]. *)
Fixpoint wait_loop (fuel : nat) (task_id : json)
    (start_time max_wait check_interval : Z) : M json :=
  match fuel with
  | O => fun w => (OutOfFuel, w)
  | S fuel' =>
      t <- time_time ;;
      if t - start_time <? max_wait then
        result <- get_task_status task_id ;;
        st <- lift (task_status result) ;;
        if eq_str st "SUCCESS" then ret result
        else
          st' <- lift (task_status result) ;;
          if eq_str st' "FAILED" || eq_str st' "ERROR"
          then raise (PyExc Exception [Lit "Video generation failed: "; Val result])
          else
            time_sleep check_interval ;;;
            wait_loop fuel' task_id start_time max_wait check_interval
      else
        raise (PyExc TimeoutError
                 [Lit "Video generation timed out after "; Int max_wait;
                  Lit " seconds"])
  end.

(** [KieAPI.wait_for_completion(task_id, max_wait=600, check_interval=10)];
    [None] stands for an argument left to its default.  The loop is
    given [max_wait + 1] iterations, which it cannot use up when
    [check_interval] is at least one time unit. *)
Definition wait_for_completion (task_id : json)
    (max_wait check_interval : option Z) : M json :=
  let max_wait := default 600 max_wait in
  let check_interval := default 10 check_interval in
  start_time <- time_time ;;
  wait_loop (S (Z.to_nat max_wait)) task_id start_time max_wait check_interval.

(** [OpenAIClient.generate_script] *)
Definition generate_script (idea : json) : M json :=
  result <- http (CGenerateScript idea) ;;
  choices <- lift (subscript_key result "choices") ;;
  choice <- lift (subscript_0 choices) ;;
  message <- lift (subscript_key choice "message") ;;
  content <- lift (subscript_key message "content") ;;
  lift (loads content).

(** [BlotatoClient.upload_media] *)
Definition upload_media (media_url : json) : M json :=
  http (CUploadMedia media_url).

(** [BlotatoClient.create_post] *)
Definition create_post (platform : string) (account_id : json)
    (description hashtags media_url : json) (kwargs : list (string * json))
  : M json :=
  http (CCreatePost platform account_id description hashtags media_url kwargs).

(** ** ai_client.py *)

(** [EnhancedAIClient.chat]: every exception becomes a reply text. *)
Definition chat (idea config : json) : M json :=
  try_except
    (result <- http (CChat idea config) ;;
     choices <- lift (subscript_key result "choices") ;;
     choice <- lift (subscript_0 choices) ;;
     message <- lift (subscript_key choice "message") ;;
     lift (subscript_key message "content"))
    (fun e =>
       ret (JStr (format E (Lit "Error communicating with AI: " :: exc_args e)))).

End WithEnv.

(** Sequencing of fallible pure steps. *)
Notation "'let?' x := c 'in' k" :=
  (match c with inl e => inl e | inr x => k end)
  (at level 10, x name, c at level 100, k at level 200, only parsing).

(** ** enhanced-system/database.py *)

(** [Database.add_video]: a new row with status ['created']. *)
Definition add_video (idea_data script_data : json) : M nat :=
  fun w =>
    let video_id := S (length (videos w)) in
    let r := mkVideoRow idea_data
               (if truthy script_data then Some script_data else None)
               None None "created" false false false None in
    (Ok video_id,
     emit (EAddVideo video_id "created") (set_videos (videos w ++ [r]) w)).

Definition apply_update (r : VideoRow) (u : VideoUpdate) : VideoRow :=
  match u with
  | SetSoraTaskId v =>
      mkVideoRow (v_idea_data r) (v_script_data r) (Some v) (v_video_url r)
        (v_status r) (v_posted_tiktok r) (v_posted_instagram r)
        (v_posted_youtube r) (v_error r)
  | SetVideoUrl v =>
      mkVideoRow (v_idea_data r) (v_script_data r) (v_sora_task_id r) (Some v)
        (v_status r) (v_posted_tiktok r) (v_posted_instagram r)
        (v_posted_youtube r) (v_error r)
  | SetStatus s =>
      mkVideoRow (v_idea_data r) (v_script_data r) (v_sora_task_id r)
        (v_video_url r) s (v_posted_tiktok r) (v_posted_instagram r)
        (v_posted_youtube r) (v_error r)
  | SetPostedTiktok b =>
      mkVideoRow (v_idea_data r) (v_script_data r) (v_sora_task_id r)
        (v_video_url r) (v_status r) b (v_posted_instagram r)
        (v_posted_youtube r) (v_error r)
  | SetPostedInstagram b =>
      mkVideoRow (v_idea_data r) (v_script_data r) (v_sora_task_id r)
        (v_video_url r) (v_status r) (v_posted_tiktok r) b
        (v_posted_youtube r) (v_error r)
  | SetPostedYoutube b =>
      mkVideoRow (v_idea_data r) (v_script_data r) (v_sora_task_id r)
        (v_video_url r) (v_status r) (v_posted_tiktok r)
        (v_posted_instagram r) b (v_error r)
  | SetError s =>
      mkVideoRow (v_idea_data r) (v_script_data r) (v_sora_task_id r)
        (v_video_url r) (v_status r) (v_posted_tiktok r)
        (v_posted_instagram r) (v_posted_youtube r) (Some s)
  end.

(** [Database.update_video(video_id, **kwargs)] *)
Definition update_video (video_id : nat) (kwargs : list VideoUpdate) : M unit :=
  fun w =>
    (Ok tt,
     emit (EUpdateVideo video_id kwargs)
       (set_videos
          (update_row video_id (fun r => fold_left apply_update kwargs r)
             (videos w)) w)).

(** [Database.add_workflow_run()], with its default status ['started']. *)
Definition add_workflow_run : M nat :=
  fun w =>
    let run_id := S (length (workflow_runs w)) in
    (Ok run_id,
     emit (EAddWorkflowRun run_id "started")
       (set_workflow_runs
          (workflow_runs w ++ [mkRunRow false "started" None None]) w)).

(** [Database.complete_workflow_run] *)
Definition complete_workflow_run (run_id : nat) (status : string)
    (video_id : option nat) (error : option string) : M unit :=
  fun w =>
    (Ok tt,
     emit (ECompleteWorkflowRun run_id status)
       (set_workflow_runs
          (update_row run_id (fun _ => mkRunRow true status video_id error)
             (workflow_runs w)) w)).

(** ** workflow_manager.py *)

(** [WorkflowManager.get_workflow(workflow_id)]; the id [0] is falsy and
    no name is given, so the answer is [None]. *)
Definition get_workflow (workflow_id : nat) : M (option WorkflowRow) :=
  fun w =>
    (Ok (match row workflow_id (workflows w) with
         | Some (Some wf) => Some wf
         | _ => None
         end), w).

Definition count_run (success : bool) (wf : WorkflowRow) : WorkflowRow :=
  mkWorkflowRow (wf_name wf) (wf_type wf) (wf_config wf) (wf_status wf)
    (wf_total_runs wf + 1)
    (if success then wf_successful_runs wf + 1 else wf_successful_runs wf)
    (if success then wf_failed_runs wf else wf_failed_runs wf + 1).

(** [WorkflowManager.log_execution] *)
Definition log_execution (workflow_id : nat) (status : string)
    (result : option json) (error : json) : M nat :=
  fun w =>
    let execution_id := S (length (workflow_executions w)) in
    let x := mkExecRow workflow_id status
               (match result with
                | Some r => if truthy r then Some r else None
                | None => None
                end) error in
    (Ok execution_id,
     emit (ELogExecution workflow_id status)
       (set_workflows
          (update_row workflow_id (option_map (count_run (String.eqb status "success")))
             (workflows w))
          (set_workflow_executions (workflow_executions w ++ [x]) w))).

(** ** Config *)

Definition VIDEO_ASPECT_RATIO : string := "9:16".
Definition VIDEO_MODEL : string := "sora-2-text-to-video".
Definition TIKTOK_ACCOUNT_ID : string := "22514".
Definition INSTAGRAM_ACCOUNT_ID : string := "22251".
Definition YOUTUBE_ACCOUNT_ID : string := "19977".

Section WithEnvRuns.

Variable E : Env.

(** The result URL of a finished task: [result['data']['resultJson']],
    decoded when it is a string, then [['resultUrls'][0]]. *)
Definition extract_video_url (result : json) : exn + json :=
  let? data := subscript_key result "data" in
  let? video_url := subscript_key data "resultJson" in
  if is_str video_url then
    let? decoded := loads E video_url in
    let? urls := subscript_key decoded "resultUrls" in
    subscript_0 urls
  else
    let? urls := subscript_key video_url "resultUrls" in
    subscript_0 urls.

(** ** enhanced-system/workflow.py *)

(** [idea, self.current_idea_index = get_next_idea(self.current_idea_index)] *)
Definition next_idea : M json :=
  fun w =>
    match get_next_idea (bank (custom_ideas w)) (current_idea_index w) with
    | inl e => (Raise e, w)
    | inr (idea, next) => (Ok idea, set_current_idea_index next w)
    end.

(** The [try] body up to the assignment of [video_id]. *)
Definition run_workflow_script : M (json * json) :=
  idea <- next_idea ;;
  _ <- lift (subscript_key idea "slug") ;;
  script <- generate_script E idea ;;
  _ <- lift (subscript_key script "title") ;;
  ret (idea, script).

(** The three posting blocks, each in its own [try]. *)
Definition post_all (video_id : nat) (script description hashtags media_url : json)
  : M unit :=
  try_except
    (title <- lift (subscript_key script "title") ;;
     create_post E "youtube" (JStr YOUTUBE_ACCOUNT_ID) description hashtags
       media_url [("title", title); ("containsSyntheticMedia", JBool true)] ;;;
     update_video video_id [SetPostedYoutube true])
    (fun _ => ret tt) ;;;
  try_except
    (create_post E "instagram" (JStr INSTAGRAM_ACCOUNT_ID) description hashtags
       media_url [] ;;;
     update_video video_id [SetPostedInstagram true])
    (fun _ => ret tt) ;;;
  try_except
    (create_post E "tiktok" (JStr TIKTOK_ACCOUNT_ID) description hashtags
       media_url [("isAiGenerated", JBool true)] ;;;
     update_video video_id [SetPostedTiktok true])
    (fun _ => ret tt).

(** The [try] body after the assignment of [video_id]. *)
Definition run_workflow_video (run_id video_id : nat) (script : json) : M json :=
  prompt <- lift (subscript_key script "prompt") ;;
  sora_response <- create_video E prompt (JStr VIDEO_ASPECT_RATIO) (JStr VIDEO_MODEL) ;;
  data <- lift (subscript_key sora_response "data") ;;
  task_id <- lift (subscript_key data "taskId") ;;
  update_video video_id [SetSoraTaskId task_id; SetStatus "generating"] ;;;
  result <- wait_for_completion E task_id (Some 600) None ;;
  video_url <- lift (extract_video_url result) ;;
  update_video video_id [SetVideoUrl video_url; SetStatus "generated"] ;;;
  media <- upload_media E video_url ;;
  media_url <- lift (subscript_key media "url") ;;
  description <- lift (subscript_key script "description") ;;
  hashtags <- lift (dict_get script "hashtags" (JStr EmptyString)) ;;
  post_all video_id script description hashtags media_url ;;;
  update_video video_id [SetStatus "completed"] ;;;
  complete_workflow_run run_id "completed" (Some video_id) None ;;;
  title <- lift (subscript_key script "title") ;;
  ret (JObj [("success", JBool true);
             ("video_id", JNum (Z.of_nat video_id));
             ("video_url", video_url);
             ("title", title)]).

(** The [except Exception as e] clause of [run_workflow]. *)
Definition run_workflow_failed (run_id : nat) (video_id : option nat) (e : exn)
  : M json :=
  let error_msg := str_exn E e in
  match video_id with
  | Some (S _ as v) => update_video v [SetStatus "failed"; SetError error_msg]
  | _ => ret tt
  end ;;;
  complete_workflow_run run_id "failed" video_id (Some error_msg) ;;;
  ret (JObj [("success", JBool false);
             ("error", JStr error_msg);
             ("trace", JStr (format_exc E e))]).

(** [WorkflowEngine.run_workflow].  The local [video_id] is [None] in the
    handler exactly when the exception was raised before [add_video]
    returned, so the [try] is split at that assignment. *)
Definition run_workflow : M json :=
  run_id <- add_workflow_run ;;
  r <- attempt run_workflow_script ;;
  match r with
  | inl e => run_workflow_failed run_id None e
  | inr (idea, script) =>
      video_id <- add_video idea script ;;
      try_except (run_workflow_video run_id video_id script)
                 (run_workflow_failed run_id (Some video_id))
  end.

(** ** enhanced-system/workflow_executor.py *)

(** The objects a [for] loop takes from a value. *)
Fixpoint chars (s : string) : list json :=
  match s with
  | EmptyString => []
  | String c s' => JStr (String c EmptyString) :: chars s'
  end.

Definition py_iter (v : json) : exn + list json :=
  match v with
  | JArr l => inr l
  | JStr s => inr (chars s)
  | JObj kv => inr (map (fun p => JStr (fst p)) kv)
  | _ => inl (PyExc TypeError [Lit "object is not iterable"])
  end.

Fixpoint prefix (n : nat) (s : string) : string :=
  match n, s with
  | S n', String c s' => String c (prefix n' s')
  | _, _ => EmptyString
  end.

(** [v[:200]] *)
Definition slice_200 (v : json) : exn + json :=
  match v with
  | JStr s => inr (JStr (prefix 200 s))
  | JArr l => inr (JArr (take 200 l))
  | _ => inl (PyExc TypeError [Lit "object is not subscriptable"])
  end.

(** One turn of [for platform in platforms], the [try] and its
    [except Exception]. *)
Definition post_to_platform (config script description hashtags media_url : json)
    (platform : json) (posted_to : list json) : M (list json) :=
  try_except
    ((if eq_str platform "youtube" then
        account_id <- lift (dict_get config "youtube_account_id" (JStr "19977")) ;;
        title <- lift (dict_get script "title" (JStr "Video")) ;;
        create_post E "youtube" account_id description hashtags media_url
          [("title", title); ("containsSyntheticMedia", JBool true)] ;;;
        ret tt
      else if eq_str platform "instagram" then
        account_id <- lift (dict_get config "instagram_account_id" (JStr "22251")) ;;
        create_post E "instagram" account_id description hashtags media_url [] ;;;
        ret tt
      else if eq_str platform "tiktok" then
        account_id <- lift (dict_get config "tiktok_account_id" (JStr "22514")) ;;
        create_post E "tiktok" account_id description hashtags media_url
          [("isAiGenerated", JBool true)] ;;;
        ret tt
      else ret tt) ;;;
     ret ((posted_to ++ [platform])%list))
    (fun _ => ret posted_to).

Fixpoint post_to_platforms (config script description hashtags media_url : json)
    (platforms : list json) (posted_to : list json) : M (list json) :=
  match platforms with
  | [] => ret posted_to
  | platform :: rest =>
      posted_to' <- post_to_platform config script description hashtags
                      media_url platform posted_to ;;
      post_to_platforms config script description hashtags media_url rest posted_to'
  end.

(** [idea, _ = get_next_idea()]: the index argument is left to its
    default [0] and the next index is dropped. *)
Definition default_idea : M json :=
  fun w =>
    match get_next_idea (bank (custom_ideas w)) 0 with
    | inl e => (Raise e, w)
    | inr (idea, _) => (Ok idea, w)
    end.

(** The script of a reply: [json.loads(script_response)] or, under the
    bare [except], the dictionary built around the reply text. *)
Definition parse_script (idea script_response : json) : M json :=
  try_except_all
    (lift (loads E script_response))
    (slug <- lift (dict_get idea "slug" (JStr "content")) ;;
     description <- lift (slice_200 script_response) ;;
     ret (JObj [("title", JStr (format E [Lit "Video about "; Val slug]));
                ("description", description);
                ("prompt", script_response);
                ("hashtags", JStr "#cute #viral #pets")])).

(** [WorkflowExecutor._execute_video_creation] *)
Definition _execute_video_creation (workflow_id : nat) (workflow : WorkflowRow)
  : M json :=
  let config := wf_config workflow in
  idea_bank <- lift (dict_get config "idea_bank" JNull) ;;
  idea <- (if eq_str idea_bank "default" then default_idea
           else lift (dict_get config "custom_idea" (JObj []))) ;;
  _ <- lift (dict_get idea "slug" (JStr "custom")) ;;
  script_response <- chat E idea config ;;
  script <- parse_script idea script_response ;;
  _ <- lift (dict_get script "title" (JStr "Untitled")) ;;
  fallback <- lift (dict_get script "description" JNull) ;;
  prompt <- lift (dict_get script "prompt" fallback) ;;
  aspect_ratio <- lift (dict_get config "aspect_ratio" (JStr "9:16")) ;;
  sora_response <- create_video E prompt aspect_ratio (JStr "sora-2-text-to-video") ;;
  data <- lift (subscript_key sora_response "data") ;;
  task_id <- lift (subscript_key data "taskId") ;;
  result <- wait_for_completion E task_id (Some 600) None ;;
  video_url <- lift (extract_video_url result) ;;
  media <- upload_media E video_url ;;
  media_url <- lift (subscript_key media "url") ;;
  platforms <- lift (dict_get config "platforms"
                       (JArr [JStr "tiktok"; JStr "instagram"; JStr "youtube"])) ;;
  description <- lift (dict_get script "description" (JStr EmptyString)) ;;
  hashtags <- lift (dict_get script "hashtags" (JStr EmptyString)) ;;
  targets <- lift (py_iter platforms) ;;
  posted_to <- post_to_platforms config script description hashtags media_url
                 targets [] ;;
  title <- lift (dict_get script "title" JNull) ;;
  idea_slug <- lift (dict_get idea "slug" (JStr "custom")) ;;
  ret (JObj [("success", JBool true);
             ("workflow_id", JNum (Z.of_nat workflow_id));
             ("workflow_name", JStr (wf_name workflow));
             ("video_url", video_url);
             ("title", title);
             ("posted_to", JArr posted_to);
             ("idea_slug", idea_slug)]).

(** [_execute_engagement], [_execute_analytics], [_execute_custom] *)
Definition _execute_engagement (workflow_id : nat) : M json :=
  ret (JObj [("success", JBool true);
             ("workflow_id", JNum (Z.of_nat workflow_id));
             ("message", JStr "Engagement workflow (coming soon)")]).

Definition _execute_analytics (workflow_id : nat) : M json :=
  ret (JObj [("success", JBool true);
             ("workflow_id", JNum (Z.of_nat workflow_id));
             ("message", JStr "Analytics workflow (coming soon)")]).

Definition _execute_custom (workflow_id : nat) : M json :=
  ret (JObj [("success", JBool true);
             ("workflow_id", JNum (Z.of_nat workflow_id));
             ("message", JStr "Custom workflow executed")]).

(** [WorkflowExecutor.execute_workflow] *)
Definition execute_workflow (workflow_id : nat) : M json :=
  workflow <- get_workflow workflow_id ;;
  match workflow with
  | None =>
      ret (JObj [("success", JBool false); ("error", JStr "Workflow not found")])
  | Some wf =>
      if negb (String.eqb (wf_status wf) "active") then
        ret (JObj [("success", JBool false);
                   ("error", JStr (format E [Lit "Workflow is ";
                                             Val (JStr (wf_status wf))]))])
      else
        try_except
          (result <-
             (if String.eqb (wf_type wf) "video_creation"
              then _execute_video_creation workflow_id wf
              else if String.eqb (wf_type wf) "engagement"
              then _execute_engagement workflow_id
              else if String.eqb (wf_type wf) "analytics"
              then _execute_analytics workflow_id
              else if String.eqb (wf_type wf) "custom"
              then _execute_custom workflow_id
              else ret (JObj [("success", JBool false);
                              ("error",
                               JStr (format E [Lit "Unknown workflow type: ";
                                               Val (JStr (wf_type wf))]))])) ;;
           success <- lift (subscript_key result "success") ;;
           (if truthy success
            then log_execution workflow_id "success" (Some result) JNull
            else
              error <- lift (dict_get result "error" JNull) ;;
              log_execution workflow_id "failed" None error) ;;;
           ret result)
          (fun e =>
             let error_msg := str_exn E e in
             log_execution workflow_id "failed" None (JStr error_msg) ;;;
             ret (JObj [("success", JBool false);
                        ("error", JStr error_msg);
                        ("trace", JStr (format_exc E e))]))
  end.

End WithEnvRuns.

(** ** A JSON decoder

    [json.loads] belongs to the Python library; the runs above take it
    from the environment.  For concrete texts the development carries a
    decoder of its own for the fragment of JSON made of objects, arrays,
    strings with the two-character escapes, integers and the three
    literals.  Texts outside the fragment (fractions, exponents,
    [\u] escapes) are rejected here although Python decodes them. *)

Definition is_ws (c : ascii) : bool :=
  (Ascii.eqb c " " || Ascii.eqb c "009" || Ascii.eqb c "010" || Ascii.eqb c "013")%char.

Fixpoint skip_ws (s : string) : string :=
  match s with
  | String c r => if is_ws c then skip_ws r else s
  | EmptyString => s
  end.

Definition unescape (c : ascii) : option ascii :=
  (if Ascii.eqb c "034" then Some "034"
   else if Ascii.eqb c "\" then Some "\"
   else if Ascii.eqb c "/" then Some "/"
   else if Ascii.eqb c "b" then Some "008"
   else if Ascii.eqb c "f" then Some "012"
   else if Ascii.eqb c "n" then Some "010"
   else if Ascii.eqb c "r" then Some "013"
   else if Ascii.eqb c "t" then Some "009"
   else None)%char.

(** The characters of a string literal after its opening quote, up to
    the closing one. *)
Fixpoint decode_string (s : string) : option (string * string) :=
  match s with
  | EmptyString => None
  | String c r =>
      if Ascii.eqb c "034"%char then Some (EmptyString, r)
      else if Ascii.eqb c "\"%char then
        match r with
        | String e r' =>
            match unescape e, decode_string r' with
            | Some x, Some (body, rest) => Some (String x body, rest)
            | _, _ => None
            end
        | EmptyString => None
        end
      else if (nat_of_ascii c <? 32)%nat then None
      else
        match decode_string r with
        | Some (body, rest) => Some (String c body, rest)
        | None => None
        end
  end.

Definition digit (c : ascii) : option Z :=
  let n := nat_of_ascii c in
  if ((48 <=? n) && (n <=? 57))%nat then Some (Z.of_nat n - 48) else None.

Fixpoint decode_digits (s : string) (acc : Z) : Z * string :=
  match s with
  | String c r =>
      match digit c with
      | Some d => decode_digits r (10 * acc + d)
      | None => (acc, s)
      end
  | EmptyString => (acc, s)
  end.

Definition starts_fraction (s : string) : bool :=
  match s with
  | String c _ => (Ascii.eqb c "." || Ascii.eqb c "e" || Ascii.eqb c "E")%char
  | EmptyString => false
  end.

(** An integer without sign: a single [0] or digits not starting
    with [0]. *)
Definition decode_nat (s : string) : option (Z * string) :=
  match s with
  | String c r =>
      match digit c with
      | Some 0 => if starts_fraction r then None else Some (0, r)
      | Some d =>
          let '(z, rest) := decode_digits r d in
          if starts_fraction rest then None else Some (z, rest)
      | None => None
      end
  | EmptyString => None
  end.

Fixpoint strip_prefix (p s : string) : option string :=
  match p, s with
  | EmptyString, _ => Some s
  | String a p', String b s' => if Ascii.eqb a b then strip_prefix p' s' else None
  | String _ _, EmptyString => None
  end.

(** [d[k] = v] on a dictionary under construction: a repeated key keeps
    its place and takes the new value. *)
Fixpoint dict_set (k : string) (v : json) (kv : list (string * json))
  : list (string * json) :=
  match kv with
  | [] => [(k, v)]
  | (k', v') :: kv' =>
      if String.eqb k k' then (k', v) :: kv' else (k', v') :: dict_set k v kv'
  end.

Fixpoint decode_value (fuel : nat) (s : string) : option (json * string) :=
  match fuel with
  | O => None
  | S fuel' =>
      match skip_ws s with
      | EmptyString => None
      | String c r =>
          if Ascii.eqb c "{"%char then
            match skip_ws r with
            | String c' r' =>
                if Ascii.eqb c' "}"%char then Some (JObj [], r')
                else decode_members fuel' (skip_ws r) []
            | EmptyString => None
            end
          else if Ascii.eqb c "["%char then
            match skip_ws r with
            | String c' r' =>
                if Ascii.eqb c' "]"%char then Some (JArr [], r')
                else decode_elements fuel' (skip_ws r) []
            | EmptyString => None
            end
          else if Ascii.eqb c "034"%char then
            match decode_string r with
            | Some (body, rest) => Some (JStr body, rest)
            | None => None
            end
          else if Ascii.eqb c "-"%char then
            match decode_nat r with
            | Some (z, rest) => Some (JNum (- z), rest)
            | None => None
            end
          else
            match decode_nat (String c r) with
            | Some (z, rest) => Some (JNum z, rest)
            | None =>
                match strip_prefix "true" (String c r) with
                | Some rest => Some (JBool true, rest)
                | None =>
                    match strip_prefix "false" (String c r) with
                    | Some rest => Some (JBool false, rest)
                    | None =>
                        match strip_prefix "null" (String c r) with
                        | Some rest => Some (JNull, rest)
                        | None => None
                        end
                    end
                end
            end
      end
  end
with decode_elements (fuel : nat) (s : string) (acc : list json)
  : option (json * string) :=
  match fuel with
  | O => None
  | S fuel' =>
      match decode_value fuel' s with
      | Some (v, r) =>
          match skip_ws r with
          | String c r' =>
              if Ascii.eqb c ","%char then decode_elements fuel' r' (acc ++ [v])%list
              else if Ascii.eqb c "]"%char then Some (JArr (acc ++ [v])%list, r')
              else None
          | EmptyString => None
          end
      | None => None
      end
  end
with decode_members (fuel : nat) (s : string) (acc : list (string * json))
  : option (json * string) :=
  match fuel with
  | O => None
  | S fuel' =>
      match skip_ws s with
      | String q r =>
          if Ascii.eqb q "034"%char then
            match decode_string r with
            | Some (k, r1) =>
                match skip_ws r1 with
                | String c r2 =>
                    if Ascii.eqb c ":"%char then
                      match decode_value fuel' r2 with
                      | Some (v, r3) =>
                          match skip_ws r3 with
                          | String c' r4 =>
                              if Ascii.eqb c' ","%char
                              then decode_members fuel' r4 (dict_set k v acc)
                              else if Ascii.eqb c' "}"%char
                              then Some (JObj (dict_set k v acc), r4)
                              else None
                          | EmptyString => None
                          end
                      | None => None
                      end
                    else None
                | EmptyString => None
                end
            | None => None
            end
          else None
      | EmptyString => None
      end
  end.

(** Decoding a whole text: one value, nothing but white space after it. *)
Definition json_decode (s : string) : exn + json :=
  match decode_value (S (String.length s)) s with
  | Some (v, rest) =>
      match skip_ws rest with
      | EmptyString => inr v
      | String _ _ => inl (PyExc JSONDecodeError [Lit "Extra data"])
      end
  | None => inl (PyExc JSONDecodeError [Lit "Expecting value"])
  end.

(** The double quote and a text between double quotes. *)
Definition dq : string := String "034"%char EmptyString.

Definition quoted (s : string) : string := (dq ++ s ++ dq)%string.

(** The text [{"resultUrls":["http://x/video.mp4"]}]. *)
Definition example_resultJson : string :=
  ("{" ++ quoted "resultUrls" ++ ":[" ++ quoted "http://x/video.mp4" ++ "]}")%string.

(** ** Observations on a run *)

Definition status_of_update (u : VideoUpdate) : list string :=
  match u with
  | SetStatus s => [s]
  | _ => []
  end.

(** The values an event writes to column [status] of video [video_id]. *)
Definition status_writes (video_id : nat) (ev : Event) : list string :=
  match ev with
  | EAddVideo id s => if Nat.eqb id video_id then [s] else []
  | EUpdateVideo id kwargs =>
      if Nat.eqb id video_id then flat_map status_of_update kwargs else []
  | _ => []
  end.

(** The status values of a video along a trace (oldest event first). *)
Definition status_history (video_id : nat) (tr : list Event) : list string :=
  flat_map (status_writes video_id) tr.

(** The edges of the status machine:
    created -> generating -> generated -> completed, and failed from
    created, generating and generated. *)
Definition status_next (a b : string) : bool :=
  (String.eqb a "created" && String.eqb b "generating")
  || (String.eqb a "generating" && String.eqb b "generated")
  || (String.eqb a "generated" && String.eqb b "completed")
  || ((String.eqb a "created" || String.eqb a "generating"
       || String.eqb a "generated") && String.eqb b "failed").

Definition status_rank (s : string) : nat :=
  if String.eqb s "created" then 0
  else if String.eqb s "generating" then 1
  else if String.eqb s "generated" then 2
  else 3.

(** [b] lies strictly after [a]: further along the sequence, or the sink
    [failed] seen from a state that is not terminal. *)
Definition status_before (a b : string) : bool :=
  (status_rank a <? status_rank b)%nat
  && (String.eqb b "generating" || String.eqb b "generated"
      || String.eqb b "completed" || String.eqb b "failed").

(** Every two neighbours of the list are joined by an edge. *)
Fixpoint is_status_path (h : list string) : bool :=
  match h with
  | a :: ((b :: _) as t) => status_next a b && is_status_path t
  | _ => true
  end.

(** Every element lies strictly after all the elements before it. *)
Fixpoint never_reverts (h : list string) : bool :=
  match h with
  | [] => true
  | a :: t => forallb (status_before a) t && never_reverts t
  end.

Definition is_poll (ev : Event) : bool :=
  match ev with
  | ECall (CGetTaskStatus _) _ => true
  | _ => false
  end.

Definition is_upload (ev : Event) : bool :=
  match ev with
  | ECall (CUploadMedia _) _ => true
  | _ => false
  end.

Definition is_post (ev : Event) : bool :=
  match ev with
  | ECall (CCreatePost _ _ _ _ _ _) _ => true
  | _ => false
  end.

Definition is_call (ev : Event) : bool :=
  match ev with
  | ECall _ _ => true
  | _ => false
  end.

(** The reply to the first status poll of a trace (oldest event
    first). *)
Fixpoint first_poll (tr : list Event) : option (exn + json) :=
  match tr with
  | [] => None
  | ECall (CGetTaskStatus _) reply :: _ => Some reply
  | _ :: tr' => first_poll tr'
  end.

(** The status a poll reply carries, if it carries one. *)
Definition reply_status (reply : exn + json) : option json :=
  match reply with
  | inr result =>
      match task_status result with
      | inr st => Some st
      | inl _ => None
      end
  | inl _ => None
  end.

(** A post to [platform] that came back without an exception. *)
Definition post_succeeded (platform : string) (ev : Event) : bool :=
  match ev with
  | ECall (CCreatePost p _ _ _ _ _) (inr _) => String.eqb p platform
  | _ => false
  end.

(** A post to [platform] that raised. *)
Definition post_failed (platform : string) (ev : Event) : bool :=
  match ev with
  | ECall (CCreatePost p _ _ _ _ _) (inl _) => String.eqb p platform
  | _ => false
  end.

(** The reply of a status poll is neither a success nor a failure. *)
Definition is_pending (reply : exn + json) : bool :=
  match reply_status reply with
  | Some st =>
      negb (eq_str st "SUCCESS")
      && negb (eq_str st "FAILED" || eq_str st "ERROR")
  | None => false
  end.

Section Polling.

Variable E : Env.
Variable task_id : json.

(** What the next poll of the task gets back in world [w]. *)
Definition poll_reply (w : World) : exn + json :=
  respond E (length (events w)) (CGetTaskStatus task_id).

(** The world right after that poll. *)
Definition polled (w : World) : World :=
  advance (Z.of_nat (elapse E (length (events w))))
    (emit (ECall (CGetTaskStatus task_id) (poll_reply w)) w).

(** The world after a poll without verdict and the sleep that
    follows it. *)
Definition pending_step (check_interval : Z) (w : World) : World :=
  advance check_interval (emit (ESleep check_interval) (polled w)).

(** The world after [k] such rounds. *)
Definition after_pending (check_interval : Z) (k : nat) (w : World) : World :=
  Nat.iter k (pending_step check_interval) w.

End Polling.

(** The two exceptions of [wait_for_completion]. *)
Definition generation_failed (result : json) : exn :=
  PyExc Exception [Lit "Video generation failed: "; Val result].

Definition generation_timed_out (max_wait : Z) : exn :=
  PyExc TimeoutError
    [Lit "Video generation timed out after "; Int max_wait; Lit " seconds"].

(** The stores and the rotation index are the same in both worlds. *)
Definition same_store (w w' : World) : Prop :=
  videos w' = videos w /\ workflow_runs w' = workflow_runs w
  /\ workflows w' = workflows w
  /\ workflow_executions w' = workflow_executions w
  /\ custom_ideas w' = custom_ideas w
  /\ current_idea_index w' = current_idea_index w.

(** The events a run added, newest first, when it took world [w] to
    [w']; and the same in the order they happened. *)
Definition new_events (w w' : World) : list Event :=
  take (length (events w') - length (events w)) (events w').

Definition run_trace (w w' : World) : list Event := rev (new_events w w').

(** The reply to the first script-generation request of a trace. *)
Fixpoint first_script_reply (tr : list Event) : option (exn + json) :=
  match tr with
  | [] => None
  | ECall (CGenerateScript _) reply :: _ => Some reply
  | _ :: tr' => first_script_reply tr'
  end.

(** What [OpenAIClient.generate_script] makes of the reply to its
    request. *)
Definition script_of_reply (E : Env) (reply : exn + json) : exn + json :=
  let? result := reply in
  let? choices := subscript_key result "choices" in
  let? choice := subscript_0 choices in
  let? message := subscript_key choice "message" in
  let? content := subscript_key message "content" in
  loads E content.

(** The platform of a post request. *)
Definition post_platform (ev : Event) : list string :=
  match ev with
  | ECall (CCreatePost p _ _ _ _ _) _ => [p]
  | _ => []
  end.

(** The platforms posted to along a trace, in order, each with the
    verdict of its post: [true] when the request came back. *)
Definition post_verdict (ev : Event) : list (string * bool) :=
  match ev with
  | ECall (CCreatePost p _ _ _ _ _) (inr _) => [(p, true)]
  | ECall (CCreatePost p _ _ _ _ _) (inl _) => [(p, false)]
  | _ => []
  end.

Definition post_verdicts (tr : list Event) : list (string * bool) :=
  flat_map post_verdict tr.

(** Some field of a result dictionary holds the number [id]. *)
Definition carries_id (result : json) (id : nat) : bool :=
  match result with
  | JObj kv =>
      existsb (fun p => match snd p with
                        | JNum z => z =? Z.of_nat id
                        | _ => false
                        end) kv
  | _ => false
  end.

(** The keys of a result dictionary. *)
Definition keys (result : json) : list string :=
  match result with
  | JObj kv => map fst kv
  | _ => []
  end.

(** What [EnhancedAIClient.chat] returns for the reply to its request:
    the content of the first choice, or the text made of the
    exception. *)
Definition chat_text (E : Env) (reply : exn + json) : json :=
  match (let? result := reply in
         let? choices := subscript_key result "choices" in
         let? choice := subscript_0 choices in
         let? message := subscript_key choice "message" in
         subscript_key message "content") with
  | inr content => content
  | inl e => JStr (format E (Lit "Error communicating with AI: " :: exc_args e))
  end.

(** The script the executor works with for a reply text. *)
Definition script_of_text (E : Env) (idea script_response : json) : exn + json :=
  match loads E script_response with
  | inr script => inr script
  | inl _ =>
      let? slug := dict_get idea "slug" (JStr "content") in
      let? description := slice_200 script_response in
      inr (JObj [("title", JStr (format E [Lit "Video about "; Val slug]));
                 ("description", description);
                 ("prompt", script_response);
                 ("hashtags", JStr "#cute #viral #pets")])
  end.

(** ** Auxiliary notions and sample environments *)

Definition is_dict (v : json) : bool :=
  match v with
  | JObj _ => true
  | _ => false
  end.

(** The platform names the executor knows how to post to. *)
Definition supported (p : string) : bool :=
  String.eqb p "youtube" || String.eqb p "instagram" || String.eqb p "tiktok".


(** An upload that came back with a media reference. *)
Definition upload_ok (ev : Event) : bool :=
  match ev with
  | ECall (CUploadMedia _) (inr media) =>
      match subscript_key media "url" with
      | inr _ => true
      | inl _ => false
      end
  | _ => false
  end.

Definition demo_body (content : string) : json :=
  JObj [("choices", JArr [JObj [("message", JObj [("content", JStr content)])]])].

Definition demo_script : json :=
  JObj [("title", JStr "T"); ("description", JStr "D"); ("prompt", JStr "P");
        ("hashtags", JStr "#a #b")].

(** An environment in which every collaborator answers well, except that
    posts to the platform [bad] raise. *)
Definition demo_respond (bad : string) (n : nat) (c : Call) : exn + json :=
  match c with
  | CGenerateScript _ => inr (demo_body "S")
  | CChat _ _ => inr (demo_body "S")
  | CCreateVideo _ _ _ => inr (JObj [("data", JObj [("taskId", JStr "t1")])])
  | CGetTaskStatus _ =>
      inr (JObj [("data",
                  JObj [("status", JStr "SUCCESS");
                        ("resultJson",
                         JObj [("resultUrls", JArr [JStr "http://x/video.mp4"])])])])
  | CUploadMedia _ => inr (JObj [("url", JStr "m")])
  | CCreatePost p _ _ _ _ _ =>
      if String.eqb p bad then inl (PyExc RequestException [Lit "500"])
      else inr (JObj [])
  end.

Definition demo_env (bad : string) : Env :=
  mkEnv (demo_respond bad) (fun _ => 1%nat)
        (fun s => if String.eqb s "S" then inr demo_script
                  else inl (PyExc JSONDecodeError [Lit "Expecting value"]))
        (fun _ => "message") (fun _ => "traceback").

(** A fresh process on a store that holds one closed run and no
    video. *)
Definition world_one_run : World :=
  mkWorld [] [mkRunRow true "failed" None (Some "message")] [] [] [] 0 0 [].

(** An environment as [demo_env] whose model replies with the plain text
    [content] and whose [json.loads] is the decoder of this file. *)
Definition text_respond (content : string) (n : nat) (c : Call) : exn + json :=
  match c with
  | CGenerateScript _ => inr (demo_body content)
  | CChat _ _ => inr (demo_body content)
  | _ => demo_respond "none" n c
  end.

Definition text_env (content : string) : Env :=
  mkEnv (text_respond content) (fun _ => 1%nat) json_decode
        (fun _ => "message") (fun _ => "traceback").

(** A store that holds the default workflow of
    [setup_default_workflow], active. *)
Definition default_workflow : WorkflowRow :=
  mkWorkflowRow "pet-video-automation" "video_creation"
    (JObj [("video_type", JStr "pet_animals");
           ("platforms", JArr [JStr "tiktok"; JStr "instagram"; JStr "youtube"]);
           ("aspect_ratio", JStr "9:16");
           ("idea_bank", JStr "default")])
    "active" 0 0 0.

Definition world_default_workflow : World :=
  mkWorld [] [] [Some default_workflow] [] [] 0 0 [].


(** An environment as [demo_env "none"] in which one stage goes wrong:
    the submission raises (stage "created"), the first poll reports
    FAILED (stage "generating"), or the upload raises (stage
    "generated"). *)
Definition failing_respond (stage : string) (n : nat) (c : Call) : exn + json :=
  match c with
  | CCreateVideo _ _ _ =>
      if String.eqb stage "created"
      then inl (PyExc RequestException [Lit "503"])
      else demo_respond "none" n c
  | CGetTaskStatus _ =>
      if String.eqb stage "generating"
      then inr (JObj [("data", JObj [("status", JStr "FAILED")])])
      else demo_respond "none" n c
  | CUploadMedia _ =>
      if String.eqb stage "generated"
      then inl (PyExc RequestException [Lit "503"])
      else demo_respond "none" n c
  | _ => demo_respond "none" n c
  end.

Definition failing_env (stage : string) : Env :=
  mkEnv (failing_respond stage) (fun _ => 1%nat)
        (fun s => if String.eqb s "S" then inr demo_script
                  else inl (PyExc JSONDecodeError [Lit "Expecting value"]))
        (fun _ => "message") (fun _ => "traceback").

(** A fresh process on an empty store. *)
Definition world_empty : World := mkWorld [] [] [] [] [] 0 0 [].

(** An environment in which the task is still running at the first poll
    and done at the next one. *)
Definition slow_respond (n : nat) (c : Call) : exn + json :=
  match c with
  | CGetTaskStatus _ =>
      if (n <? 2)%nat
      then inr (JObj [("data", JObj [("status", JStr "GENERATING")])])
      else demo_respond "none" n c
  | _ => demo_respond "none" n c
  end.

Definition slow_env : Env :=
  mkEnv slow_respond (fun _ => 1%nat)
        (fun s => if String.eqb s "S" then inr demo_script
                  else inl (PyExc JSONDecodeError [Lit "Expecting value"]))
        (fun _ => "message") (fun _ => "traceback").



(** The poll result of a finished task whose [resultJson] is the value
    [payload]. *)
Definition finished (payload : json) : json :=
  JObj [("data", JObj [("status", JStr "SUCCESS"); ("resultJson", payload)])].

(** ** ideas.py, the other operations *)

Definition set_custom_ideas (ideas : list json) (w : World) : World :=
  mkWorld (videos w) (workflow_runs w) (workflows w) (workflow_executions w)
          ideas (current_idea_index w) (now w) (events w).

(** [get_idea_by_slug(slug)] over the contents [ideas] of the list: the
    first idea whose ['slug'] equals [slug], and [None] when the loop
    runs to its end.  An entry without that key makes the subscript
    raise. *)
Fixpoint get_idea_by_slug (ideas : list json) (slug : string) : exn + json :=
  match ideas with
  | [] => inr JNull
  | idea :: rest =>
      let? s := subscript_key idea "slug" in
      if eq_str s slug then inr idea else get_idea_by_slug rest slug
  end.

(** [add_custom_idea(idea_data)]: append, return the last index. *)
Definition add_custom_idea (idea_data : json) : M Z :=
  fun w =>
    let ideas := (custom_ideas w ++ [idea_data])%list in
    (Ok (Z.of_nat (length (bank ideas)) - 1), set_custom_ideas ideas w).

(** The loop of [get_idea_by_slug] passes over [idea]: it has a slug and
    the slug is another one. *)
Definition other_slug (slug : string) (idea : json) : bool :=
  match subscript_key idea "slug" with
  | inr s => negb (eq_str s slug)
  | inl _ => false
  end.

(** An environment in which every request comes back with a body whose
    ['data'] is null. *)
Definition null_data_env : Env :=
  mkEnv (fun _ _ => inr (JObj [("data", JNull)])) (fun _ => 1%nat)
        json_decode (fun _ => "message") (fun _ => "traceback").

(** ** enhanced-system/database.py, reading *)

(** [Database.get_video(video_id)] *)
Definition get_video (video_id : nat) : M (option VideoRow) :=
  fun w => (Ok (row video_id (videos w)), w).

(** [SELECT COUNT( * ) ... WHERE status = ?] *)
Definition count_status {R} (status_of : R -> string) (s : string) (t : list R)
  : Z :=
  Z.of_nat (length (List.filter (fun r => String.eqb (status_of r) s) t)).

(** [Database.get_stats].  SQL leaves the order of the groups of
    [GROUP BY status] open; the dictionary built from them lists each
    status once, here in the order of its first row. *)
Definition get_stats : M json :=
  fun w =>
    (Ok (JObj [("total_videos", JNum (Z.of_nat (length (videos w))));
               ("videos_by_status",
                JObj (map (fun s => (s, JNum (count_status v_status s (videos w))))
                        (nodup string_dec (map v_status (videos w)))));
               ("total_runs", JNum (Z.of_nat (length (workflow_runs w))));
               ("successful_runs",
                JNum (count_status r_status "completed" (workflow_runs w)));
               ("failed_runs",
                JNum (count_status r_status "failed" (workflow_runs w)))]),
     w).

(** One entry of the statistics of a world. *)
Definition stat (key : string) (w : World) : exn + json :=
  match fst (get_stats w) with
  | Ok stats => subscript_key stats key
  | Raise e => inl e
  | OutOfFuel => inl (PyExc Exception [])
  end.

(** ** enhanced-system/scheduler.py *)

Section Scheduler.

Variable E : Env.

(** [AutomationScheduler.scheduled_workflow_run]: the run of the engine,
    then the two subscripts of the log lines. *)
Definition scheduled_workflow_run : M json :=
  result <- run_workflow E ;;
  success <- lift (subscript_key result "success") ;;
  (if truthy success then ret tt
   else _ <- lift (subscript_key result "error") ;; ret tt) ;;;
  ret result.

(** [AutomationScheduler.run_now] *)
Definition run_now : M json := run_workflow E.

(** The world after [k] runs of the same engine, one after the other. *)
Definition after_runs (k : nat) (w : World) : World :=
  Nat.iter k (fun w0 => snd (run_now w0)) w.

End Scheduler.

(** ** Observations on requests *)

(** The ideas of the script requests of a trace, in order. *)
Definition script_request (ev : Event) : list json :=
  match ev with
  | ECall (CGenerateScript idea) _ => [idea]
  | _ => []
  end.

Definition script_requests (tr : list Event) : list json :=
  flat_map script_request tr.

(** The ideas of the chat requests of a trace, in order. *)
Definition chat_request (ev : Event) : list json :=
  match ev with
  | ECall (CChat idea _) _ => [idea]
  | _ => []
  end.

Definition chat_requests (tr : list Event) : list json :=
  flat_map chat_request tr.

(** ** Observations on the executor *)

(** A platform name for which the loop of [_execute_video_creation] has
    no branch. *)
Definition unsupported (platform : json) : bool :=
  negb (eq_str platform "youtube" || eq_str platform "instagram"
        || eq_str platform "tiktok").

(** The run counters of a workflow row add up. *)
Definition counters_add_up (o : option WorkflowRow) : Prop :=
  match o with
  | Some wf => wf_total_runs wf = wf_successful_runs wf + wf_failed_runs wf
  | None => True
  end.

(** The workflow types whose executor is a placeholder. *)
Definition placeholder_type (t : string) : bool :=
  String.eqb t "engagement" || String.eqb t "analytics" || String.eqb t "custom".

(** A store whose only workflow is an active one of type [t] with the
    platform list [platforms]. *)
Definition workflow_of (t : string) (platforms : list json) : WorkflowRow :=
  mkWorkflowRow "w" t
    (JObj [("platforms", JArr platforms); ("idea_bank", JStr "default")])
    "active" 0 0 0.

Definition world_of (t : string) (platforms : list json) : World :=
  mkWorld [] [] [Some (workflow_of t platforms)] [] [] 0 0 [].

(** ** workflow_manager.py, pausing and resuming *)

(** The store of the manager: the world and, beside the rows of table
    [workflows], their column [updated_at], one time per row id. *)
Record Managed : Type := mkManaged {
  m_world : World;
  m_updated_at : list Z
}.

Definition set_wf_status (s : string) (wf : WorkflowRow) : WorkflowRow :=
  mkWorkflowRow (wf_name wf) (wf_type wf) (wf_config wf) s
    (wf_total_runs wf) (wf_successful_runs wf) (wf_failed_runs wf).

(** [WorkflowManager.update_workflow(workflow_id, status=status)], the
    one form in which the class calls it:
    [UPDATE workflows SET status = ?, updated_at = CURRENT_TIMESTAMP
     WHERE id = ?], which changes the row with that id if there is one,
    its [updated_at] becoming the time of the call, which the model
    reads off the clock of the world. *)
Definition update_workflow (workflow_id : nat) (status : string)
  : Managed -> outcome unit * Managed :=
  fun m =>
    let w := m_world m in
    (Ok tt,
     mkManaged
       (set_workflows
          (update_row workflow_id (option_map (set_wf_status status))
             (workflows w)) w)
       (match row workflow_id (workflows w) with
        | Some (Some _) => update_row workflow_id (fun _ => now w) (m_updated_at m)
        | _ => m_updated_at m
        end)).

(** [WorkflowManager.pause_workflow] and [resume_workflow] *)
Definition pause_workflow (workflow_id : nat)
  : Managed -> outcome unit * Managed :=
  update_workflow workflow_id "paused".

Definition resume_workflow (workflow_id : nat)
  : Managed -> outcome unit * Managed :=
  update_workflow workflow_id "active".

(** The store with the default workflow, last updated at time 3, at a
    later time 50. *)
Definition managed_default_workflow : Managed :=
  mkManaged (mkWorld [] [] [Some default_workflow] [] [] 0 50 []) [3].

(** ** What sqlite3 can bind *)



(** An environment in which every request comes back with the empty
    body. *)
Definition empty_body_env : Env :=
  mkEnv (fun _ _ => inr (JObj [])) (fun _ => 1%nat)
        json_decode (fun _ => "message") (fun _ => "traceback").

(** ** ai_client.py, [generate_workflow_config] *)

(** [s.find(c)] and [s.rfind(c)] for a one-character [c]: the index of
    the first and of the last occurrence, [-1] when there is none. *)
Fixpoint find (c : ascii) (s : string) : Z :=
  match s with
  | EmptyString => -1
  | String a r =>
      if Ascii.eqb a c then 0
      else let i := find c r in if i <? 0 then -1 else i + 1
  end.

Fixpoint rfind (c : ascii) (s : string) : Z :=
  match s with
  | EmptyString => -1
  | String a r =>
      let i := rfind c r in
      if 0 <=? i then i + 1 else if Ascii.eqb a c then 0 else -1
  end.

Fixpoint skip (n : nat) (s : string) : string :=
  match n, s with
  | S n', String _ r => skip n' r
  | _, _ => s
  end.

(** [s[a:b]] for indices that are not negative. *)
Definition slice (a b : Z) (s : string) : string :=
  prefix (Z.to_nat (b - a)) (skip (Z.to_nat a) s).

(** The [try] of [EnhancedAIClient.generate_workflow_config], as a
    function of the text [response] that [chat] returned: the text
    between the first opening and the last closing brace is decoded, or
    the whole text when there is no such pair; whatever is raised on the
    way, the bare [except] turns into the error configuration. *)
Definition generate_workflow_config (E : Env) (response : json) : json :=
  match (match response with
         | JStr s =>
             let json_start := find "{" s in
             let json_end := rfind "}" s + 1 in
             if (0 <=? json_start) && (json_start <? json_end)
             then json_loads E (slice json_start json_end s)
             else json_loads E s
         | _ => inl (PyExc AttributeError [Lit "object has no attribute 'find'"])
         end) with
  | inr config => config
  | inl _ =>
      JObj [("error", JStr "Could not parse workflow configuration");
            ("raw_response", response)]
  end.

(** The text [{"name":"x"}]. *)
Definition example_config : string :=
  ("{" ++ quoted "name" ++ ":" ++ quoted "x" ++ "}")%string.
(** ** Rotation lemmas *)

Lemma get_next_idea_in_range (ideas : list json) (i : nat) (idea : json) :
  ideas !! i = Some idea ->
  get_next_idea ideas (Z.of_nat i)
  = inr (idea, (Z.of_nat i + 1) mod Z.of_nat (length ideas)).
Proof.
  intros Hi. unfold get_next_idea.
  pose proof (lookup_lt_Some _ _ _ Hi) as Hlt.
  destruct (Z.eqb_spec (Z.of_nat (length ideas)) 0) as [E|_]; [lia|].
  rewrite Z.mod_small by lia.
  rewrite Nat2Z.id, Hi. reflexivity.
Qed.

Lemma rotation_segment (ideas : list json) (k i : nat) :
  (0 < k)%nat -> (i + k <= length ideas)%nat ->
  rotation ideas k (Z.of_nat i)
  = inr (take k (drop i ideas),
         Z.of_nat (i + k) mod Z.of_nat (length ideas)).
Proof.
  revert i. induction k as [|k IH]; intros i Hk Hle; [lia|].
  destruct (lookup_lt_is_Some_2 ideas i ltac:(lia)) as [idea Hidea].
  cbn [rotation]. rewrite (get_next_idea_in_range _ _ _ Hidea).
  rewrite (drop_S _ _ _ Hidea). cbn [take].
  destruct k as [|k'].
  - cbn [rotation take]. do 3 f_equal. lia.
  - assert (Hsmall : (Z.of_nat i + 1) mod Z.of_nat (length ideas)
                     = Z.of_nat (S i)).
    { rewrite Z.mod_small by lia. lia. }
    rewrite Hsmall, (IH (S i)) by lia.
    do 3 f_equal. lia.
Qed.

Lemma rotation_full_cycle (ideas : list json) :
  ideas <> [] ->
  rotation ideas (length ideas) 0 = inr (ideas, 0).
Proof.
  intros Hne.
  assert (0 < length ideas)%nat by (destruct ideas; [congruence | cbn; lia]).
  change 0 with (Z.of_nat 0).
  rewrite rotation_segment by lia.
  rewrite drop_0, firstn_all, Nat.add_0_l, Z.mod_same by lia.
  reflexivity.
Qed.

(** C7. For a catalog of N ideas (the ten literal ones and any appended
    later), N successive calls of [get_next_idea] starting at index 0,
    each fed the previous call's next index, return the catalog entries
    one by one in order, so each entry exactly once, and the index is
    back at 0. *)
Theorem rotation_visits_catalog_once (custom : list json) :
  rotation (bank custom) (length (bank custom)) 0 = inr (bank custom, 0).
Proof.
  apply rotation_full_cycle. unfold bank, IDEAS. discriminate.
Qed.

(** ** Exceptions *)

Lemma isinstance_Exception (e : exn) : isinstance_exn e Exception = true.
Proof. destruct e as [[] args]; reflexivity. Qed.

(** ** The completion poll *)

Section PollingFacts.

Variable E : Env.
Variable task_id : json.

Lemma wait_loop_step (fuel : nat) (start_time max_wait check_interval : Z)
    (w : World) :
  wait_loop E (S fuel) task_id start_time max_wait check_interval w
  = if now w - start_time <? max_wait then
      match poll_reply E task_id w with
      | inl e => (Raise e, polled E task_id w)
      | inr result =>
          match task_status result with
          | inl e => (Raise e, polled E task_id w)
          | inr st =>
              if eq_str st "SUCCESS" then (Ok result, polled E task_id w)
              else if eq_str st "FAILED" || eq_str st "ERROR"
              then (Raise (generation_failed result), polled E task_id w)
              else if check_interval <? 0
              then (Raise (PyExc ValueError
                             [Lit "sleep length must be non-negative"]),
                    polled E task_id w)
              else wait_loop E fuel task_id start_time max_wait check_interval
                     (pending_step E task_id check_interval w)
          end
      end
    else (Raise (generation_timed_out max_wait), w).
Proof.
  cbn [wait_loop]. unfold bind at 1, time_time.
  destruct (now w - start_time <? max_wait); [|reflexivity].
  unfold bind at 1, get_task_status, http. fold (poll_reply E task_id w).
  fold (polled E task_id w).
  destruct (poll_reply E task_id w) as [e|result]; [reflexivity|].
  unfold bind at 1, lift at 1.
  destruct (task_status result) as [e|st]; [reflexivity|].
  destruct (eq_str st "SUCCESS"); [reflexivity|].
  unfold bind at 1, lift at 1.
  destruct (eq_str st "FAILED" || eq_str st "ERROR"); [reflexivity|].
  unfold bind at 1, time_sleep.
  destruct (check_interval <? 0); reflexivity.
Qed.

Lemma now_pending_step (check_interval : Z) (w : World) :
  now (pending_step E task_id check_interval w)
  = now w + Z.of_nat (elapse E (length (events w))) + check_interval.
Proof. reflexivity. Qed.

Lemma after_pending_S (check_interval : Z) (k : nat) (w : World) :
  after_pending E task_id check_interval (S k) w
  = after_pending E task_id check_interval k
      (pending_step E task_id check_interval w).
Proof. unfold after_pending. apply Nat.iter_succ_r. Qed.

Lemma now_after_pending (check_interval : Z) (k : nat) (w : World) :
  0 <= check_interval ->
  now w + Z.of_nat k * check_interval
  <= now (after_pending E task_id check_interval k w).
Proof.
  intros Hci. revert w. induction k as [|k IH]; intros w.
  - cbn. lia.
  - rewrite after_pending_S. specialize (IH (pending_step E task_id check_interval w)).
    rewrite now_pending_step in IH. nia.
Qed.

(** [k] polls without verdict, each within the budget, take the loop to
    the world [after_pending k]. *)
Lemma wait_loop_pending (check_interval start_time max_wait : Z) (k : nat) :
  0 <= check_interval ->
  forall (fuel : nat) (w : World),
    (forall j, (j < k)%nat ->
       now (after_pending E task_id check_interval j w) - start_time < max_wait
       /\ is_pending (poll_reply E task_id
                        (after_pending E task_id check_interval j w)) = true) ->
    wait_loop E (k + fuel) task_id start_time max_wait check_interval w
    = wait_loop E fuel task_id start_time max_wait check_interval
        (after_pending E task_id check_interval k w).
Proof.
  intros Hci. induction k as [|k IH]; intros fuel w Hpend; [reflexivity|].
  destruct (Hpend 0%nat ltac:(lia)) as [Hbudget Hp]. cbn in Hbudget, Hp.
  change (S k + fuel)%nat with (S (k + fuel)).
  rewrite wait_loop_step.
  destruct (Z.ltb_spec (now w - start_time) max_wait) as [_|?]; [|lia].
  unfold is_pending, reply_status in Hp.
  destruct (poll_reply E task_id w) as [e|result]; [discriminate|].
  destruct (task_status result) as [e|st]; [discriminate|].
  apply andb_true_iff in Hp as [Hs Hf]. apply negb_true_iff in Hs, Hf.
  rewrite Hs, Hf.
  destruct (Z.ltb_spec check_interval 0) as [?|_]; [lia|].
  rewrite after_pending_S. apply IH.
  intros j Hj. specialize (Hpend (S j) ltac:(lia)).
  rewrite after_pending_S in Hpend. exact Hpend.
Qed.

(** The loop changes nothing but the clock and the trace, to which it
    adds polls of the task and sleeps. *)
Lemma wait_loop_frame (start_time max_wait check_interval : Z) (fuel : nat) :
  forall (w w' : World) (r : outcome json),
    wait_loop E fuel task_id start_time max_wait check_interval w = (r, w') ->
    same_store w w'
    /\ exists evs, events w' = (evs ++ events w)%list
                   /\ forallb (fun ev => is_poll ev || negb (is_call ev)) evs = true
                   /\ forallb (fun ev => negb (is_upload ev || is_post ev)) evs = true
                   /\ forall v, status_history v (rev evs) = [].
Proof.
  induction fuel as [|fuel IH]; intros w w' r H.
  - cbn in H. injection H as <- <-. split; [repeat split|].
    exists []. repeat split.
  - rewrite wait_loop_step in H.
    assert (Hpolled : forall r0, (r0, polled E task_id w) = (r, w') ->
              same_store w w'
              /\ exists evs, events w' = (evs ++ events w)%list
                   /\ forallb (fun ev => is_poll ev || negb (is_call ev)) evs = true
                   /\ forallb (fun ev => negb (is_upload ev || is_post ev)) evs = true
                   /\ forall v, status_history v (rev evs) = []).
    { intros r0 H0. injection H0 as <- <-. split; [repeat split|].
      exists [ECall (CGetTaskStatus task_id) (poll_reply E task_id w)].
      repeat split. }
    destruct (now w - start_time <? max_wait).
    + destruct (poll_reply E task_id w) as [e|result] eqn:Hreply; [eauto|].
      destruct (task_status result) as [e|st]; [eauto|].
      destruct (eq_str st "SUCCESS"); [eauto|].
      destruct (eq_str st "FAILED" || eq_str st "ERROR"); [eauto|].
      destruct (check_interval <? 0); [eauto|].
      apply IH in H as (Hs & evs & Hev & Hp & Hu & Hh).
      split.
      * destruct Hs as (?&?&?&?&?&?). repeat split; assumption.
      * exists (evs ++ [ESleep check_interval;
                        ECall (CGetTaskStatus task_id) (poll_reply E task_id w)])%list.
        split; [|split; [|split]].
        -- rewrite Hev. cbn. rewrite <- app_assoc. reflexivity.
        -- rewrite forallb_app, Hp. reflexivity.
        -- rewrite forallb_app, Hu. reflexivity.
        -- intros v. rewrite rev_app_distr. unfold status_history in *.
           rewrite flat_map_app, Hh. reflexivity.
    + injection H as <- <-. split; [repeat split|]. exists []. repeat split.
Qed.

(** With a positive interval the loop stops before its fuel does. *)
Lemma wait_loop_terminates (start_time max_wait check_interval : Z) (fuel : nat) :
  0 < check_interval ->
  forall w : World,
    Z.max 0 (max_wait - (now w - start_time)) < Z.of_nat fuel ->
    fst (wait_loop E fuel task_id start_time max_wait check_interval w)
    <> OutOfFuel.
Proof.
  intros Hci. induction fuel as [|fuel IH]; intros w Hfuel; [lia|].
  rewrite wait_loop_step.
  destruct (Z.ltb_spec (now w - start_time) max_wait) as [Hlt|Hge];
    [|cbn; discriminate].
  destruct (poll_reply E task_id w) as [e|result]; [cbn; discriminate|].
  destruct (task_status result) as [e|st]; [cbn; discriminate|].
  destruct (eq_str st "SUCCESS"); [cbn; discriminate|].
  destruct (eq_str st "FAILED" || eq_str st "ERROR"); [cbn; discriminate|].
  destruct (check_interval <? 0); [cbn; discriminate|].
  apply IH. rewrite now_pending_step. lia.
Qed.

End PollingFacts.

Section WaitForCompletion.

Variable E : Env.
Variable task_id : json.
Variables max_wait check_interval : option Z.

Let mw : Z := default 600 max_wait.
Let ci : Z := default 10 check_interval.

Lemma wait_for_completion_unfold (w : World) :
  wait_for_completion E task_id max_wait check_interval w
  = wait_loop E (S (Z.to_nat mw)) task_id (now w) mw ci w.
Proof. reflexivity. Qed.

Lemma wait_for_completion_returns (w : World) :
  0 < ci ->
  fst (wait_for_completion E task_id max_wait check_interval w) <> OutOfFuel.
Proof.
  intros Hci. rewrite wait_for_completion_unfold.
  apply wait_loop_terminates; [exact Hci|]. lia.
Qed.

Lemma wait_for_completion_frame (w w' : World) (r : outcome json) :
  wait_for_completion E task_id max_wait check_interval w = (r, w') ->
  same_store w w'
  /\ exists evs, events w' = (evs ++ events w)%list
                 /\ forallb (fun ev => is_poll ev || negb (is_call ev)) evs = true
                 /\ forallb (fun ev => negb (is_upload ev || is_post ev)) evs = true
                 /\ forall v, status_history v (rev evs) = [].
Proof. rewrite wait_for_completion_unfold. apply wait_loop_frame. Qed.

(** After [k] polls without verdict inside the budget, the call is at
    the head of the loop in world [after_pending k] with fuel left. *)
Lemma wait_for_completion_pending (w : World) (k : nat) :
  0 < ci ->
  (forall j, (j < k)%nat ->
     now (after_pending E task_id ci j w) - now w < mw
     /\ is_pending (poll_reply E task_id (after_pending E task_id ci j w)) = true) ->
  exists fuel,
    wait_for_completion E task_id max_wait check_interval w
    = wait_loop E (S fuel) task_id (now w) mw ci (after_pending E task_id ci k w).
Proof.
  intros Hci Hpend.
  assert (Hk : (k <= Z.to_nat mw)%nat).
  { destruct k as [|k]; [lia|].
    destruct (Hpend k ltac:(lia)) as [Hb _].
    pose proof (now_after_pending E task_id ci k w ltac:(lia)). nia. }
  exists (Z.to_nat mw - k)%nat.
  rewrite wait_for_completion_unfold.
  replace (S (Z.to_nat mw)) with (k + S (Z.to_nat mw - k))%nat by lia.
  apply wait_loop_pending; [lia | exact Hpend].
Qed.

End WaitForCompletion.

(** C3. The completion protocol of [wait_for_completion], whose
    defaults are a budget of 600 time units and a poll every 10.
    Suppose the first [k] polls came back without a verdict, each inside
    the budget.  Then: if the budget still holds and the next poll
    reports SUCCESS, that poll's result is returned; if it reports FAILED
    or ERROR, the generation-failure exception (class [Exception]) is
    raised; if instead the budget has run out, [TimeoutError] is raised,
    a class the generation failure is not an instance of.  And when no
    poll ever gives a verdict the call does end, with that
    [TimeoutError]. *)
Theorem wait_for_completion_protocol (E : Env) (task_id : json)
    (max_wait check_interval : option Z) (w : World) (k : nat) :
  let mw := default 600 max_wait in
  let ci := default 10 check_interval in
  let wk := after_pending E task_id ci k w in
  0 < ci ->
  (forall j, (j < k)%nat ->
     now (after_pending E task_id ci j w) - now w < mw
     /\ is_pending (poll_reply E task_id (after_pending E task_id ci j w)) = true) ->
  (forall result,
     now wk - now w < mw ->
     poll_reply E task_id wk = inr result ->
     reply_status (inr result) = Some (JStr "SUCCESS") ->
     wait_for_completion E task_id max_wait check_interval w
     = (Ok result, polled E task_id wk))
  /\ (forall result st,
        now wk - now w < mw ->
        poll_reply E task_id wk = inr result ->
        reply_status (inr result) = Some (JStr st) ->
        st = "FAILED" \/ st = "ERROR" ->
        wait_for_completion E task_id max_wait check_interval w
        = (Raise (generation_failed result), polled E task_id wk))
  /\ (mw <= now wk - now w ->
      wait_for_completion E task_id max_wait check_interval w
      = (Raise (generation_timed_out mw), wk))
  /\ ((forall n, is_pending (respond E n (CGetTaskStatus task_id)) = true) ->
      exists w',
        wait_for_completion E task_id max_wait check_interval w
        = (Raise (generation_timed_out mw), w')
        /\ mw <= now w' - now w)
  /\ isinstance_exn (generation_timed_out mw) TimeoutError = true
  /\ (forall result,
        exc_class (generation_failed result) = Exception
        /\ isinstance_exn (generation_failed result) TimeoutError = false).
Proof.
  intros mw ci wk Hci Hpend.
  destruct (wait_for_completion_pending E task_id max_wait check_interval w k
              Hci Hpend) as [fuel Hloop].
  fold mw ci wk in Hloop.
  repeat split.
  - intros result Hb Hreply Hst. rewrite Hloop, wait_loop_step.
    destruct (Z.ltb_spec (now wk - now w) mw) as [_|?]; [|lia].
    rewrite Hreply. cbn in Hst.
    destruct (task_status result) as [e|st]; [discriminate|].
    injection Hst as ->. reflexivity.
  - intros result st Hb Hreply Hst Hfail. rewrite Hloop, wait_loop_step.
    destruct (Z.ltb_spec (now wk - now w) mw) as [_|?]; [|lia].
    rewrite Hreply. cbn in Hst.
    destruct (task_status result) as [e|st']; [discriminate|].
    injection Hst as ->. destruct Hfail as [-> | ->]; reflexivity.
  - intros Hover. rewrite Hloop, wait_loop_step.
    destruct (Z.ltb_spec (now wk - now w) mw) as [?|_]; [lia|]. reflexivity.
  - intros Hall. rewrite wait_for_completion_unfold. fold mw ci.
    assert (Hgen : forall fuel' w1,
              now w <= now w1 ->
              Z.max 0 (mw - (now w1 - now w)) < Z.of_nat fuel' ->
              exists w', wait_loop E fuel' task_id (now w) mw ci w1
                         = (Raise (generation_timed_out mw), w')
                         /\ mw <= now w' - now w).
    { induction fuel' as [|fuel' IH]; intros w1 Hle Hfuel; [lia|].
      rewrite wait_loop_step.
      destruct (Z.ltb_spec (now w1 - now w) mw) as [Hlt|Hge].
      - pose proof (Hall (length (events w1))) as Hp.
        unfold is_pending, reply_status in Hp. unfold poll_reply.
        destruct (respond E (length (events w1)) (CGetTaskStatus task_id))
          as [e|result]; [discriminate|].
        destruct (task_status result) as [e|st]; [discriminate|].
        apply andb_true_iff in Hp as [Hs Hf]. apply negb_true_iff in Hs, Hf.
        rewrite Hs, Hf.
        destruct (Z.ltb_spec ci 0) as [?|_]; [lia|].
        apply IH; rewrite now_pending_step; lia.
      - eexists. split; [reflexivity | lia]. }
    apply Hgen; lia.
Qed.

(** ** Stepping through a run *)

Arguments wait_for_completion : simpl never.
Arguments bank : simpl never.
Arguments get_next_idea : simpl never.
Arguments extract_video_url : simpl never.
Arguments subscript_key : simpl never.
Arguments subscript_0 : simpl never.
Arguments dict_get : simpl never.
Arguments loads : simpl never.
Arguments str_exn : simpl never.
Arguments String.eqb : simpl never.
Arguments eq_str : simpl never.
Arguments truthy : simpl never.

Lemma bind_inv {A B} (c : M A) (k : A -> M B) (w w' : World) (r : outcome B) :
  bind c k w = (r, w') ->
  match c w with
  | (Ok a, w1) => k a w1 = (r, w')
  | (Raise e, w1) => r = Raise e /\ w' = w1
  | (OutOfFuel, w1) => r = OutOfFuel /\ w' = w1
  end.
Proof.
  unfold bind. destruct (c w) as [[a|e|] w1]; intros H;
    [exact H | injection H as <- <-; split; reflexivity ..].
Qed.

Lemma try_except_inv {A} (c : M A) (h : exn -> M A) (w w' : World)
    (r : outcome A) :
  try_except c h w = (r, w') ->
  match c w with
  | (Ok a, w1) => r = Ok a /\ w' = w1
  | (Raise e, w1) => h e w1 = (r, w')
  | (OutOfFuel, w1) => r = OutOfFuel /\ w' = w1
  end.
Proof.
  unfold try_except. destruct (c w) as [[a|e|] w1]; intros H.
  - injection H as <- <-; split; reflexivity.
  - rewrite isinstance_Exception in H. exact H.
  - injection H as <- <-; split; reflexivity.
Qed.

Lemma try_except_all_inv {A} (c : M A) (h : M A) (w w' : World)
    (r : outcome A) :
  try_except_all c h w = (r, w') ->
  match c w with
  | (Ok a, w1) => r = Ok a /\ w' = w1
  | (Raise e, w1) => h w1 = (r, w')
  | (OutOfFuel, w1) => r = OutOfFuel /\ w' = w1
  end.
Proof.
  unfold try_except_all. destruct (c w) as [[a|e|] w1]; intros H;
    [injection H as <- <-; split; reflexivity | exact H
    | injection H as <- <-; split; reflexivity].
Qed.

Lemma attempt_inv {A} (c : M A) (w w' : World) (r : outcome (exn + A)) :
  attempt c w = (r, w') ->
  match c w with
  | (Ok a, w1) => r = Ok (inr a) /\ w' = w1
  | (Raise e, w1) => r = Ok (inl e) /\ w' = w1
  | (OutOfFuel, w1) => r = OutOfFuel /\ w' = w1
  end.
Proof.
  unfold attempt. intros H. apply try_except_inv in H.
  unfold bind, ret in H. destruct (c w) as [[a|e|] w1].
  - destruct H as [-> ->]. split; reflexivity.
  - injection H as <- <-. split; reflexivity.
  - exact H.
Qed.

Lemma lift_inv {A} (x : exn + A) (w w' : World) (r : outcome A) :
  lift x w = (r, w') ->
  w' = w /\ match x with inl e => r = Raise e | inr a => r = Ok a end.
Proof.
  unfold lift. destruct x; intros H; injection H as <- <-; split; reflexivity.
Qed.

Lemma http_inv (E : Env) (c : Call) (w w' : World) (r : outcome json) :
  http E c w = (r, w') ->
  w' = advance (Z.of_nat (elapse E (length (events w))))
         (emit (ECall c (respond E (length (events w)) c)) w)
  /\ match respond E (length (events w)) c with
     | inl e => r = Raise e
     | inr v => r = Ok v
     end.
Proof.
  unfold http. cbv zeta.
  destruct (respond E (length (events w)) c); intros H;
    injection H as <- <-; split; reflexivity.
Qed.

(** The bank is never empty, so picking the next idea cannot fail. *)
Lemma get_next_idea_bank (custom : list json) (i : Z) :
  exists idea,
    get_next_idea (bank custom) i
    = inr (idea, (i + 1) mod Z.of_nat (length (bank custom))).
Proof.
  unfold get_next_idea.
  assert (Hlen : 0 < Z.of_nat (length (bank custom))).
  { unfold bank. rewrite length_app. cbn. lia. }
  destruct (Z.eqb_spec (Z.of_nat (length (bank custom))) 0) as [?|_]; [lia|].
  pose proof (Z.mod_pos_bound i _ Hlen) as Hb.
  destruct (lookup_lt_is_Some_2 (bank custom)
              (Z.to_nat (i mod Z.of_nat (length (bank custom))))
              ltac:(lia)) as [idea Hidea].
  exists idea. rewrite Hidea. rewrite Z.add_mod_idemp_l by lia. reflexivity.
Qed.

Lemma next_idea_advances (w : World) :
  exists idea,
    next_idea w
    = (Ok idea,
       set_current_idea_index
         ((current_idea_index w + 1) mod Z.of_nat (length (bank (custom_ideas w))))
         w).
Proof.
  destruct (get_next_idea_bank (custom_ideas w) (current_idea_index w))
    as [idea H].
  exists idea. unfold next_idea. rewrite H. reflexivity.
Qed.

(** The clients in one step each. *)
Lemma generate_script_spec (E : Env) (idea : json) (w : World) :
  generate_script E idea w
  = (match script_of_reply E (respond E (length (events w)) (CGenerateScript idea)) with
     | inl e => Raise e
     | inr script => Ok script
     end,
     advance (Z.of_nat (elapse E (length (events w))))
       (emit (ECall (CGenerateScript idea)
                (respond E (length (events w)) (CGenerateScript idea))) w)).
Proof.
  unfold generate_script, script_of_reply, bind, http, lift. cbv zeta.
  destruct (respond E (length (events w)) (CGenerateScript idea)) as [e|result];
    [reflexivity|].
  destruct (subscript_key result "choices") as [e|choices]; [reflexivity|].
  destruct (subscript_0 choices) as [e|choice]; [reflexivity|].
  destruct (subscript_key choice "message") as [e|message]; [reflexivity|].
  destruct (subscript_key message "content") as [e|content]; [reflexivity|].
  destruct (loads E content); reflexivity.
Qed.

Lemma chat_spec (E : Env) (idea config : json) (w : World) :
  chat E idea config w
  = (Ok (chat_text E (respond E (length (events w)) (CChat idea config))),
     advance (Z.of_nat (elapse E (length (events w))))
       (emit (ECall (CChat idea config)
                (respond E (length (events w)) (CChat idea config))) w)).
Proof.
  unfold chat, chat_text, try_except, bind, http, lift, ret. cbv zeta.
  destruct (respond E (length (events w)) (CChat idea config)) as [e|result];
    [rewrite isinstance_Exception; reflexivity|].
  destruct (subscript_key result "choices") as [e|choices];
    [rewrite isinstance_Exception; reflexivity|].
  destruct (subscript_0 choices) as [e|choice];
    [rewrite isinstance_Exception; reflexivity|].
  destruct (subscript_key choice "message") as [e|message];
    [rewrite isinstance_Exception; reflexivity|].
  destruct (subscript_key message "content") as [e|content];
    [rewrite isinstance_Exception; reflexivity|].
  reflexivity.
Qed.

Lemma parse_script_spec (E : Env) (idea script_response : json) (w : World) :
  parse_script E idea script_response w
  = lift (script_of_text E idea script_response) w.
Proof.
  unfold parse_script, script_of_text, try_except_all, bind, lift, ret.
  destruct (loads E script_response) as [e|script]; [|reflexivity].
  destruct (dict_get idea "slug" (JStr "content")) as [e'|slug]; [reflexivity|].
  destruct (slice_200 script_response); reflexivity.
Qed.

Arguments script_of_reply : simpl never.
Arguments chat_text : simpl never.
Arguments script_of_text : simpl never.

(** The executor's pick from the bank is always its first idea. *)
Lemma default_idea_first (w : World) :
  default_idea w = (Ok (hd JNull IDEAS), w).
Proof.
  unfold default_idea, get_next_idea, bank.
  assert (Hlen : Z.of_nat (length (IDEAS ++ custom_ideas w)) <> 0).
  { rewrite length_app. cbn. lia. }
  destruct (Z.eqb_spec (Z.of_nat (length (IDEAS ++ custom_ideas w))) 0)
    as [?|_]; [contradiction|].
  rewrite Z.mod_0_l by exact Hlen. reflexivity.
Qed.


Lemma alter_snoc {A} (f : A -> A) (l : list A) (x : A) :
  alter f (length l) (l ++ [x])%list = (l ++ [f x])%list.
Proof.
  induction l as [|y l IH]; [reflexivity|].
  cbn [length app]. change (alter f (S (length l)) (y :: (l ++ [x])%list))
    with (y :: alter f (length l) (l ++ [x])%list).
  rewrite IH. reflexivity.
Qed.

(** Worlds are kept as records of explicit fields. *)
Ltac flat_term t :=
  let t1 := eval unfold emit, advance, set_videos, set_workflow_runs,
              set_workflows, set_workflow_executions,
              set_current_idea_index in t in
  let t2 := eval cbn [videos workflow_runs workflows workflow_executions
                      custom_ideas current_idea_index now events update_row
                      length] in t1 in
  t2.

Ltac flat_rows H :=
  rewrite ?alter_snoc in H;
  cbn [fold_left apply_update v_idea_data v_script_data v_sora_task_id
       v_video_url v_status v_posted_tiktok v_posted_instagram
       v_posted_youtube v_error] in H.

(** The world a run in hypothesis [H] starts from, made explicit. *)
Ltac flat H :=
  lazymatch type of H with
  | ?c ?w = ?rhs =>
      lazymatch w with
      | mkWorld _ _ _ _ _ _ _ _ => idtac
      | _ =>
          tryif is_var w then idtac
          else (let w' := flat_term w in
                change (c w' = rhs) in H; flat_rows H)
      end
  | _ => idtac
  end.

Ltac flat_hyp H :=
  unfold emit, advance, set_videos, set_workflow_runs, set_workflows,
    set_workflow_executions, set_current_idea_index in H;
  cbn [videos workflow_runs workflows workflow_executions custom_ideas
       current_idea_index now events update_row length] in H;
  flat_rows H.

Ltac flat_goal :=
  unfold emit, advance, set_videos, set_workflow_runs, set_workflows,
    set_workflow_executions, set_current_idea_index;
  cbn [videos workflow_runs workflows workflow_executions custom_ideas
       current_idea_index now events update_row length fst snd
       fold_left apply_update v_idea_data v_script_data v_sora_task_id
       v_video_url v_status v_posted_tiktok v_posted_instagram
       v_posted_youtube v_error];
  rewrite ?alter_snoc;
  cbn [fold_left apply_update v_idea_data v_script_data v_sora_task_id
       v_video_url v_status v_posted_tiktok v_posted_instagram
       v_posted_youtube v_error].

(** A hypothesis [r = o /\ w' = w1] that fixes the result of a run. *)
Ltac close_outcome H :=
  let Hr := fresh "Hr" in
  let Hw := fresh "Hw" in
  destruct H as [Hr Hw];
  first [ discriminate Hr
        | injection Hr as Hr; subst
        | subst ].

(** An equation that fixes the outcome of a step, and maybe the world
    after it. *)
Ltac fix_outcome Hc :=
  cbv beta iota in Hc;
  lazymatch type of Hc with
  | (_, _) = (_, _) =>
      let Ho := fresh "Ho" in
      let Hw := fresh "Hw" in
      injection Hc as Ho Hw;
      first [ discriminate Ho | subst ]
  | _ => first [ discriminate Hc | subst | injection Hc as Hc; subst ]
  end.

(** A pure step: use what is already known about [x], or split. *)
Ltac known_value x :=
  let v := eval cbv [subscript_key dict_get assoc truthy negb py_iter
                     String.eqb Ascii.eqb Bool.eqb] in x in
  lazymatch v with
  | inr _ => v
  | inl _ => v
  | true => v
  | false => v
  end.

Ltac split_pure Hc x :=
  first
    [ match goal with
      | Hk : x = _ |- _ => rewrite Hk in Hc
      end
    | let v := known_value x in change x with v in Hc
    | let Hx := fresh "Hx" in destruct x eqn:Hx ];
  fix_outcome Hc.

Ltac inv_prim Hc :=
  lazymatch type of Hc with
  | lift ?x ?w = _ =>
      apply lift_inv in Hc;
      let Hw := fresh "Hw" in
      destruct Hc as [Hw Hc]; split_pure Hc x
  | http ?E ?c ?w = _ =>
      let Hx := fresh "Hreply" in
      let Hw := fresh "Hw" in
      apply http_inv in Hc; destruct Hc as [Hw Hc];
      destruct (respond E (length (events w)) c) eqn:Hx;
      cbn [events length] in Hx;
      fix_outcome Hc
  | ret _ _ = _ => unfold ret in Hc; fix_outcome Hc
  | raise _ _ = _ => unfold raise in Hc; fix_outcome Hc
  | add_video _ _ _ = _ =>
      unfold add_video in Hc; cbv zeta in Hc; fix_outcome Hc
  | update_video _ _ _ = _ => unfold update_video in Hc; fix_outcome Hc
  | add_workflow_run _ = _ =>
      unfold add_workflow_run in Hc; cbv zeta in Hc; fix_outcome Hc
  | complete_workflow_run _ _ _ _ _ = _ =>
      unfold complete_workflow_run in Hc; fix_outcome Hc
  | log_execution _ _ _ _ _ = _ =>
      unfold log_execution in Hc; cbv zeta in Hc; fix_outcome Hc
  | get_workflow _ _ = _ => unfold get_workflow in Hc; fix_outcome Hc
  end.

(** Steps of the executor, added once their lemmas are proved. *)
Ltac inv_extra H := fail.

(** The call of [wait_for_completion] of the runs: it ends, and changes
    the clock and the trace only. *)
Ltac inv_wait H :=
  lazymatch type of H with
  | wait_for_completion ?E ?t ?mw ?ci ?w = (?r, ?w1) =>
      let Hret := fresh "Hret" in
      let evs := fresh "evs" in
      let Hev := fresh "Hev" in
      let Hpolls := fresh "Hpolls" in
      let Hquiet := fresh "Hquiet" in
      let Hhist := fresh "Hhist" in
      let Hwait := fresh "Hwait" in
      pose proof (wait_for_completion_returns E t mw ci w ltac:(cbn; lia)) as Hret;
      rewrite H in Hret; cbn [fst] in Hret;
      pose proof H as Hwait;
      apply wait_for_completion_frame in H;
      unfold same_store in H;
      cbn [videos workflow_runs workflows workflow_executions custom_ideas
           current_idea_index events] in H;
      destruct H as ((?Hs1&?Hs2&?Hs3&?Hs4&?Hs5&?Hs6) & evs & Hev & Hpolls & Hquiet & Hhist);
      destruct w1;
      cbn [videos workflow_runs workflows workflow_executions custom_ideas
           current_idea_index events] in *;
      subst;
      destruct r; [ | | exfalso; apply Hret; reflexivity ]; clear Hret
  end.

Ltac run_inv H :=
  flat H;
  lazymatch type of H with
  | bind ?c ?k ?w = _ =>
      apply bind_inv in H; run_first H c w
  | try_except ?c ?h ?w = _ =>
      apply try_except_inv in H; run_first H c w
  | try_except_all ?c ?h ?w = _ =>
      apply try_except_all_inv in H; run_first H c w
  | attempt ?c ?w = _ =>
      apply attempt_inv in H; run_first H c w
  | generate_script ?E ?idea ?w = _ =>
      let Hs := fresh "Hscript" in
      rewrite generate_script_spec in H;
      cbn [events length] in H;
      lazymatch type of H with
      | (match ?s with _ => _ end, _) = _ => destruct s eqn:Hs
      end;
      fix_outcome H
  | create_video _ _ _ _ _ = _ => unfold create_video in H; run_inv H
  | get_task_status _ _ _ = _ => unfold get_task_status in H; run_inv H
  | upload_media _ _ _ = _ => unfold upload_media in H; run_inv H
  | create_post _ _ _ _ _ _ _ _ = _ => unfold create_post in H; run_inv H
  | chat _ _ _ _ = _ =>
      rewrite chat_spec in H; cbn [events length] in H; fix_outcome H
  | post_all _ _ _ _ _ _ _ = _ => unfold post_all in H; run_inv H
  | run_workflow_script _ _ = _ => unfold run_workflow_script in H; run_inv H
  | run_workflow_video _ _ _ _ _ = _ => unfold run_workflow_video in H; run_inv H
  | run_workflow_failed _ _ _ _ _ = _ => unfold run_workflow_failed in H; run_inv H
  | run_workflow _ _ = _ => unfold run_workflow in H; run_inv H
  | next_idea ?w = _ =>
      let idea := fresh "idea" in
      let Hi := fresh "Hidea" in
      destruct (next_idea_advances w) as [idea Hi];
      rewrite Hi in H; clear Hi; fix_outcome H
  | wait_for_completion _ _ _ _ _ = _ => inv_wait H
  | parse_script _ _ _ _ = _ => rewrite parse_script_spec in H; run_inv H
  | (if ?b then default_idea else lift ?x) ?w = _ =>
      let Hp := fresh "Hpick" in
      let r := fresh "picked" in
      assert (Hp : exists r, (if b then default_idea else lift x) w = lift r w)
        by (destruct b;
            [ exists (inr (hd JNull IDEAS)); apply default_idea_first
            | exists x; reflexivity ]);
      destruct Hp as [r Hp]; rewrite Hp in H; clear Hp; run_inv H
  | post_to_platform _ _ _ _ _ _ _ _ _ = _ =>
      unfold post_to_platform in H; run_inv H
  | _execute_video_creation _ _ _ _ = _ =>
      unfold _execute_video_creation in H; cbv zeta in H; run_inv H
  | _execute_engagement _ _ = _ => unfold _execute_engagement in H; run_inv H
  | _execute_analytics _ _ = _ => unfold _execute_analytics in H; run_inv H
  | _execute_custom _ _ = _ => unfold _execute_custom in H; run_inv H
  | execute_workflow _ _ _ = _ => unfold execute_workflow in H; run_inv H
  | (match ?x with _ => _ end) _ = _ =>
      first [ match goal with
              | Hk : x = _ |- _ => rewrite Hk in H; cbv iota in H
              end
            | let v := known_value x in change x with v in H; cbv iota in H
            | destruct x eqn:? ];
      run_inv H
  | _ => first [ inv_prim H | inv_extra H ]
  end
with run_first H c w :=
  let o := fresh "o" in
  let w1 := fresh "w" in
  let Hc := fresh "Hc" in
  destruct (c w) as [o w1] eqn:Hc;
  run_inv Hc;
  cbv beta iota in H;
  lazymatch type of H with
  | _ /\ _ => close_outcome H
  | _ => run_inv H
  end.

(** ** Traces of runs *)

Lemma new_events_ext (w w' : World) (new : list Event) :
  events w' = (new ++ events w)%list -> new_events w w' = new.
Proof.
  intros H. unfold new_events. rewrite H, length_app.
  replace (length new + length (events w) - length (events w))%nat
    with (length new) by lia.
  apply take_app_length.
Qed.

Lemma ext_nil {A} (base : list A) : base = ([] ++ base)%list.
Proof. reflexivity. Qed.

Lemma ext_cons {A} (x : A) (l new base : list A) :
  l = (new ++ base)%list -> x :: l = ((x :: new) ++ base)%list.
Proof. intros ->. reflexivity. Qed.

Lemma ext_app {A} (l0 l new base : list A) :
  l = (new ++ base)%list -> (l0 ++ l)%list = ((l0 ++ new) ++ base)%list.
Proof. intros ->. apply app_assoc. Qed.

Ltac ext_solve :=
  repeat first [ apply ext_nil | apply ext_cons | apply ext_app ].

(** The trace of the run in the goal, written out oldest event first. *)
Ltac trace_norm :=
  unfold run_trace;
  erewrite (new_events_ext _ _) by (cbn [events]; ext_solve);
  repeat (progress (cbn [rev]; rewrite ?rev_app_distr));
  rewrite <- ?app_assoc; cbn [app].

Ltac trace_norm_in H :=
  unfold run_trace in H;
  erewrite (new_events_ext _ _) in H by (cbn [events]; ext_solve);
  repeat (progress (cbn [rev] in H; rewrite ?rev_app_distr in H));
  rewrite <- ?app_assoc in H; cbn [app] in H.

Lemma quiet_rev (evs : list Event) :
  forallb (fun ev => negb (is_upload ev || is_post ev)) evs = true ->
  existsb is_upload (rev evs) = false
  /\ existsb is_post (rev evs) = false
  /\ post_verdicts (rev evs) = []
  /\ existsb upload_ok (rev evs) = false.
Proof.
  induction evs as [|ev evs IH]; [repeat split|].
  cbn [forallb rev]. intros H. apply andb_true_iff in H as [Hev H].
  destruct (IH H) as (IH1 & IH2 & IH3 & IH4).
  apply negb_true_iff, orb_false_iff in Hev as [Hu Hp].
  unfold post_verdicts in *.
  rewrite !existsb_app, flat_map_app, IH1, IH2, IH3, IH4. cbn.
  rewrite Hu, Hp. repeat split.
  - destruct ev as [[] ?| | | | | |]; try reflexivity; discriminate.
  - destruct ev as [[] ?| | | | | |]; try reflexivity; discriminate.
Qed.

(** C6. Every call of [run_workflow] leaves the engine's rotation index
    one position further, modulo the size of the idea bank, whatever
    the later steps of the run do. *)
Theorem run_workflow_advances_index (E : Env) (w : World) :
  current_idea_index (snd (run_workflow E w))
  = (current_idea_index w + 1)
    mod Z.of_nat (length (bank (custom_ideas w))).
Proof.
  destruct (run_workflow E w) as [r w'] eqn:H. cbn [snd].
  run_inv H; reflexivity.
Qed.

(** C9, as the code has it. Every call of [run_workflow] first opens a
    run record with status 'started'; the run closes that same record,
    as 'completed' when it returns success and as 'failed' with the
    error text when it returns failure, and adds no other run record.
    The dictionary it returns holds the keys success, video_id,
    video_url, title on success and success, error, trace on failure:
    the id of the run record is not among them. *)
Theorem run_workflow_run_record (E : Env) (w : World) :
  let run_id := S (length (workflow_runs w)) in
  let r := fst (run_workflow E w) in
  let w' := snd (run_workflow E w) in
  head (run_trace w w') = Some (EAddWorkflowRun run_id "started")
  /\ exists result closed,
       r = Ok result
       /\ workflow_runs w' = (workflow_runs w ++ [closed])%list
       /\ r_completed closed = true
       /\ ((keys result = ["success"; "video_id"; "video_url"; "title"]
            /\ subscript_key result "success" = inr (JBool true)
            /\ r_status closed = "completed" /\ r_error closed = None)
           \/ (keys result = ["success"; "error"; "trace"]
               /\ subscript_key result "success" = inr (JBool false)
               /\ r_status closed = "failed"
               /\ exists e, r_error closed = Some (str_exn E e)
                            /\ subscript_key result "error"
                               = inr (JStr (str_exn E e)))).
Proof.
  intros run_id r w'. subst run_id r w'.
  destruct (run_workflow E w) as [r w'] eqn:H. cbn [fst snd].
  run_inv H; cbn [workflow_runs];
    (split; [trace_norm; reflexivity|]);
    eexists; eexists; (split; [reflexivity|]); (split; [reflexivity|]);
    (split; [reflexivity|]);
    first [ left; repeat split; reflexivity
          | right; repeat split; eexists; split; reflexivity ].
Qed.

(** C9, counterexample. On a store with one earlier run the engine opens
    run 2; the run succeeds and returns success, video id 1, the video
    URL and the title. No field of the returned dictionary holds the
    run id 2. *)
Lemma run_workflow_result_lacks_run_id :
  let w := world_one_run in
  let run_id := S (length (workflow_runs w)) in
  run_id = 2%nat
  /\ fst (run_workflow (demo_env "none") w)
     = Ok (JObj [("success", JBool true); ("video_id", JNum 1);
                 ("video_url", JStr "http://x/video.mp4");
                 ("title", JStr "T")])
  /\ (forall result, fst (run_workflow (demo_env "none") w) = Ok result ->
      carries_id result run_id = false).
Proof.
  cbv zeta. split; [reflexivity|]. split; [vm_compute; reflexivity|].
  intros result H. vm_compute in H. injection H as <-. reflexivity.
Qed.

(** ** The executor *)

Lemma dict_get_dict (v : json) (k : string) (default : json) :
  is_dict v = true -> exists x, dict_get v k default = inr x.
Proof.
  destruct v; try discriminate. intros _. unfold dict_get.
  destruct (assoc k kv); eauto.
Qed.

Section PostLoop.

Variable E : Env.
Variables config script description hashtags media_url : json.

(** One turn of the loop never raises; it adds at most one event, a
    post.  For a supported platform and dictionaries [config] and
    [script] it adds exactly the post to that platform, and the platform
    joins [posted_to] exactly when the post came back. *)
Lemma post_to_platform_spec (platform : json) (posted : list json) (w : World) :
  exists added evs n,
    post_to_platform E config script description hashtags media_url
      platform posted w
    = (Ok (posted ++ added)%list,
       mkWorld (videos w) (workflow_runs w) (workflows w)
         (workflow_executions w) (custom_ideas w) (current_idea_index w)
         n (evs ++ events w)%list)
    /\ forallb is_post evs = true
    /\ (is_dict config = true -> is_dict script = true ->
        forall p, platform = JStr p -> supported p = true ->
          exists ok, post_verdicts (rev evs) = [(p, ok)]
                     /\ added = if ok then [JStr p] else []).
Proof.
  destruct (post_to_platform E config script description hashtags media_url
              platform posted w) as [o w'] eqn:H.
  run_inv H;
    try match goal with w0 : World |- _ => destruct w0 end;
    lazymatch goal with
    | |- exists _ _ _, (Ok (posted ++ [?pl])%list, _) = _ /\ _ => exists [pl]
    | |- exists _ _ _, (Ok posted, _) = _ /\ _ =>
        exists []; rewrite app_nil_r
    end;
    lazymatch goal with
    | |- exists _ _, (_, mkWorld _ _ _ _ _ _ _ (?ev :: _)) = _ /\ _ =>
        exists [ev]
    | |- _ => exists []
    end;
    eexists; (split; [reflexivity|]); (split; [reflexivity|]);
    intros Hconfig Hscript p -> Hp;
    try match goal with
      | Hx : dict_get config ?k ?d = inl _ |- _ =>
          destruct (dict_get_dict config k d Hconfig) as [? Hd]; congruence
      | Hx : dict_get script ?k ?d = inl _ |- _ =>
          destruct (dict_get_dict script k d Hscript) as [? Hd]; congruence
      end;
    unfold eq_str in *;
    repeat match goal with
      | Hb : String.eqb p _ = true |- _ =>
          apply String.eqb_eq in Hb; subst p
      end;
    try (unfold supported in Hp;
         repeat match goal with
           | Hb : String.eqb p _ = false |- _ => rewrite Hb in Hp; clear Hb
           end; discriminate Hp);
    first [ exists true; split; reflexivity
          | exists false; split; reflexivity ].
Qed.

(** The whole loop: it never raises and adds posts only.  For a list of
    supported platforms it posts to each of them once, in the order of
    the list, and [posted_to] gains exactly those whose post came
    back. *)
Lemma post_to_platforms_spec (targets : list json) :
  forall (posted : list json) (w : World),
  exists added evs n,
    post_to_platforms E config script description hashtags media_url
      targets posted w
    = (Ok (posted ++ added)%list,
       mkWorld (videos w) (workflow_runs w) (workflows w)
         (workflow_executions w) (custom_ideas w) (current_idea_index w)
         n (evs ++ events w)%list)
    /\ forallb is_post evs = true
    /\ (is_dict config = true -> is_dict script = true ->
        forall ps, targets = map JStr ps -> forallb supported ps = true ->
          map fst (post_verdicts (rev evs)) = ps
          /\ added = map JStr (map fst (List.filter snd (post_verdicts (rev evs))))).
Proof.
  induction targets as [|platform targets IH]; intros posted w.
  - exists [], [], (now w). rewrite app_nil_r. destruct w.
    repeat split; try reflexivity.
    destruct ps; [reflexivity | discriminate].
  - destruct (post_to_platform_spec platform posted w)
      as (added1 & evs1 & n1 & H1 & Hp1 & Hs1).
    cbn [post_to_platforms]. unfold bind. rewrite H1.
    match goal with
    | |- context [post_to_platforms _ _ _ _ _ _ _ ?p ?w1] =>
        destruct (IH p w1) as (added2 & evs2 & n2 & H2 & Hp2 & Hs2)
    end.
    rewrite H2. cbn [videos workflow_runs workflows workflow_executions
                     custom_ideas current_idea_index events].
    exists (added1 ++ added2)%list, (evs2 ++ evs1)%list, n2.
    rewrite !app_assoc. split; [reflexivity|].
    split; [rewrite forallb_app, Hp1, Hp2; reflexivity|].
    intros Hconfig Hscript ps Hps Hsup.
    destruct ps as [|p ps]; [discriminate|].
    injection Hps as -> ->. cbn [forallb] in Hsup.
    apply andb_true_iff in Hsup as [Hp Hsup].
    destruct (Hs1 Hconfig Hscript p eq_refl Hp) as (ok & Hv1 & ->).
    destruct (Hs2 Hconfig Hscript ps eq_refl Hsup) as (Hv2 & ->).
    unfold post_verdicts in *.
    rewrite rev_app_distr, flat_map_app, Hv1. cbn [app map fst].
    rewrite Hv2. split; [reflexivity|].
    destruct ok; reflexivity.
Qed.

End PostLoop.

Ltac inv_extra H ::=
  lazymatch type of H with
  | post_to_platforms ?E ?c ?s ?d ?h ?m ?targets ?posted ?w = _ =>
      let added := fresh "added" in
      let evs := fresh "posts" in
      let n := fresh "n" in
      let Heq := fresh "Heq" in
      let Hposts := fresh "Hposts" in
      let Hspec := fresh "Hspec" in
      destruct (post_to_platforms_spec E c s d h m targets posted w)
        as (added & evs & n & Heq & Hposts & Hspec);
      rewrite Heq in H; clear Heq;
      cbn [videos workflow_runs workflows workflow_executions custom_ideas
           current_idea_index events] in H;
      fix_outcome H
  | default_idea ?w = _ =>
      rewrite default_idea_first in H; fix_outcome H
  end.



(** ** Failure of script generation *)

(** C4, counterexample. The executor asks the model for a script and
    gets the plain text "a goat hops", which is not JSON.  The run does
    not abort: it returns success, having posted to the three
    platforms, and logs the execution as a success. *)
Lemma execute_workflow_survives_plain_text :
  let E := text_env "a goat hops" in
  let run := execute_workflow E 1 world_default_workflow in
  json_loads E "a goat hops" = inl (PyExc JSONDecodeError [Lit "Expecting value"])
  /\ fst run
     = Ok (JObj [("success", JBool true);
                 ("workflow_id", JNum 1);
                 ("workflow_name", JStr "pet-video-automation");
                 ("video_url", JStr "http://x/video.mp4");
                 ("title", JStr "message");
                 ("posted_to", JArr [JStr "tiktok"; JStr "instagram"; JStr "youtube"]);
                 ("idea_slug", JStr "baby-goat-happy-hops")])
  /\ map x_status (workflow_executions (snd run)) = ["success"].
Proof. cbv zeta. repeat split; vm_compute; reflexivity. Qed.

(** C4, as the code has it. In [WorkflowEngine.run_workflow], when the
    reply to the script request is one [generate_script] raises on (a
    network error, a malformed body, content that is not JSON), the run
    aborts: it returns the failure dictionary with that error, creates
    no video record, and leaves exactly one new run record, closed as
    'failed' with the error text.  In the executor a reply text that is
    not JSON does not abort the run: [parse_script] turns it into a
    script built around the text. *)
Theorem script_failure_aborts_engine_run (E : Env) (w : World)
    (reply : exn + json) (e e' : exn) (idea : json) (text : string) :
  let r := fst (run_workflow E w) in
  let w' := snd (run_workflow E w) in
  (first_script_reply (run_trace w w') = Some reply ->
   script_of_reply E reply = inl e ->
   r = Ok (JObj [("success", JBool false);
                 ("error", JStr (str_exn E e));
                 ("trace", JStr (format_exc E e))])
   /\ videos w' = videos w
   /\ workflow_runs w'
      = (workflow_runs w
         ++ [mkRunRow true "failed" None (Some (str_exn E e))])%list)
  /\ (json_loads E text = inl e' ->
      is_dict idea = true ->
      exists slug,
        dict_get idea "slug" (JStr "content") = inr slug
        /\ parse_script E idea (JStr text) w
           = (Ok (JObj [("title", JStr (format E [Lit "Video about "; Val slug]));
                        ("description", JStr (prefix 200 text));
                        ("prompt", JStr text);
                        ("hashtags", JStr "#cute #viral #pets")]), w)).
Proof.
  intros r w'. subst r w'. split.
  - destruct (run_workflow E w) as [r w'] eqn:H. cbn [fst snd].
    intros Hfirst Hfail.
    run_inv H; trace_norm_in Hfirst; cbn [first_script_reply] in Hfirst;
      try discriminate Hfirst; injection Hfirst as <-;
      try congruence.
    rewrite Hfail in Hscript. injection Hscript as <-.
    repeat split.
  - intros Hloads Hidea.
    destruct (dict_get_dict idea "slug" (JStr "content") Hidea) as [slug Hslug].
    exists slug. split; [exact Hslug|].
    rewrite parse_script_spec. unfold script_of_text, loads.
    rewrite Hloads, Hslug. reflexivity.
Qed.

(** ** A failed first poll *)

(** With a positive budget the call starts with a poll, and a first
    poll that reports FAILED makes it raise. *)
Lemma wait_for_completion_first_poll (E : Env) (task_id : json)
    (max_wait check_interval : option Z) (w w' : World) (r : outcome json) :
  0 < default 600 max_wait ->
  wait_for_completion E task_id max_wait check_interval w = (r, w') ->
  exists evs,
    events w'
    = (evs ++ ECall (CGetTaskStatus task_id) (poll_reply E task_id w)
         :: events w)%list
    /\ (reply_status (poll_reply E task_id w) = Some (JStr "FAILED") ->
        exists e, r = Raise e).
Proof.
  intros Hmw H. rewrite wait_for_completion_unfold, wait_loop_step in H.
  destruct (Z.ltb_spec (now w - now w) (default 600 max_wait)) as [_|?]; [|lia].
  unfold reply_status.
  destruct (poll_reply E task_id w) as [e|result] eqn:Hreply.
  { injection H as <- <-. exists []. split; [cbn; rewrite Hreply; reflexivity|].
    discriminate. }
  destruct (task_status result) as [e|st] eqn:Hst.
  { injection H as <- <-. exists []. split; [cbn; rewrite Hreply; reflexivity|].
    discriminate. }
  destruct (eq_str st "SUCCESS") eqn:Hs.
  { injection H as <- <-. exists []. split; [cbn; rewrite Hreply; reflexivity|].
    intros Hf. injection Hf as ->. discriminate. }
  destruct (eq_str st "FAILED" || eq_str st "ERROR") eqn:Hf.
  { injection H as <- <-. exists []. split; [cbn; rewrite Hreply; reflexivity|].
    eauto. }
  destruct (default 10 check_interval <? 0).
  { injection H as <- <-. exists []. split; [cbn; rewrite Hreply; reflexivity|].
    eauto. }
  apply wait_loop_frame in H as (_ & evs & Hev & _).
  exists (evs ++ [ESleep (default 10 check_interval)])%list.
  split.
  - rewrite Hev. cbn. rewrite Hreply, <- app_assoc. reflexivity.
  - intros Hfailed. injection Hfailed as ->. discriminate.
Qed.

Lemma app_cons_inv_tail {A} (l1 l2 base : list A) (x : A) :
  (l1 ++ base = l2 ++ x :: base)%list -> l1 = (l2 ++ [x])%list.
Proof.
  intros H. apply (app_inv_tail base). rewrite <- app_assoc. exact H.
Qed.

(** In a leaf where the wait returned, a first poll that reports FAILED
    is absurd. *)
Ltac first_poll_absurd Hfirst Hstatus :=
  lazymatch goal with
  | Hwait : wait_for_completion _ _ _ _ _ = _ |- _ =>
      let evs2 := fresh "evs" in
      let Hev2 := fresh "Hev" in
      let Hfail := fresh "Hfail" in
      apply wait_for_completion_first_poll in Hwait; [|cbn; lia];
      cbn [events] in Hwait;
      destruct Hwait as (evs2 & Hev2 & Hfail);
      apply app_cons_inv_tail in Hev2; subst;
      rewrite ?rev_app_distr in Hfirst; cbn [rev app first_poll] in Hfirst;
      injection Hfirst as <-;
      destruct (Hfail Hstatus) as [? ?]; discriminate
  end.

(** C8. When the first status poll of a run reports FAILED, the run
    makes no upload and no post request, in the engine as in the
    executor. *)
Theorem failed_first_poll_publishes_nothing (E : Env) (w : World)
    (workflow_id : nat) (reply : exn + json) :
  reply_status reply = Some (JStr "FAILED") ->
  (let w' := snd (run_workflow E w) in
   first_poll (run_trace w w') = Some reply ->
   existsb is_upload (run_trace w w') = false
   /\ existsb is_post (run_trace w w') = false)
  /\ (let w' := snd (execute_workflow E workflow_id w) in
      first_poll (run_trace w w') = Some reply ->
      existsb is_upload (run_trace w w') = false
      /\ existsb is_post (run_trace w w') = false).
Proof.
  intros Hstatus. split; cbv zeta.
  - destruct (run_workflow E w) as [r w'] eqn:H. cbn [snd]. intros Hfirst.
    run_inv H; trace_norm_in Hfirst; cbn [first_poll] in Hfirst;
      try discriminate Hfirst;
      trace_norm;
      try match goal with
        | Hq : forallb _ ?evs = true |- _ =>
            destruct (quiet_rev evs Hq) as (Hq1 & Hq2 & _ & _)
        end;
      cbn [existsb is_upload is_post orb];
      rewrite ?existsb_app, ?Hq1, ?Hq2;
      cbn [existsb is_upload is_post orb];
      first [ split; reflexivity | first_poll_absurd Hfirst Hstatus ].
  - destruct (execute_workflow E workflow_id w) as [r w'] eqn:H. cbn [snd].
    intros Hfirst.
    run_inv H;
      try (unfold run_trace, new_events in *;
           rewrite Nat.sub_diag in *; split; reflexivity);
      trace_norm_in Hfirst; cbn [first_poll] in Hfirst;
      try discriminate Hfirst;
      trace_norm;
      try match goal with
        | Hq : forallb (fun ev => negb _) ?evs = true |- _ =>
            destruct (quiet_rev evs Hq) as (Hq1 & Hq2 & _ & _)
        end;
      cbn [existsb is_upload is_post orb];
      rewrite ?existsb_app, ?Hq1, ?Hq2;
      cbn [existsb is_upload is_post orb];
      first [ split; reflexivity | first_poll_absurd Hfirst Hstatus ].
Qed.

(** ** Partial failure of the posts *)

Lemma dict_get_inr_dict (v : json) (k : string) (default x : json) :
  dict_get v k default = inr x -> is_dict v = true.
Proof. destruct v; try discriminate. reflexivity. Qed.

(** The verdicts of a trace written out: the wait adds none. *)
Ltac verdicts_norm :=
  unfold post_verdicts;
  repeat (progress
            (cbn [flat_map post_verdict app];
             rewrite ?flat_map_app;
             repeat match goal with
               | Hq : flat_map post_verdict (rev ?evs) = [] |- _ => rewrite Hq
               end));
  rewrite ?app_nil_r.

(** A [.get] cannot have failed on a value another [.get] worked on. *)
Ltac dict_absurd :=
  match goal with
  | Hbad : dict_get ?v ?k ?d = inl _, Hgood : dict_get ?v _ _ = inr _ |- _ =>
      let Hd := fresh "Hd" in
      pose proof (dict_get_inr_dict _ _ _ _ Hgood) as Hd;
      destruct (dict_get_dict v k d Hd) as [? ?]; congruence
  end.

(** C1, as the code has it. A post that raises fails neither the other
    posts nor the run; what is kept of it differs between the two
    runners.  Engine: in every run that gets as far as posting, the
    three platforms are posted to once each, in the order youtube,
    instagram, tiktok, whatever each post does; the run returns success,
    with the keys success, video_id, video_url and title and no list of
    platforms; the video record ends 'completed' with each posted flag
    set exactly when that platform's post came back, and the run record
    is closed as 'completed'.  Executor: for an active video-creation
    workflow whose configured platforms are supported ones, in every run
    whose upload comes back with a media reference, each configured
    platform is posted to once, in configuration order; the run returns
    success with [posted_to] listing exactly the platforms whose post
    came back, in that order, and the execution is logged as a success;
    it writes no video record and no run record. *)
Theorem platform_failure_keeps_run (E : Env) (w : World) (workflow_id : nat)
    (wf : WorkflowRow) (ps : list string) :
  (let r := fst (run_workflow E w) in
   let w' := snd (run_workflow E w) in
   let tr := run_trace w w' in
   existsb is_post tr = true ->
   exists result video closed y i t,
     r = Ok result
     /\ subscript_key result "success" = inr (JBool true)
     /\ keys result = ["success"; "video_id"; "video_url"; "title"]
     /\ post_verdicts tr = [("youtube", y); ("instagram", i); ("tiktok", t)]
     /\ videos w' = (videos w ++ [video])%list
     /\ v_status video = "completed"
     /\ v_posted_youtube video = y
     /\ v_posted_instagram video = i
     /\ v_posted_tiktok video = t
     /\ workflow_runs w' = (workflow_runs w ++ [closed])%list
     /\ r_status closed = "completed")
  /\ (let r := fst (execute_workflow E workflow_id w) in
      let w' := snd (execute_workflow E workflow_id w) in
      let tr := run_trace w w' in
      fst (get_workflow workflow_id w) = Ok (Some wf) ->
      wf_status wf = "active" ->
      wf_type wf = "video_creation" ->
      dict_get (wf_config wf) "platforms"
        (JArr [JStr "tiktok"; JStr "instagram"; JStr "youtube"])
      = inr (JArr (map JStr ps)) ->
      forallb supported ps = true ->
      existsb upload_ok tr = true ->
      exists result logged,
        r = Ok result
        /\ subscript_key result "success" = inr (JBool true)
        /\ map fst (post_verdicts tr) = ps
        /\ subscript_key result "posted_to"
           = inr (JArr (map JStr (map fst (List.filter snd (post_verdicts tr)))))
        /\ workflow_executions w' = (workflow_executions w ++ [logged])%list
        /\ x_status logged = "success"
        /\ videos w' = videos w
        /\ workflow_runs w' = workflow_runs w).
Proof.
  split; cbv zeta.
  - destruct (run_workflow E w) as [r w'] eqn:H. cbn [fst snd]. intros Hposts.
    run_inv H; trace_norm_in Hposts;
      try match goal with
        | Hq : forallb (fun ev => negb _) ?evs = true |- _ =>
            destruct (quiet_rev evs Hq) as (Hq1 & Hq2 & Hq3 & _);
            unfold post_verdicts in Hq3
        end;
      cbn [existsb is_post orb] in Hposts;
      rewrite ?existsb_app, ?Hq2 in Hposts;
      cbn [existsb is_post orb] in Hposts;
      try discriminate Hposts;
      trace_norm; verdicts_norm;
      cbn [videos workflow_runs]; do 6 eexists;
      repeat (split; [reflexivity|]); reflexivity.
  - intros Hget Hactive Htype Hplat Hsup Hupload.
    unfold get_workflow in Hget. cbn [fst] in Hget. injection Hget as Hget.
    assert (Hact : negb (String.eqb (wf_status wf) "active") = false)
      by (rewrite Hactive; reflexivity).
    assert (Hty : String.eqb (wf_type wf) "video_creation" = true)
      by (rewrite Htype; reflexivity).
    destruct (execute_workflow E workflow_id w) as [r w'] eqn:H.
    cbn [fst snd] in *.
    run_inv H; try dict_absurd;
      trace_norm_in Hupload;
      try match goal with
        | Hq : forallb (fun ev => negb _) ?evs = true |- _ =>
            destruct (quiet_rev evs Hq) as (_ & _ & Hq3 & Hq4);
            unfold post_verdicts in Hq3
        end;
      cbn [existsb upload_ok orb] in Hupload;
      rewrite ?existsb_app, ?Hq4 in Hupload;
      cbn [existsb upload_ok orb] in Hupload;
      repeat match goal with
        | Hu : subscript_key _ "url" = _ |- _ => rewrite Hu in Hupload
        end;
      cbn [existsb upload_ok orb] in Hupload;
      try discriminate Hupload.
    destruct (Hspec (dict_get_inr_dict _ _ _ _ Hx)
                (dict_get_inr_dict _ _ _ _ Hx2) ps eq_refl Hsup)
      as [Hverdicts Hadded].
    trace_norm. verdicts_norm.
    fold (post_verdicts (rev posts)).
    cbn [workflow_executions videos workflow_runs].
    do 2 eexists.
    split; [reflexivity|].
    split; [reflexivity|].
    split; [exact Hverdicts|].
    split; [rewrite <- Hadded; reflexivity|].
    split; [reflexivity|].
    split; [reflexivity|].
    split; reflexivity.
Qed.

(** C1, counterexample. Instagram is down and the two other platforms
    answer.  The engine posts to all three and returns success, but its
    result has no ['posted_to']: the subscript raises [KeyError].  The
    executor returns success with [posted_to] listing tiktok and
    youtube, but it keeps no video record, whose posted flag could stay
    false, and no run record, which could close as 'completed': both
    tables are as empty as before.  No run of either runner has all the
    parts of the outcome. *)
Lemma platform_failure_outcome_is_split :
  let E := demo_env "instagram" in
  let w := world_default_workflow in
  let engine := run_workflow E w in
  let executor := execute_workflow E 1 w in
  post_verdicts (run_trace w (snd engine))
  = [("youtube", true); ("instagram", false); ("tiktok", true)]
  /\ fst engine
     = Ok (JObj [("success", JBool true); ("video_id", JNum 1);
                 ("video_url", JStr "http://x/video.mp4");
                 ("title", JStr "T")])
  /\ subscript_key (JObj [("success", JBool true); ("video_id", JNum 1);
                          ("video_url", JStr "http://x/video.mp4");
                          ("title", JStr "T")]) "posted_to"
     = inl (PyExc KeyError [Val (JStr "posted_to")])
  /\ post_verdicts (run_trace w (snd executor))
     = [("tiktok", true); ("instagram", false); ("youtube", true)]
  /\ fst executor
     = Ok (JObj [("success", JBool true);
                 ("workflow_id", JNum 1);
                 ("workflow_name", JStr "pet-video-automation");
                 ("video_url", JStr "http://x/video.mp4");
                 ("title", JStr "T");
                 ("posted_to", JArr [JStr "tiktok"; JStr "youtube"]);
                 ("idea_slug", JStr "baby-goat-happy-hops")])
  /\ videos (snd executor) = []
  /\ workflow_runs (snd executor) = [].
Proof. cbv zeta. repeat split; vm_compute; reflexivity. Qed.

(** ** The status of a video record *)

(** The status history of a trace written out: the wait writes none. *)
Ltac history_norm :=
  unfold status_history;
  repeat (progress
            (cbn [flat_map status_writes status_of_update app];
             rewrite ?flat_map_app;
             repeat match goal with
               | Hh : forall v, flat_map (status_writes v) (rev ?evs) = [] |- _ =>
                   rewrite Hh
               end));
  rewrite ?app_nil_r.

(** C2. Along a run of the engine the status values written to a video
    record follow the edges created -> generating -> generated ->
    completed, or leave one of the first three for failed; every value
    lies strictly after all the values written before it, so none comes
    back.  Only the record the run creates is written to, and its first
    status is created.  The sink is reached from each of the three
    states that are not terminal, and completed is reached. *)
Theorem video_status_never_reverts (E : Env) (w : World) (v : nat) :
  let w' := snd (run_workflow E w) in
  let h := status_history v (run_trace w w') in
  is_status_path h = true
  /\ never_reverts h = true
  /\ (h <> [] -> v = S (length (videos w)) /\ head h = Some "created")
  /\ (forall s, In s ["created"; "generating"; "generated"] ->
      exists before,
        status_history 1
          (run_trace world_empty
             (snd (run_workflow (failing_env s) world_empty)))
        = (before ++ [s; "failed"])%list)
  /\ status_history 1
       (run_trace world_empty
          (snd (run_workflow (demo_env "none") world_empty)))
     = ["created"; "generating"; "generated"; "completed"].
Proof.
  intros w' h. subst w' h.
  assert (Hrun :
    let h := status_history v (run_trace w (snd (run_workflow E w))) in
    is_status_path h = true /\ never_reverts h = true
    /\ (h <> [] -> v = S (length (videos w)) /\ head h = Some "created")).
  { destruct (run_workflow E w) as [r w'] eqn:H. cbn [snd].
    run_inv H; try (unfold status_history in Hhist);
      trace_norm; history_norm;
      try match goal with
        | |- context [Nat.eqb ?a v] =>
            destruct (Nat.eqb_spec a v) as [Hv|Hv]
        end;
      cbn [app]; cbv zeta;
      (split; [reflexivity|]); (split; [reflexivity|]);
      intros Hne; first [ split; [symmetry; exact Hv | reflexivity]
                        | contradiction ]. }
  destruct Hrun as (H1 & H2 & H3).
  split; [exact H1|]. split; [exact H2|]. split; [exact H3|].
  split.
  - intros s Hs. cbn [In] in Hs.
    destruct Hs as [<- | [<- | [<- | []]]].
    + exists []. vm_compute. reflexivity.
    + exists ["created"]. vm_compute. reflexivity.
    + exists ["created"; "generating"]. vm_compute. reflexivity.
  - vm_compute. reflexivity.
Qed.

(** ** The result URL *)

(** C5. The video URL taken from a finished task is the first element
    of the list [resultUrls] of its [resultJson], whether [resultJson]
    is an object with that list or a string that decodes to such an
    object.  With the JSON decoder of this file for [json.loads], the
    text [{"resultUrls":["http://x/video.mp4"]}] gives
    [http://x/video.mp4], and so does the object of the same shape. *)
Theorem extract_video_url_first_result (E : Env) (result data payload url : json)
    (rest : list json) (s : string) :
  subscript_key result "data" = inr data ->
  subscript_key payload "resultUrls" = inr (JArr (url :: rest)) ->
  (subscript_key data "resultJson" = inr payload ->
   is_str payload = false ->
   extract_video_url E result = inr url)
  /\ (subscript_key data "resultJson" = inr (JStr s) ->
      json_loads E s = inr payload ->
      extract_video_url E result = inr url)
  /\ json_decode example_resultJson
     = inr (JObj [("resultUrls", JArr [JStr "http://x/video.mp4"])])
  /\ extract_video_url (text_env s) (finished (JStr example_resultJson))
     = inr (JStr "http://x/video.mp4")
  /\ extract_video_url E
       (finished (JObj [("resultUrls", JArr [JStr "http://x/video.mp4"])]))
     = inr (JStr "http://x/video.mp4").
Proof.
  intros Hdata Hurls. unfold extract_video_url. rewrite Hdata.
  split; [|split; [|split; [|split]]].
  - intros Hjson Hstr. rewrite Hjson, Hstr, Hurls. reflexivity.
  - intros Hjson Hloads. rewrite Hjson. cbn [is_str]. unfold loads.
    rewrite Hloads, Hurls. reflexivity.
  - vm_compute. reflexivity.
  - vm_compute. reflexivity.
  - vm_compute. reflexivity.
Qed.

Lemma extract_video_url_first_result_witness :
  extract_video_url (text_env "x")
    (finished (JStr example_resultJson))
  = inr (JStr "http://x/video.mp4").
Proof.
  apply (proj1 (proj2
    (extract_video_url_first_result (text_env "x")
       (finished (JStr example_resultJson))
       (JObj [("status", JStr "SUCCESS");
              ("resultJson", JStr example_resultJson)])
       (JObj [("resultUrls", JArr [JStr "http://x/video.mp4"])])
       (JStr "http://x/video.mp4") [] example_resultJson
       eq_refl eq_refl))).
  - reflexivity.
  - vm_compute. reflexivity.
Defined.

(** ** The theorems at sample runs *)

(** The protocol on a task that is still running at the first poll and
    done at the second: the second poll's result is returned. *)
Lemma wait_for_completion_protocol_witness :
  let w1 := after_pending slow_env (JStr "t1") 10 1 world_empty in
  0 < default 10 None
  /\ (forall j, (j < 1)%nat ->
        now (after_pending slow_env (JStr "t1") 10 j world_empty)
        - now world_empty < 600
        /\ is_pending (poll_reply slow_env (JStr "t1")
                         (after_pending slow_env (JStr "t1") 10 j world_empty))
           = true)
  /\ wait_for_completion slow_env (JStr "t1") None None world_empty
     = (Ok (finished (JObj [("resultUrls", JArr [JStr "http://x/video.mp4"])])),
        polled slow_env (JStr "t1") w1).
Proof.
  cbv zeta.
  assert (Hci : 0 < default 10 None) by (cbn; lia).
  assert (Hpend : forall j, (j < 1)%nat ->
            now (after_pending slow_env (JStr "t1") (default 10 None) j world_empty)
            - now world_empty < default 600 None
            /\ is_pending (poll_reply slow_env (JStr "t1")
                 (after_pending slow_env (JStr "t1") (default 10 None) j world_empty))
               = true).
  { intros j Hj. destruct j as [|j]; [|lia]. split; [cbn; lia | reflexivity]. }
  split; [exact Hci|]. split; [exact Hpend|].
  apply (proj1 (wait_for_completion_protocol slow_env (JStr "t1") None None
                  world_empty 1 Hci Hpend)).
  - cbn. lia.
  - reflexivity.
  - reflexivity.
Defined.

(** A failed first poll in the engine and in the executor. *)
Lemma failed_first_poll_publishes_nothing_witness :
  let E := failing_env "generating" in
  let w := world_default_workflow in
  let reply := inr (JObj [("data", JObj [("status", JStr "FAILED")])]) in
  let engine := run_trace w (snd (run_workflow E w)) in
  let executor := run_trace w (snd (execute_workflow E 1 w)) in
  reply_status reply = Some (JStr "FAILED")
  /\ first_poll engine = Some reply
  /\ (existsb is_upload engine = false /\ existsb is_post engine = false)
  /\ first_poll executor = Some reply
  /\ (existsb is_upload executor = false /\ existsb is_post executor = false).
Proof.
  cbv zeta.
  assert (Hst : reply_status (inr (JObj [("data", JObj [("status", JStr "FAILED")])]))
                = Some (JStr "FAILED")) by reflexivity.
  assert (He : first_poll (run_trace world_default_workflow
                 (snd (run_workflow (failing_env "generating") world_default_workflow)))
               = Some (inr (JObj [("data", JObj [("status", JStr "FAILED")])])))
    by (vm_compute; reflexivity).
  assert (Hx : first_poll (run_trace world_default_workflow
                 (snd (execute_workflow (failing_env "generating") 1
                         world_default_workflow)))
               = Some (inr (JObj [("data", JObj [("status", JStr "FAILED")])])))
    by (vm_compute; reflexivity).
  split; [exact Hst|]. split; [exact He|].
  split; [exact (proj1 (failed_first_poll_publishes_nothing
                          (failing_env "generating") world_default_workflow 1 _ Hst) He)|].
  split; [exact Hx|].
  exact (proj2 (failed_first_poll_publishes_nothing
                  (failing_env "generating") world_default_workflow 1 _ Hst) Hx).
Defined.


(** A model reply that is not JSON, in the engine. *)
Lemma script_failure_aborts_engine_run_witness :
  let E := text_env "a goat hops" in
  let w := world_one_run in
  let reply := inr (demo_body "a goat hops") in
  let e := PyExc JSONDecodeError [Lit "Expecting value"] in
  first_script_reply (run_trace w (snd (run_workflow E w))) = Some reply
  /\ script_of_reply E reply = inl e
  /\ fst (run_workflow E w)
     = Ok (JObj [("success", JBool false);
                 ("error", JStr (str_exn E e));
                 ("trace", JStr (format_exc E e))])
  /\ videos (snd (run_workflow E w)) = videos w
  /\ workflow_runs (snd (run_workflow E w))
     = (workflow_runs w
        ++ [mkRunRow true "failed" None (Some (str_exn E e))])%list.
Proof.
  cbv zeta.
  assert (H1 : first_script_reply
                 (run_trace world_one_run
                    (snd (run_workflow (text_env "a goat hops") world_one_run)))
               = Some (inr (demo_body "a goat hops")))
    by (vm_compute; reflexivity).
  assert (H2 : script_of_reply (text_env "a goat hops")
                 (inr (demo_body "a goat hops"))
               = inl (PyExc JSONDecodeError [Lit "Expecting value"]))
    by (vm_compute; reflexivity).
  split; [exact H1|]. split; [exact H2|].
  exact (proj1 (script_failure_aborts_engine_run (text_env "a goat hops")
                  world_one_run _ _
                  (PyExc JSONDecodeError [Lit "Expecting value"])
                  JNull EmptyString) H1 H2).
Defined.

(** Instagram down: the engine and the executor post to the two other
    platforms and report success. *)
Lemma platform_failure_keeps_run_witness :
  let E := demo_env "instagram" in
  let w := world_default_workflow in
  let ps := ["tiktok"; "instagram"; "youtube"] in
  let engine := run_trace w (snd (run_workflow E w)) in
  let executor := run_trace w (snd (execute_workflow E 1 w)) in
  (existsb is_post engine = true
   /\ post_verdicts engine
      = [("youtube", true); ("instagram", false); ("tiktok", true)]
   /\ exists result video closed y i t,
        fst (run_workflow E w) = Ok result
        /\ subscript_key result "success" = inr (JBool true)
        /\ keys result = ["success"; "video_id"; "video_url"; "title"]
        /\ post_verdicts engine
           = [("youtube", y); ("instagram", i); ("tiktok", t)]
        /\ videos (snd (run_workflow E w)) = (videos w ++ [video])%list
        /\ v_status video = "completed"
        /\ v_posted_youtube video = y
        /\ v_posted_instagram video = i
        /\ v_posted_tiktok video = t
        /\ workflow_runs (snd (run_workflow E w))
           = (workflow_runs w ++ [closed])%list
        /\ r_status closed = "completed")
  /\ (existsb upload_ok executor = true
      /\ post_verdicts executor
         = [("tiktok", true); ("instagram", false); ("youtube", true)]
      /\ exists result logged,
           fst (execute_workflow E 1 w) = Ok result
           /\ subscript_key result "success" = inr (JBool true)
           /\ map fst (post_verdicts executor) = ps
           /\ subscript_key result "posted_to"
              = inr (JArr (map JStr
                             (map fst (List.filter snd (post_verdicts executor)))))
           /\ workflow_executions (snd (execute_workflow E 1 w))
              = (workflow_executions w ++ [logged])%list
           /\ x_status logged = "success"
           /\ videos (snd (execute_workflow E 1 w)) = videos w
           /\ workflow_runs (snd (execute_workflow E 1 w)) = workflow_runs w).
Proof.
  cbv zeta.
  pose proof (platform_failure_keeps_run (demo_env "instagram")
                world_default_workflow 1 default_workflow
                ["tiktok"; "instagram"; "youtube"]) as [Hengine Hexecutor].
  cbv zeta in Hengine, Hexecutor.
  assert (H1 : existsb is_post
                 (run_trace world_default_workflow
                    (snd (run_workflow (demo_env "instagram")
                            world_default_workflow))) = true)
    by (vm_compute; reflexivity).
  assert (H2 : existsb upload_ok
                 (run_trace world_default_workflow
                    (snd (execute_workflow (demo_env "instagram") 1
                            world_default_workflow))) = true)
    by (vm_compute; reflexivity).
  split.
  - split; [exact H1|]. split; [vm_compute; reflexivity|]. exact (Hengine H1).
  - split; [exact H2|]. split; [vm_compute; reflexivity|].
    apply Hexecutor; [reflexivity | reflexivity | reflexivity | reflexivity
                     | reflexivity | exact H2].
Defined.

(** ** The idea bank beyond the rotation *)

(** X1. [get_next_idea] accepts every integer index, negative ones and ones
    past the end included: on a bank that is not empty it never raises,
    it returns the idea at position [index mod N] and a next index
    inside [0, N), and indices that differ by [N] give the same answer.
    On an empty bank the modulus raises [ZeroDivisionError]. *)
Theorem get_next_idea_any_index (ideas : list json) (i : Z) :
  let n := Z.of_nat (length ideas) in
  (ideas = [] -> exists e, get_next_idea ideas i = inl e
                           /\ exc_class e = ZeroDivisionError)
  /\ (ideas <> [] ->
      exists idea,
        get_next_idea ideas i = inr (idea, (i + 1) mod n)
        /\ ideas !! Z.to_nat (i mod n) = Some idea
        /\ 0 <= (i + 1) mod n < n
        /\ get_next_idea ideas (i + n) = get_next_idea ideas i).
Proof.
  intros n. split.
  - intros ->. eexists. split; reflexivity.
  - intros Hne.
    assert (Hn : 0 < n) by (subst n; destruct ideas; [congruence | cbn; lia]).
    pose proof (Z.mod_pos_bound i n Hn) as Hb.
    destruct (lookup_lt_is_Some_2 ideas (Z.to_nat (i mod n)) ltac:(lia))
      as [idea Hidea].
    exists idea.
    assert (Hcall : get_next_idea ideas i = inr (idea, (i + 1) mod n)).
    { unfold get_next_idea. fold n.
      destruct (Z.eqb_spec n 0) as [?|_]; [lia|].
      rewrite Hidea, Z.add_mod_idemp_l by lia. reflexivity. }
    split; [exact Hcall|]. split; [exact Hidea|].
    split; [apply Z.mod_pos_bound; exact Hn|].
    unfold get_next_idea. fold n.
    destruct (Z.eqb_spec n 0) as [?|_]; [lia|].
    replace ((i + n) mod n) with (i mod n); [reflexivity|].
    rewrite <- (Z.mul_1_l n) at 2. rewrite Z.mod_add by lia. reflexivity.
Qed.

Lemma get_next_idea_any_index_witness :
  exists idea,
    get_next_idea IDEAS (-1) = inr (idea, (-1 + 1) mod 10)
    /\ IDEAS !! Z.to_nat ((-1) mod 10) = Some idea
    /\ 0 <= (-1 + 1) mod 10 < 10
    /\ get_next_idea IDEAS (-1 + 10) = get_next_idea IDEAS (-1).
Proof.
  apply (proj2 (get_next_idea_any_index IDEAS (-1))). discriminate.
Defined.

Lemma get_idea_by_slug_app (l l' : list json) (slug : string) (idea : json) :
  get_idea_by_slug l slug = inr idea -> idea <> JNull ->
  get_idea_by_slug (l ++ l') slug = inr idea.
Proof.
  induction l as [|x l IH]; intros H Hne.
  - injection H as <-. contradiction.
  - cbn [get_idea_by_slug app] in *.
    destruct (subscript_key x "slug") as [e|s]; [discriminate|].
    destruct (eq_str s slug); [exact H | apply IH; assumption].
Qed.

Lemma get_idea_by_slug_skip (l l' : list json) (slug : string) :
  forallb (other_slug slug) l = true ->
  get_idea_by_slug (l ++ l') slug = get_idea_by_slug l' slug.
Proof.
  induction l as [|x l IH]; intros H; [reflexivity|].
  cbn [forallb] in H. apply andb_true_iff in H as [Hx H].
  cbn [get_idea_by_slug app]. unfold other_slug in Hx.
  destruct (subscript_key x "slug") as [e|s]; [discriminate|].
  apply negb_true_iff in Hx. rewrite Hx. apply IH. exact H.
Qed.

(** X2. What [get_idea_by_slug] returns is the first match: either [None],
    and then every idea of the list has a slug and none has the one
    asked for; or an idea of the list whose slug is the one asked for,
    all ideas before it having other slugs; or the [KeyError] of the
    first entry without a slug, no entry before it being a match. *)
Theorem get_idea_by_slug_first_match (ideas : list json) (slug : string) :
  match get_idea_by_slug ideas slug with
  | inr idea =>
      (idea = JNull /\ forallb (other_slug slug) ideas = true)
      \/ (exists before after,
             ideas = (before ++ idea :: after)%list
             /\ subscript_key idea "slug" = inr (JStr slug)
             /\ forallb (other_slug slug) before = true)
  | inl e =>
      exists before entry after,
        ideas = (before ++ entry :: after)%list
        /\ subscript_key entry "slug" = inl e
        /\ forallb (other_slug slug) before = true
  end.
Proof.
  induction ideas as [|x l IH]; [left; split; reflexivity|].
  cbn [get_idea_by_slug].
  destruct (subscript_key x "slug") as [e|s] eqn:Hs.
  { exists [], x, l. repeat split. exact Hs. }
  destruct (eq_str s slug) eqn:Heq.
  { right. exists [], l. repeat split.
    destruct s; try discriminate. unfold eq_str in Heq.
    apply String.eqb_eq in Heq. subst. exact Hs. }
  assert (Hx : other_slug slug x = true)
    by (unfold other_slug; rewrite Hs, Heq; reflexivity).
  destruct (get_idea_by_slug l slug) as [e|idea].
  - destruct IH as (before & entry & after & -> & He & Hb).
    exists (x :: before), entry, after. repeat split; [exact He|].
    cbn [forallb]. rewrite Hx, Hb. reflexivity.
  - destruct IH as [[-> Hall] | (before & after & -> & Hi & Hb)].
    + left. split; [reflexivity|]. cbn [forallb]. rewrite Hx, Hall. reflexivity.
    + right. exists (x :: before), after. repeat split; [exact Hi|].
      cbn [forallb]. rewrite Hx, Hb. reflexivity.
Qed.

(** X3. Every idea of the literal catalog is found by its slug, whatever
    custom ideas have been appended: the ten slugs are pairwise
    distinct and the catalog comes first, so a custom idea that reuses
    a catalog slug is never the one returned. *)
Theorem catalog_idea_found_by_slug (custom : list json) (i : nat) (idea : json) :
  IDEAS !! i = Some idea ->
  exists slug,
    subscript_key idea "slug" = inr (JStr slug)
    /\ get_idea_by_slug (bank custom) slug = inr idea.
Proof.
  intros Hi. unfold bank.
  do 10 (destruct i as [|i];
         [injection Hi as <-; eexists; split; [reflexivity|];
          apply get_idea_by_slug_app; [vm_compute; reflexivity | discriminate]|]).
  discriminate Hi.
Qed.

Lemma catalog_idea_found_by_slug_witness :
  exists slug,
    subscript_key (hd JNull IDEAS) "slug" = inr (JStr slug)
    /\ get_idea_by_slug
         (bank [JObj [("slug", JStr "baby-goat-happy-hops")]]) slug
       = inr (hd JNull IDEAS).
Proof.
  apply (catalog_idea_found_by_slug
           [JObj [("slug", JStr "baby-goat-happy-hops")]] 0). reflexivity.
Defined.

(** X4. [add_custom_idea] returns the position of the idea it appended: the
    bank afterwards holds the idea there and every earlier idea where it
    was, [get_next_idea] at the returned index yields the new idea and
    wraps the rotation to 0, and nothing else of the state changes. *)
Theorem add_custom_idea_index (idea_data : json) (w : World) :
  exists idx w',
    add_custom_idea idea_data w = (Ok idx, w')
    /\ idx = Z.of_nat (length (bank (custom_ideas w)))
    /\ bank (custom_ideas w') = (bank (custom_ideas w) ++ [idea_data])%list
    /\ get_next_idea (bank (custom_ideas w')) idx = inr (idea_data, 0)
    /\ (forall j idea, bank (custom_ideas w) !! j = Some idea ->
                       bank (custom_ideas w') !! j = Some idea)
    /\ same_store w (set_custom_ideas (custom_ideas w) w')
    /\ events w' = events w.
Proof.
  do 2 eexists. split; [reflexivity|].
  assert (Hbank : bank (custom_ideas w ++ [idea_data])
                  = (bank (custom_ideas w) ++ [idea_data])%list)
    by (unfold bank; apply app_assoc).
  cbn [custom_ideas set_custom_ideas]. rewrite Hbank.
  split; [rewrite length_app; cbn; lia|].
  split; [reflexivity|].
  split.
  - unfold get_next_idea. rewrite length_app. cbn [length].
    set (n := length (bank (custom_ideas w))).
    destruct (Z.eqb_spec (Z.of_nat (n + 1)) 0) as [?|_]; [lia|].
    replace (Z.of_nat (n + 1) - 1) with (Z.of_nat n) by lia.
    rewrite Z.mod_small by lia. rewrite Nat2Z.id.
    rewrite lookup_app_r by (subst n; lia).
    replace (n - length (bank (custom_ideas w)))%nat with 0%nat by (subst n; lia).
    cbn. replace (Z.of_nat n + 1) with (Z.of_nat (n + 1)) by lia.
    rewrite Z.mod_same by lia. reflexivity.
  - split; [|split; [repeat split|reflexivity]].
    intros j idea Hj. apply lookup_app_l_Some. exact Hj.
Qed.

(** X5. An appended idea is found by its slug exactly when no idea already
    in the bank has that slug: if every earlier idea has another slug,
    the lookup returns the new idea; if an earlier idea has the slug,
    the lookup still returns that earlier one. *)
Theorem add_custom_idea_then_lookup (idea_data : json) (slug : string) (w : World) :
  subscript_key idea_data "slug" = inr (JStr slug) ->
  let before := bank (custom_ideas w) in
  let after := bank (custom_ideas (snd (add_custom_idea idea_data w))) in
  (forallb (other_slug slug) before = true ->
   get_idea_by_slug after slug = inr idea_data)
  /\ (forall old, get_idea_by_slug before slug = inr old -> old <> JNull ->
      get_idea_by_slug after slug = inr old).
Proof.
  intros Hslug before after. subst before after.
  cbn [snd add_custom_idea custom_ideas set_custom_ideas].
  assert (Hbank : bank (custom_ideas w ++ [idea_data])
                  = (bank (custom_ideas w) ++ [idea_data])%list)
    by (unfold bank; apply app_assoc).
  rewrite Hbank. split.
  - intros Hall. rewrite get_idea_by_slug_skip by exact Hall.
    cbn [get_idea_by_slug]. rewrite Hslug. unfold eq_str.
    rewrite String.eqb_refl. reflexivity.
  - intros old Hold Hne. apply get_idea_by_slug_app; assumption.
Qed.

Lemma add_custom_idea_then_lookup_witness :
  let idea := JObj [("slug", JStr "otter-holds-hands")] in
  subscript_key idea "slug" = inr (JStr "otter-holds-hands")
  /\ forallb (other_slug "otter-holds-hands") (bank []) = true
  /\ get_idea_by_slug (bank (custom_ideas (snd (add_custom_idea idea world_empty))))
       "otter-holds-hands" = inr idea.
Proof.
  cbv zeta.
  assert (H1 : subscript_key (JObj [("slug", JStr "otter-holds-hands")]) "slug"
               = inr (JStr "otter-holds-hands")) by reflexivity.
  assert (H2 : forallb (other_slug "otter-holds-hands") (bank []) = true)
    by (vm_compute; reflexivity).
  split; [exact H1|]. split; [exact H2|].
  exact (proj1 (add_custom_idea_then_lookup _ _ world_empty H1) H2).
Defined.

(** ** More on the completion poll *)

Section PollingBounds.

Variable E : Env.
Variable task_id : json.

Lemma length_filter_polls_snoc (evs : list Event) (reply : exn + json) (d : Z) :
  length (List.filter is_poll
            (evs ++ [ESleep d; ECall (CGetTaskStatus task_id) reply])%list)
  = S (length (List.filter is_poll evs)).
Proof. rewrite List.filter_app, length_app. cbn. lia. Qed.

(** Each poll but the last is followed by a sleep of [check_interval],
    and a poll is only made inside the budget. *)
Lemma wait_loop_poll_bound (start_time max_wait check_interval : Z) (fuel : nat) :
  0 < check_interval ->
  forall (w w' : World) (r : outcome json),
    wait_loop E fuel task_id start_time max_wait check_interval w = (r, w') ->
    exists evs,
      events w' = (evs ++ events w)%list
      /\ (Z.of_nat (length (List.filter is_poll evs)) - 1) * check_interval
         < Z.max 0 (max_wait - (now w - start_time)).
Proof.
  intros Hci. induction fuel as [|fuel IH]; intros w w' r H.
  - cbn in H. injection H as <- <-. exists []. split; [reflexivity|]. cbn. lia.
  - rewrite wait_loop_step in H.
    destruct (Z.ltb_spec (now w - start_time) max_wait) as [Hlt|Hge].
    + assert (Hpolled : forall r0, (r0, polled E task_id w) = (r, w') ->
                exists evs,
                  events w' = (evs ++ events w)%list
                  /\ (Z.of_nat (length (List.filter is_poll evs)) - 1)
                     * check_interval
                     < Z.max 0 (max_wait - (now w - start_time))).
      { intros r0 H0. injection H0 as <- <-.
        exists [ECall (CGetTaskStatus task_id) (poll_reply E task_id w)].
        split; [reflexivity|]. cbn. lia. }
      destruct (poll_reply E task_id w) as [e|result] eqn:Hreply; [eauto|].
      destruct (task_status result) as [e|st]; [eauto|].
      destruct (eq_str st "SUCCESS"); [eauto|].
      destruct (eq_str st "FAILED" || eq_str st "ERROR"); [eauto|].
      destruct (check_interval <? 0); [eauto|].
      apply IH in H as (evs & Hev & Hbound).
      rewrite now_pending_step in Hbound.
      exists (evs ++ [ESleep check_interval;
                      ECall (CGetTaskStatus task_id) (poll_reply E task_id w)])%list.
      split.
      * rewrite Hev. cbn. rewrite <- app_assoc. reflexivity.
      * rewrite length_filter_polls_snoc.
        pose proof (Nat2Z.is_nonneg (elapse E (length (events w)))) as Hel.
        rewrite Nat2Z.inj_succ.
        set (c := Z.of_nat (length (List.filter is_poll evs))) in *.
        assert (Hc : c = 0 \/ 1 <= c) by lia.
        rewrite Z.max_r by lia.
        destruct Hc as [-> | Hc]; [lia|].
        destruct (Z.max_spec 0 (max_wait
                    - (now w + Z.of_nat (elapse E (length (events w)))
                       + check_interval - start_time))) as [[_ Hm] | [_ Hm]];
          rewrite Hm in Hbound; nia.
    + injection H as <- <-. exists []. split; [reflexivity|]. cbn. lia.
Qed.

(** The events of the loop are polls of the task and sleeps of
    [check_interval], and the clock does not go back. *)
Lemma wait_loop_shape (start_time max_wait check_interval : Z) (fuel : nat) :
  forall (w w' : World) (r : outcome json),
    wait_loop E fuel task_id start_time max_wait check_interval w = (r, w') ->
    exists evs,
      events w' = (evs ++ events w)%list
      /\ Forall (fun ev => (exists reply, ev = ECall (CGetTaskStatus task_id) reply)
                           \/ ev = ESleep check_interval) evs
      /\ now w <= now w'.
Proof.
  induction fuel as [|fuel IH]; intros w w' r H.
  - cbn in H. injection H as <- <-. exists []. repeat split; [constructor | lia].
  - rewrite wait_loop_step in H.
    destruct (now w - start_time <? max_wait).
    + assert (Hpolled : forall r0, (r0, polled E task_id w) = (r, w') ->
                exists evs,
                  events w' = (evs ++ events w)%list
                  /\ Forall (fun ev =>
                               (exists reply, ev = ECall (CGetTaskStatus task_id) reply)
                               \/ ev = ESleep check_interval) evs
                  /\ now w <= now w').
      { intros r0 H0. injection H0 as <- <-.
        exists [ECall (CGetTaskStatus task_id) (poll_reply E task_id w)].
        split; [reflexivity|].
        split; [constructor; [left; eauto | constructor]|].
        cbn. lia. }
      destruct (poll_reply E task_id w) as [e|result] eqn:Hreply; [eauto|].
      destruct (task_status result) as [e|st]; [eauto|].
      destruct (eq_str st "SUCCESS"); [eauto|].
      destruct (eq_str st "FAILED" || eq_str st "ERROR"); [eauto|].
      destruct (Z.ltb_spec check_interval 0) as [?|Hci]; [eauto|].
      apply IH in H as (evs & Hev & Hall & Hnow).
      rewrite now_pending_step in Hnow.
      exists (evs ++ [ESleep check_interval;
                      ECall (CGetTaskStatus task_id) (poll_reply E task_id w)])%list.
      split; [rewrite Hev; cbn; rewrite <- app_assoc; reflexivity|].
      split; [|lia].
      apply Forall_app. split; [exact Hall|].
      constructor; [right; reflexivity|].
      constructor; [left; eauto | constructor].
    + injection H as <- <-. exists []. repeat split; [constructor | lia].
Qed.

(** A turn of the loop inside the budget starts with a poll. *)
Lemma wait_loop_starts_with_poll (start_time max_wait check_interval : Z)
    (fuel : nat) (w w' : World) (r : outcome json) :
  now w - start_time < max_wait ->
  wait_loop E (S fuel) task_id start_time max_wait check_interval w = (r, w') ->
  exists evs,
    events w'
    = (evs ++ ECall (CGetTaskStatus task_id) (poll_reply E task_id w)
         :: events w)%list.
Proof.
  intros Hbudget H. rewrite wait_loop_step in H.
  destruct (Z.ltb_spec (now w - start_time) max_wait) as [_|?]; [|lia].
  assert (Hpolled : forall r0, (r0, polled E task_id w) = (r, w') ->
            exists evs,
              events w'
              = (evs ++ ECall (CGetTaskStatus task_id) (poll_reply E task_id w)
                   :: events w)%list).
  { intros r0 H0. injection H0 as <- <-. exists []. reflexivity. }
  destruct (poll_reply E task_id w) as [e|result] eqn:Hreply; [eauto|].
  destruct (task_status result) as [e|st]; [eauto|].
  destruct (eq_str st "SUCCESS"); [eauto|].
  destruct (eq_str st "FAILED" || eq_str st "ERROR"); [eauto|].
  destruct (check_interval <? 0); [eauto|].
  apply wait_loop_shape in H as (evs & Hev & _ & _).
  exists (evs ++ [ESleep check_interval])%list.
  rewrite Hev. cbn. rewrite ?Hreply, <- app_assoc. reflexivity.
Qed.

End PollingBounds.

(** X6. [wait_for_completion] polls a bounded number of times: with a
    positive interval, every poll but the first comes after a sleep of
    [check_interval] and none is made once the budget is used up, so
    [(polls - 1) * check_interval < max_wait]; with the defaults of 600
    and 10 that is at most 60 polls. *)
Theorem wait_for_completion_poll_bound (E : Env) (task_id : json)
    (max_wait check_interval : option Z) (w : World) :
  let mw := default 600 max_wait in
  let ci := default 10 check_interval in
  let w' := snd (wait_for_completion E task_id max_wait check_interval w) in
  let polls := Z.of_nat (length (List.filter is_poll (run_trace w w'))) in
  0 < ci ->
  (polls - 1) * ci < Z.max 0 mw
  /\ (mw = 600 -> ci = 10 -> polls <= 60).
Proof.
  intros mw ci w' polls Hci.
  assert (Hbound : (polls - 1) * ci < Z.max 0 mw).
  { subst polls w'.
    destruct (wait_for_completion E task_id max_wait check_interval w)
      as [r w'] eqn:H. cbn [snd].
    rewrite wait_for_completion_unfold in H. fold mw ci in H.
    apply wait_loop_poll_bound in H as (evs & Hev & Hb); [|exact Hci].
    unfold run_trace. rewrite (new_events_ext _ _ _ Hev).
    assert (Hlen : length (List.filter is_poll (rev evs))
                   = length (List.filter is_poll evs)).
    { clear. induction evs as [|ev evs IH]; [reflexivity|].
      cbn [rev List.filter]. rewrite List.filter_app, length_app, IH.
      cbn [List.filter]. destruct (is_poll ev); cbn; lia. }
    rewrite Hlen. replace (mw - (now w - now w)) with mw in Hb by lia.
    exact Hb. }
  split; [exact Hbound|]. intros Hmw Hten. lia.
Qed.

Lemma wait_for_completion_poll_bound_witness :
  let w' := snd (wait_for_completion slow_env (JStr "t1") None None world_empty) in
  let polls := Z.of_nat (length (List.filter is_poll (run_trace world_empty w'))) in
  0 < default 10 None
  /\ polls = 2
  /\ (polls - 1) * default 10 None < Z.max 0 (default 600 None)
  /\ (default 600 None = 600 -> default 10 None = 10 -> polls <= 60).
Proof.
  cbv zeta.
  assert (Hci : 0 < default 10 None) by (cbn; lia).
  split; [exact Hci|]. split; [vm_compute; reflexivity|].
  exact (wait_for_completion_poll_bound slow_env (JStr "t1") None None
           world_empty Hci).
Defined.

(** X7. Waiting does nothing but wait: whatever comes back, the call leaves
    the tables and the rotation index as they were, the only events it
    adds are status polls of its own task and sleeps of
    [check_interval], and the clock does not go back. *)
Theorem wait_for_completion_only_waits (E : Env) (task_id : json)
    (max_wait check_interval : option Z) (w : World) :
  let w' := snd (wait_for_completion E task_id max_wait check_interval w) in
  same_store w w'
  /\ Forall (fun ev => (exists reply, ev = ECall (CGetTaskStatus task_id) reply)
                       \/ ev = ESleep (default 10 check_interval))
       (run_trace w w')
  /\ now w <= now w'.
Proof.
  cbv zeta.
  destruct (wait_for_completion E task_id max_wait check_interval w)
    as [r w'] eqn:H. cbn [snd].
  split; [apply (wait_for_completion_frame _ _ _ _ _ _ _ H)|].
  rewrite wait_for_completion_unfold in H.
  apply wait_loop_shape in H as (evs & Hev & Hall & Hnow).
  split; [|exact Hnow].
  unfold run_trace. rewrite (new_events_ext _ _ _ Hev).
  apply Forall_rev. exact Hall.
Qed.

(** X8. The edges of the two arguments.  With a budget of zero or less the
    call raises the timeout at once, without a single poll.  With a
    negative interval and a first poll that gives no verdict, it is
    [time.sleep] that raises, a [ValueError], after exactly that one
    poll. *)
Theorem wait_for_completion_argument_edges (E : Env) (task_id : json)
    (max_wait check_interval : option Z) (w : World) :
  let mw := default 600 max_wait in
  let ci := default 10 check_interval in
  (mw <= 0 ->
   wait_for_completion E task_id max_wait check_interval w
   = (Raise (generation_timed_out mw), w))
  /\ (0 < mw -> ci < 0 -> is_pending (poll_reply E task_id w) = true ->
      wait_for_completion E task_id max_wait check_interval w
      = (Raise (PyExc ValueError [Lit "sleep length must be non-negative"]),
         polled E task_id w)).
Proof.
  intros mw ci. rewrite wait_for_completion_unfold, wait_loop_step. fold mw ci.
  replace (now w - now w) with 0 by lia. split.
  - intros Hmw. destruct (Z.ltb_spec 0 mw) as [?|_]; [lia|]. reflexivity.
  - intros Hmw Hci Hp. destruct (Z.ltb_spec 0 mw) as [_|?]; [|lia].
    unfold is_pending, reply_status in Hp.
    destruct (poll_reply E task_id w) as [e|result]; [discriminate|].
    destruct (task_status result) as [e|st]; [discriminate|].
    apply andb_true_iff in Hp as [Hs Hf]. apply negb_true_iff in Hs, Hf.
    rewrite Hs, Hf.
    destruct (Z.ltb_spec ci 0) as [_|?]; [reflexivity | lia].
Qed.

Lemma wait_for_completion_argument_edges_witness :
  (default 600 (Some 0) <= 0
   /\ wait_for_completion slow_env (JStr "t1") (Some 0) None world_empty
      = (Raise (generation_timed_out 0), world_empty))
  /\ (0 < default 600 None /\ default 10 (Some (-1)) < 0
      /\ is_pending (poll_reply slow_env (JStr "t1") world_empty) = true
      /\ wait_for_completion slow_env (JStr "t1") None (Some (-1)) world_empty
         = (Raise (PyExc ValueError [Lit "sleep length must be non-negative"]),
            polled slow_env (JStr "t1") world_empty)).
Proof.
  assert (H0 : default 600 (Some 0) <= 0) by (cbn; lia).
  assert (H1 : 0 < default 600 None) by (cbn; lia).
  assert (H2 : default 10 (Some (-1)) < 0) by (cbn; lia).
  assert (H3 : is_pending (poll_reply slow_env (JStr "t1") world_empty) = true)
    by reflexivity.
  split.
  - split; [exact H0|].
    exact (proj1 (wait_for_completion_argument_edges slow_env (JStr "t1")
                    (Some 0) None world_empty) H0).
  - split; [exact H1|]. split; [exact H2|]. split; [exact H3|].
    exact (proj2 (wait_for_completion_argument_edges slow_env (JStr "t1")
                    None (Some (-1)) world_empty) H1 H2 H3).
Defined.

(** X9. Poll replies that carry no status.  A body without ['data'], or
    whose ['data'] is a dictionary without ['status'], counts as still
    running: the call sleeps for [check_interval] and then, if the
    budget is not used up by then, polls again; if it is, the call
    raises the timeout after that one poll and one sleep.  A body that
    is not a dictionary, or whose ['data'] is not one (a JSON null,
    say), makes the call raise [AttributeError] right after that poll:
    neither the generation failure nor the timeout. *)
Theorem wait_for_completion_reply_without_status (E : Env) (task_id : json)
    (max_wait check_interval : option Z) (w : World) (result : json) :
  let mw := default 600 max_wait in
  let ci := default 10 check_interval in
  let run := wait_for_completion E task_id max_wait check_interval w in
  let w1 := pending_step E task_id ci w in
  0 < mw ->
  poll_reply E task_id w = inr result ->
  ((exists kv, result = JObj kv
               /\ (assoc "data" kv = None
                   \/ exists d, assoc "data" kv = Some (JObj d)
                                /\ assoc "status" d = None)) ->
   0 <= ci ->
   (now w1 - now w < mw ->
    exists rest,
      run_trace w (snd run)
      = ECall (CGetTaskStatus task_id) (inr result)
        :: ESleep ci
        :: ECall (CGetTaskStatus task_id) (poll_reply E task_id w1)
        :: rest)
   /\ (mw <= now w1 - now w ->
       run = (Raise (generation_timed_out mw), w1)
       /\ run_trace w (snd run)
          = [ECall (CGetTaskStatus task_id) (inr result); ESleep ci]))
  /\ (is_dict result = false
      \/ (exists d, dict_get result "data" (JObj []) = inr d
                    /\ is_dict d = false) ->
      exists e,
        run = (Raise e, polled E task_id w)
        /\ exc_class e = AttributeError
        /\ isinstance_exn e TimeoutError = false).
Proof.
  intros mw ci run w1 Hmw Hreply. subst run.
  rewrite wait_for_completion_unfold, wait_loop_step. fold mw ci.
  replace (now w - now w) with 0 by lia.
  destruct (Z.ltb_spec 0 mw) as [_|?]; [|lia].
  rewrite Hreply. split.
  - intros (kv & -> & Hkv) Hci.
    assert (Hst : task_status (JObj kv) = inr JNull).
    { unfold task_status, dict_get.
      destruct Hkv as [-> | (d & -> & ->)]; reflexivity. }
    rewrite Hst.
    change (eq_str JNull "SUCCESS") with false.
    change (eq_str JNull "FAILED" || eq_str JNull "ERROR") with false.
    cbv iota.
    destruct (Z.ltb_spec ci 0) as [?|_]; [lia|].
    fold w1.
    assert (Hw1 : events w1
                  = ([ESleep ci; ECall (CGetTaskStatus task_id) (inr (JObj kv))]
                     ++ events w)%list)
      by (subst w1; cbn; rewrite Hreply; reflexivity).
    destruct (Z.to_nat mw) as [|fuel] eqn:Hfuel; [lia|].
    split.
    + intros Hbudget.
      destruct (wait_loop E (S fuel) task_id (now w) mw ci w1) as [r w'] eqn:H.
      cbn [snd].
      apply wait_loop_starts_with_poll in H as [evs Hev]; [|exact Hbudget].
      exists (rev evs). unfold run_trace.
      assert (Hev' : events w'
                     = ((evs ++ [ECall (CGetTaskStatus task_id)
                                   (poll_reply E task_id w1);
                                 ESleep ci;
                                 ECall (CGetTaskStatus task_id) (inr (JObj kv))])
                        ++ events w)%list).
      { rewrite Hev, Hw1, <- app_assoc. reflexivity. }
      rewrite (new_events_ext _ _ _ Hev'), rev_app_distr. reflexivity.
    + intros Hover. rewrite wait_loop_step.
      destruct (Z.ltb_spec (now w1 - now w) mw) as [?|_]; [lia|].
      split; [reflexivity|]. cbn [snd]. unfold run_trace.
      rewrite (new_events_ext _ _ _ Hw1). reflexivity.
  - intros Hbad.
    assert (Hst : exists e, task_status result = inl e
                            /\ exc_class e = AttributeError).
    { unfold task_status. destruct Hbad as [Hr | (d & Hd & Hnd)].
      - destruct result; try discriminate; eexists; split; reflexivity.
      - rewrite Hd. destruct d; try discriminate;
          eexists; split; reflexivity. }
    destruct Hst as (e & -> & Hclass).
    exists e. split; [reflexivity|]. split; [exact Hclass|].
    unfold isinstance_exn. rewrite Hclass. reflexivity.
Qed.

Lemma wait_for_completion_reply_without_status_witness :
  (0 < default 600 None
   /\ poll_reply empty_body_env (JStr "t1") world_empty = inr (JObj [])
   /\ now (pending_step empty_body_env (JStr "t1") (default 10 None) world_empty)
      - now world_empty < default 600 None
   /\ exists rest,
        run_trace world_empty
          (snd (wait_for_completion empty_body_env (JStr "t1") None None
                  world_empty))
        = ECall (CGetTaskStatus (JStr "t1")) (inr (JObj []))
          :: ESleep (default 10 None)
          :: ECall (CGetTaskStatus (JStr "t1"))
               (poll_reply empty_body_env (JStr "t1")
                  (pending_step empty_body_env (JStr "t1") (default 10 None)
                     world_empty))
          :: rest)
  /\ (0 < default 600 (Some 5)
      /\ default 600 (Some 5)
         <= now (pending_step empty_body_env (JStr "t1") (default 10 None)
                   world_empty)
            - now world_empty
      /\ wait_for_completion empty_body_env (JStr "t1") (Some 5) None world_empty
         = (Raise (generation_timed_out 5),
            pending_step empty_body_env (JStr "t1") (default 10 None) world_empty))
  /\ (poll_reply null_data_env (JStr "t1") world_empty
      = inr (JObj [("data", JNull)])
      /\ exists e,
           wait_for_completion null_data_env (JStr "t1") None None world_empty
           = (Raise e, polled null_data_env (JStr "t1") world_empty)
           /\ exc_class e = AttributeError
           /\ isinstance_exn e TimeoutError = false).
Proof.
  assert (H1 : 0 < default 600 None) by (cbn; lia).
  assert (H5 : 0 < default 600 (Some 5)) by (cbn; lia).
  assert (Hci : 0 <= default 10 None) by (cbn; lia).
  assert (Hin : now (pending_step empty_body_env (JStr "t1") (default 10 None)
                       world_empty)
                - now world_empty < default 600 None) by (cbn; lia).
  assert (Hout : default 600 (Some 5)
                 <= now (pending_step empty_body_env (JStr "t1") (default 10 None)
                           world_empty)
                    - now world_empty) by (cbn; lia).
  assert (Hshape : exists kv, JObj [] = JObj kv
                     /\ (assoc "data" kv = None
                         \/ exists d, assoc "data" kv = Some (JObj d)
                                      /\ assoc "status" d = None))
    by (exists []; split; [reflexivity | left; reflexivity]).
  split; [|split].
  - split; [exact H1|]. split; [reflexivity|]. split; [exact Hin|].
    exact (proj1 (proj1 (wait_for_completion_reply_without_status empty_body_env
                           (JStr "t1") None None world_empty (JObj []) H1 eq_refl)
                    Hshape Hci) Hin).
  - split; [exact H5|]. split; [exact Hout|].
    exact (proj1 (proj2 (proj1 (wait_for_completion_reply_without_status
                                  empty_body_env (JStr "t1") (Some 5) None
                                  world_empty (JObj []) H5 eq_refl)
                           Hshape Hci) Hout)).
  - split; [reflexivity|].
    refine (proj2 (wait_for_completion_reply_without_status null_data_env
                     (JStr "t1") None None world_empty (JObj [("data", JNull)])
                     H1 eq_refl) _).
    right. exists JNull. split; reflexivity.
Defined.

(** ** The engine beyond one claim *)

(** The idea [next_idea] hands out is the one at the rotation index. *)
Lemma next_idea_pick (w : World) :
  let n := Z.of_nat (length (bank (custom_ideas w))) in
  exists idea,
    bank (custom_ideas w) !! Z.to_nat (current_idea_index w mod n) = Some idea
    /\ next_idea w
       = (Ok idea, set_current_idea_index ((current_idea_index w + 1) mod n) w).
Proof.
  intros n. unfold next_idea, get_next_idea. fold n.
  assert (Hlen : 0 < n) by (subst n; unfold bank; rewrite length_app; cbn; lia).
  destruct (Z.eqb_spec n 0) as [?|_]; [lia|].
  pose proof (Z.mod_pos_bound (current_idea_index w) n Hlen) as Hb.
  destruct (lookup_lt_is_Some_2 (bank (custom_ideas w))
              (Z.to_nat (current_idea_index w mod n)) ltac:(lia))
    as [idea Hidea].
  exists idea. split; [exact Hidea|].
  rewrite Hidea, Z.add_mod_idemp_l by lia. reflexivity.
Qed.

(** Polls and sleeps are no script or chat requests. *)
Lemma polls_no_requests (evs : list Event) :
  forallb (fun ev => is_poll ev || negb (is_call ev)) evs = true ->
  script_requests (rev evs) = [] /\ chat_requests (rev evs) = [].
Proof.
  induction evs as [|ev evs IH]; [split; reflexivity|].
  cbn [forallb rev]. intros H. apply andb_true_iff in H as [Hev H].
  destruct (IH H) as [IH1 IH2].
  unfold script_requests, chat_requests in *.
  rewrite !flat_map_app, IH1, IH2. cbn.
  destruct ev as [[] ?| | | | | |]; try discriminate; split; reflexivity.
Qed.

Lemma posts_no_requests (evs : list Event) :
  forallb is_post evs = true ->
  script_requests (rev evs) = [] /\ chat_requests (rev evs) = [].
Proof.
  induction evs as [|ev evs IH]; [split; reflexivity|].
  cbn [forallb rev]. intros H. apply andb_true_iff in H as [Hev H].
  destruct (IH H) as [IH1 IH2].
  unfold script_requests, chat_requests in *.
  rewrite !flat_map_app, IH1, IH2. cbn.
  destruct ev as [[] ?| | | | | |]; try discriminate; split; reflexivity.
Qed.

(** The requests of a trace written out: waits and posts add none. *)
Ltac requests_norm :=
  repeat match goal with
    | Hq : forallb (fun ev => is_poll ev || negb (is_call ev)) ?evs = true |- _ =>
        let H1 := fresh "Hreq" in
        let H2 := fresh "Hreq" in
        destruct (polls_no_requests evs Hq) as [H1 H2];
        unfold script_requests, chat_requests in H1, H2; clear Hq
    | Hq : forallb is_post ?evs = true |- _ =>
        let H1 := fresh "Hreq" in
        let H2 := fresh "Hreq" in
        destruct (posts_no_requests evs Hq) as [H1 H2];
        unfold script_requests, chat_requests in H1, H2; clear Hq
    end;
  unfold script_requests, chat_requests;
  repeat (progress
            (cbn [flat_map script_request chat_request app];
             rewrite ?flat_map_app;
             repeat match goal with
               | Hq : flat_map script_request (rev ?evs) = [] |- _ => rewrite Hq
               | Hq : flat_map chat_request (rev ?evs) = [] |- _ => rewrite Hq
               end));
  rewrite ?app_nil_r.

(** X10. A run of the engine keeps to its own tables: it never writes to the
    workflow table, the execution log or the idea bank, and in the video
    table it adds at most one row, after the rows that were there, which
    it leaves as they were. *)
Theorem run_workflow_keeps_other_tables (E : Env) (w : World) :
  let w' := snd (run_workflow E w) in
  workflows w' = workflows w
  /\ workflow_executions w' = workflow_executions w
  /\ custom_ideas w' = custom_ideas w
  /\ exists new, videos w' = (videos w ++ new)%list /\ (length new <= 1)%nat.
Proof.
  cbv zeta. destruct (run_workflow E w) as [r w'] eqn:H. cbn [snd].
  run_inv H;
    cbn [workflows workflow_executions custom_ideas videos];
    (split; [reflexivity|]); (split; [reflexivity|]); (split; [reflexivity|]);
    first [ exists []; rewrite app_nil_r; split; [reflexivity | cbn; lia]
          | eexists; split; [reflexivity | cbn; lia] ].
Qed.

(** X11. Every run of the engine asks for the script of the idea at the
    rotation index: the bank holds an idea at [current_idea_index mod N],
    and the run makes exactly one script request, carrying that idea;
    only when the idea has no ['slug'] does the run fail before asking,
    and then it makes no script request at all. *)
Theorem run_workflow_requests_rotation_idea (E : Env) (w : World) :
  let n := Z.of_nat (length (bank (custom_ideas w))) in
  exists idea,
    bank (custom_ideas w) !! Z.to_nat (current_idea_index w mod n) = Some idea
    /\ script_requests (run_trace w (snd (run_workflow E w)))
       = match subscript_key idea "slug" with
         | inr _ => [idea]
         | inl _ => []
         end.
Proof.
  cbv zeta.
  destruct (next_idea_pick (snd (add_workflow_run w))) as (idea & Hidea & Hn).
  cbv zeta in Hidea, Hn. cbn [snd add_workflow_run] in Hidea, Hn.
  flat_hyp Hn. flat_hyp Hidea.
  exists idea. split; [exact Hidea|]. clear Hidea.
  destruct (run_workflow E w) as [r w'] eqn:H. cbn [snd].
  run_inv H;
    (injection Hn; intros; subst);
    repeat match goal with
      | Hs : subscript_key idea "slug" = _ |- _ => rewrite Hs
      end;
    trace_norm; requests_norm; reflexivity.
Qed.

(** ** Runs one after the other *)

(** What every run of the engine comes to. *)
Lemma run_workflow_summary (E : Env) (w : World) :
  exists result b closed w',
    run_workflow E w = (Ok result, w')
    /\ subscript_key result "success" = inr (JBool b)
    /\ (b = false -> exists msg, subscript_key result "error" = inr (JStr msg))
    /\ workflow_runs w' = (workflow_runs w ++ [closed])%list
    /\ r_completed closed = true
    /\ r_status closed = (if b then "completed" else "failed")
    /\ custom_ideas w' = custom_ideas w
    /\ current_idea_index w'
       = (current_idea_index w + 1) mod Z.of_nat (length (bank (custom_ideas w))).
Proof.
  destruct (run_workflow E w) as [r w'] eqn:H.
  run_inv H; cbn [workflow_runs custom_ideas current_idea_index];
    do 4 eexists; (split; [reflexivity|]); (split; [reflexivity|]);
    (split; [first [ intros Hb; discriminate Hb
                   | intros _; eexists; reflexivity ]|]);
    repeat (split; [reflexivity|]); reflexivity.
Qed.

Lemma count_status_snoc {R} (status_of : R -> string) (s : string)
    (t : list R) (r : R) :
  count_status status_of s (t ++ [r])
  = count_status status_of s t + (if String.eqb (status_of r) s then 1 else 0).
Proof.
  unfold count_status. rewrite List.filter_app, length_app. cbn [List.filter].
  destruct (String.eqb (status_of r) s); cbn [length]; lia.
Qed.

(** X12. The run counters of [Database.get_stats] follow the results of the
    runs: one run of the engine raises [total_runs] by one, and with it
    [successful_runs] when the run returned success, [failed_runs] when
    it returned failure, the other of the two staying as it was. *)
Theorem run_workflow_counted (E : Env) (w : World) :
  let w' := snd (run_workflow E w) in
  exists result b total done failed,
    fst (run_workflow E w) = Ok result
    /\ subscript_key result "success" = inr (JBool b)
    /\ stat "total_runs" w = inr (JNum total)
    /\ stat "successful_runs" w = inr (JNum done)
    /\ stat "failed_runs" w = inr (JNum failed)
    /\ stat "total_runs" w' = inr (JNum (total + 1))
    /\ stat "successful_runs" w' = inr (JNum (if b then done + 1 else done))
    /\ stat "failed_runs" w' = inr (JNum (if b then failed else failed + 1)).
Proof.
  cbv zeta.
  destruct (run_workflow_summary E w)
    as (result & b & closed & w' & H & Hb & _ & Hruns & _ & Hst & _ & _).
  rewrite H. cbn [fst snd].
  exists result, b. do 3 eexists.
  split; [reflexivity|]. split; [exact Hb|].
  split; [reflexivity|]. split; [reflexivity|]. split; [reflexivity|].
  assert (Htotal : stat "total_runs" w'
                   = inr (JNum (Z.of_nat (length (workflow_runs w'))))) by reflexivity.
  assert (Hdone : stat "successful_runs" w'
                  = inr (JNum (count_status r_status "completed" (workflow_runs w'))))
    by reflexivity.
  assert (Hfailed : stat "failed_runs" w'
                    = inr (JNum (count_status r_status "failed" (workflow_runs w'))))
    by reflexivity.
  rewrite Htotal, Hdone, Hfailed, Hruns, length_app, !count_status_snoc, Hst.
  cbn [length].
  split; [do 2 f_equal; lia|].
  destruct b; split; do 2 f_equal;
    match goal with
    | |- context [String.eqb ?a ?b] =>
        let v := eval vm_compute in (String.eqb a b) in
        change (String.eqb a b) with v
    end; cbv iota; lia.
Qed.

(** X13. The scheduler's wrapper adds nothing to a run: the two subscripts it
    takes of the result for its log lines, ['success'] and on failure
    ['error'], cannot raise, so a scheduled run returns what the engine
    returned and leaves the world the engine left. *)
Theorem scheduled_workflow_run_is_run (E : Env) (w : World) :
  scheduled_workflow_run E w = run_workflow E w.
Proof.
  destruct (run_workflow_summary E w)
    as (result & b & closed & w' & H & Hb & Herr & _).
  unfold scheduled_workflow_run, bind. rewrite H. unfold lift at 1. rewrite Hb.
  destruct b.
  - reflexivity.
  - destruct (Herr eq_refl) as [msg Hmsg].
    change (truthy (JBool false)) with false. cbv iota.
    unfold lift. rewrite Hmsg. reflexivity.
Qed.

Lemma after_runs_S (E : Env) (k : nat) (w : World) :
  after_runs E (S k) w = snd (run_workflow E (after_runs E k w)).
Proof. reflexivity. Qed.

(** X14. Runs of one engine, one after the other, turn the rotation: after
    [k] runs, [k] at least one, the index stands at
    [(index + k) mod N], whatever the runs did; each run has added one
    run record and closed it; the bank is as it was.  So [N] runs from
    an index inside the bank bring the rotation back to where it
    started. *)
Theorem after_runs_rotation (E : Env) (k : nat) (w : World) :
  let n := Z.of_nat (length (bank (custom_ideas w))) in
  let w' := after_runs E (S k) w in
  current_idea_index w' = (current_idea_index w + Z.of_nat (S k)) mod n
  /\ custom_ideas w' = custom_ideas w
  /\ (exists new, workflow_runs w' = (workflow_runs w ++ new)%list
                  /\ length new = S k
                  /\ forallb r_completed new = true)
  /\ (0 <= current_idea_index w < n ->
      current_idea_index (after_runs E (Z.to_nat n) w) = current_idea_index w).
Proof.
  intros n w'.
  assert (Hn : 0 < n)
    by (subst n; unfold bank; rewrite length_app; cbn; lia).
  assert (Hall : forall j,
    current_idea_index (after_runs E (S j) w)
    = (current_idea_index w + Z.of_nat (S j)) mod n
    /\ custom_ideas (after_runs E (S j) w) = custom_ideas w
    /\ exists new, workflow_runs (after_runs E (S j) w)
                   = (workflow_runs w ++ new)%list
                   /\ length new = S j
                   /\ forallb r_completed new = true).
  { induction j as [|j IH].
    - rewrite after_runs_S. change (after_runs E 0 w) with w.
      destruct (run_workflow_summary E w)
        as (result & b & closed & w1 & H & _ & _ & Hruns & Hc & _ & Hcu & Hi).
      rewrite H. cbn [snd]. fold n in Hi.
      split; [rewrite Hi; f_equal; lia|]. split; [exact Hcu|].
      exists [closed]. split; [exact Hruns|]. split; [reflexivity|].
      cbn [forallb]. rewrite Hc. reflexivity.
    - destruct IH as (IHi & IHc & new & IHr & IHl & IHa).
      rewrite after_runs_S.
      destruct (run_workflow_summary E (after_runs E (S j) w))
        as (result & b & closed & w1 & H & _ & _ & Hruns & Hc & _ & Hcu & Hi).
      rewrite H. cbn [snd]. rewrite IHc in Hi, Hcu. fold n in Hi.
      split.
      + rewrite Hi, IHi, Z.add_mod_idemp_l by lia. f_equal. lia.
      + split; [exact Hcu|].
        exists (new ++ [closed])%list.
        split; [rewrite Hruns, IHr, app_assoc; reflexivity|].
        split; [rewrite length_app, IHl; cbn; lia|].
        rewrite forallb_app, IHa. cbn [forallb]. rewrite Hc. reflexivity. }
  destruct (Hall k) as (H1 & H2 & H3).
  split; [exact H1|]. split; [exact H2|]. split; [exact H3|].
  intros Hrange.
  destruct (Z.to_nat n) as [|j] eqn:Hj; [lia|].
  destruct (Hall j) as (Hi & _).
  rewrite Hi, <- Hj, Z2Nat.id by lia.
  rewrite <- (Z.mul_1_l n) at 1. rewrite Z.mod_add by lia.
  apply Z.mod_small. exact Hrange.
Qed.

(** ** The executor beyond one claim *)

Lemma row_update_row {R} (id : nat) (f : R -> R) (t : list R) :
  row id (update_row id f t) = option_map f (row id t).
Proof.
  destruct id as [|i]; [reflexivity|]. cbn [row update_row].
  rewrite list_lookup_alter_eq. destruct (t !! i); reflexivity.
Qed.

Lemma row_update_row_ne {R} (id j : nat) (f : R -> R) (t : list R) :
  j <> id -> row j (update_row id f t) = row j t.
Proof.
  intros Hne. destruct id as [|i], j as [|j]; try reflexivity; try contradiction.
  cbn [row update_row]. apply list_lookup_alter_ne. congruence.
Qed.

(** A workflow that is missing or not active is not executed. *)
Lemma execute_workflow_inactive (E : Env) (workflow_id : nat) (w : World) :
  (forall wf, fst (get_workflow workflow_id w) = Ok (Some wf) ->
              wf_status wf <> "active") ->
  snd (execute_workflow E workflow_id w) = w.
Proof.
  intros Hinactive.
  unfold execute_workflow, bind. unfold get_workflow in *. cbn [fst] in Hinactive.
  destruct (match row workflow_id (workflows w) with
            | Some (Some wf) => Some wf
            | _ => None
            end) as [wf|]; [|reflexivity].
  specialize (Hinactive wf eq_refl).
  destruct (String.eqb_spec (wf_status wf) "active") as [Heq|_];
    [contradiction | reflexivity].
Qed.

(** What every execution of an active workflow comes to. *)
Lemma execute_workflow_summary (E : Env) (workflow_id : nat) (wf : WorkflowRow)
    (w : World) :
  fst (get_workflow workflow_id w) = Ok (Some wf) ->
  wf_status wf = "active" ->
  exists result b logged w',
    execute_workflow E workflow_id w = (Ok result, w')
    /\ subscript_key result "success" = inr (JBool b)
    /\ workflow_executions w' = (workflow_executions w ++ [logged])%list
    /\ x_workflow_id logged = workflow_id
    /\ x_status logged = (if b then "success" else "failed")
    /\ x_result logged = (if b then Some result else None)
    /\ (b = false -> subscript_key result "error" = inr (x_error logged))
    /\ workflows w'
       = update_row workflow_id (option_map (count_run b)) (workflows w)
    /\ videos w' = videos w
    /\ workflow_runs w' = workflow_runs w
    /\ custom_ideas w' = custom_ideas w
    /\ current_idea_index w' = current_idea_index w.
Proof.
  intros Hget Hactive.
  unfold get_workflow in Hget. cbn [fst] in Hget. injection Hget as Hget.
  assert (Hact : negb (String.eqb (wf_status wf) "active") = false)
    by (rewrite Hactive; reflexivity).
  destruct (execute_workflow E workflow_id w) as [r w'] eqn:H.
  run_inv H;
    cbn [workflow_executions workflows videos workflow_runs custom_ideas
         current_idea_index];
    do 4 eexists; (split; [reflexivity|]); (split; [reflexivity|]);
    (split; [reflexivity|]); (split; [reflexivity|]); (split; [reflexivity|]);
    (split; [reflexivity|]);
    (split; [first [ intros Hb; discriminate Hb | intros _; reflexivity ]|]);
    repeat (split; [reflexivity|]); reflexivity.
Qed.

(** X15. Every execution of an active workflow is logged once and counted
    once, whatever happens in it: [execute_workflow] never raises but
    returns a dictionary with a boolean ['success'], appends exactly one
    execution row for the workflow, with status 'success' when it
    returned success and 'failed' otherwise (then with the returned
    error), and moves the workflow's counters by one run of that
    kind. *)
Theorem execute_workflow_logs_once (E : Env) (workflow_id : nat)
    (wf : WorkflowRow) (w : World) :
  fst (get_workflow workflow_id w) = Ok (Some wf) ->
  wf_status wf = "active" ->
  let w' := snd (execute_workflow E workflow_id w) in
  exists result b logged,
    fst (execute_workflow E workflow_id w) = Ok result
    /\ subscript_key result "success" = inr (JBool b)
    /\ workflow_executions w' = (workflow_executions w ++ [logged])%list
    /\ x_workflow_id logged = workflow_id
    /\ x_status logged = (if b then "success" else "failed")
    /\ x_result logged = (if b then Some result else None)
    /\ (b = false -> subscript_key result "error" = inr (x_error logged))
    /\ fst (get_workflow workflow_id w') = Ok (Some (count_run b wf))
    /\ wf_total_runs (count_run b wf) = wf_total_runs wf + 1.
Proof.
  intros Hget Hactive. cbv zeta.
  destruct (execute_workflow_summary E workflow_id wf w Hget Hactive)
    as (result & b & logged & w' & H & Hb & Hx & Hid & Hst & Hres & Herr
        & Hwf & _).
  rewrite H. cbn [fst snd].
  exists result, b, logged.
  repeat (split; [assumption || reflexivity|]).
  split; [|reflexivity].
  unfold get_workflow in *. cbn [fst] in *.
  rewrite Hwf, row_update_row.
  destruct (row workflow_id (workflows w)) as [[wf0|]|]; try discriminate.
  injection Hget as ->. reflexivity.
Qed.

Lemma execute_workflow_logs_once_witness :
  let w := world_default_workflow in
  let w' := snd (execute_workflow (failing_env "created") 1 w) in
  fst (get_workflow 1 w) = Ok (Some default_workflow)
  /\ wf_status default_workflow = "active"
  /\ exists result b logged,
       fst (execute_workflow (failing_env "created") 1 w) = Ok result
       /\ subscript_key result "success" = inr (JBool b)
       /\ workflow_executions w' = (workflow_executions w ++ [logged])%list
       /\ x_workflow_id logged = 1%nat
       /\ x_status logged = (if b then "success" else "failed")
       /\ x_result logged = (if b then Some result else None)
       /\ (b = false -> subscript_key result "error" = inr (x_error logged))
       /\ fst (get_workflow 1 w') = Ok (Some (count_run b default_workflow))
       /\ wf_total_runs (count_run b default_workflow)
          = wf_total_runs default_workflow + 1.
Proof.
  cbv zeta. split; [reflexivity|]. split; [reflexivity|].
  exact (execute_workflow_logs_once (failing_env "created") 1 default_workflow
           world_default_workflow eq_refl eq_refl).
Defined.

(** X16. An execution keeps to the executor's tables: whatever the workflow
    id and whatever happens, [execute_workflow] never writes to the
    video table or to the table of engine runs, never moves the rotation
    index and never changes the idea bank; it leaves every other
    workflow row as it was and appends at most one execution row. *)
Theorem execute_workflow_keeps_other_tables (E : Env) (workflow_id : nat)
    (w : World) :
  let w' := snd (execute_workflow E workflow_id w) in
  videos w' = videos w
  /\ workflow_runs w' = workflow_runs w
  /\ custom_ideas w' = custom_ideas w
  /\ current_idea_index w' = current_idea_index w
  /\ (forall j, j <> workflow_id ->
                row j (workflows w') = row j (workflows w))
  /\ exists new, workflow_executions w' = (workflow_executions w ++ new)%list
                 /\ (length new <= 1)%nat.
Proof.
  cbv zeta.
  destruct (fst (get_workflow workflow_id w)) as [[wf|]|e|] eqn:Hget;
    try discriminate Hget.
  - destruct (String.eqb_spec (wf_status wf) "active") as [Hactive|Hpaused].
    + destruct (execute_workflow_summary E workflow_id wf w Hget Hactive)
        as (result & b & logged & w' & H & _ & Hx & _ & _ & _ & _
            & Hwf & Hv & Hr & Hc & Hi).
      rewrite H. cbn [snd].
      repeat (split; [assumption|]).
      split; [intros j Hj; rewrite Hwf; apply row_update_row_ne; exact Hj|].
      exists [logged]. split; [exact Hx | cbn; lia].
    + rewrite execute_workflow_inactive.
      * repeat (split; [reflexivity|]).
        exists []. rewrite app_nil_r. split; [reflexivity | cbn; lia].
      * intros wf0 Hwf0. rewrite Hget in Hwf0. injection Hwf0 as <-.
        exact Hpaused.
  - rewrite execute_workflow_inactive.
    + repeat (split; [reflexivity|]).
      exists []. rewrite app_nil_r. split; [reflexivity | cbn; lia].
    + intros wf0 Hwf0. rewrite Hget in Hwf0. discriminate Hwf0.
Qed.

Lemma counters_add_up_count_run (b : bool) (o : option WorkflowRow) :
  counters_add_up o -> counters_add_up (option_map (count_run b) o).
Proof.
  destruct o as [wf|]; [|exact id]. cbn. destruct b; lia.
Qed.

(** X17. The run counters stay consistent: if in every workflow row
    [total_runs] is the sum of [successful_runs] and [failed_runs], the
    same holds after any call of [execute_workflow]. *)
Theorem execute_workflow_counters_add_up (E : Env) (workflow_id : nat)
    (w : World) :
  Forall counters_add_up (workflows w) ->
  Forall counters_add_up (workflows (snd (execute_workflow E workflow_id w))).
Proof.
  intros Hall.
  destruct (fst (get_workflow workflow_id w)) as [[wf|]|e|] eqn:Hget;
    try discriminate Hget.
  - destruct (String.eqb_spec (wf_status wf) "active") as [Hactive|Hpaused].
    + destruct (execute_workflow_summary E workflow_id wf w Hget Hactive)
        as (result & b & logged & w' & H & _ & _ & _ & _ & _ & _ & Hwf & _).
      rewrite H. cbn [snd]. rewrite Hwf.
      destruct workflow_id as [|i]; [exact Hall|]. cbn [update_row].
      apply Forall_alter; [exact Hall|].
      intros o _. apply counters_add_up_count_run.
    + rewrite execute_workflow_inactive; [exact Hall|].
      intros wf0 Hwf0. rewrite Hget in Hwf0. injection Hwf0 as <-.
      exact Hpaused.
  - rewrite execute_workflow_inactive; [exact Hall|].
    intros wf0 Hwf0. rewrite Hget in Hwf0. discriminate Hwf0.
Qed.

Lemma execute_workflow_counters_add_up_witness :
  Forall counters_add_up (workflows world_default_workflow)
  /\ Forall counters_add_up
       (workflows (snd (execute_workflow (demo_env "none") 1
                          world_default_workflow))).
Proof.
  assert (H : Forall counters_add_up (workflows world_default_workflow))
    by (repeat constructor).
  split; [exact H|].
  exact (execute_workflow_counters_add_up (demo_env "none") 1
           world_default_workflow H).
Defined.

(** ** Ideas, types and platforms in the executor *)

(** X18. An execution that draws on the default idea bank always takes the
    first idea of the catalog: the executor calls [get_next_idea()]
    without an index and drops the next index, so every such run makes
    exactly one chat request, for that first idea, the rotation index
    stays where it was, and a successful result reports the slug
    'baby-goat-happy-hops'. *)
Theorem execute_workflow_default_idea (E : Env) (workflow_id : nat)
    (wf : WorkflowRow) (w : World) :
  fst (get_workflow workflow_id w) = Ok (Some wf) ->
  wf_status wf = "active" ->
  wf_type wf = "video_creation" ->
  dict_get (wf_config wf) "idea_bank" JNull = inr (JStr "default") ->
  let r := fst (execute_workflow E workflow_id w) in
  let w' := snd (execute_workflow E workflow_id w) in
  chat_requests (run_trace w w') = [hd JNull IDEAS]
  /\ current_idea_index w' = current_idea_index w
  /\ (forall result, r = Ok result ->
        subscript_key result "success" = inr (JBool true) ->
        subscript_key result "idea_slug" = inr (JStr "baby-goat-happy-hops")).
Proof.
  intros Hget Hactive Htype Hbank. cbv zeta.
  unfold get_workflow in Hget. cbn [fst] in Hget. injection Hget as Hget.
  assert (Hact : negb (String.eqb (wf_status wf) "active") = false)
    by (rewrite Hactive; reflexivity).
  assert (Hty : String.eqb (wf_type wf) "video_creation" = true)
    by (rewrite Htype; reflexivity).
  assert (Hn : (if eq_str (JStr "default") "default" then default_idea
                else lift (dict_get (wf_config wf) "custom_idea" (JObj []))) w
               = (Ok (hd JNull IDEAS), w))
    by exact (default_idea_first w).
  destruct (execute_workflow E workflow_id w) as [r w'] eqn:H.
  cbn [fst snd].
  run_inv H; try discriminate Hn;
    (injection Hn; intros; subst);
    repeat match goal with
      | Hx : dict_get (mk_idea _ _ _ _ _ _ _) _ _ = _ |- _ =>
          vm_compute in Hx;
          first [ discriminate Hx | injection Hx as Hx; subst ]
      end;
    (split; [trace_norm; requests_norm; reflexivity|]);
    (split; [reflexivity|]);
    intros result Hr Hs; injection Hr as <-;
    first [ reflexivity | discriminate Hs ].
Qed.

Lemma execute_workflow_default_idea_witness :
  let w := mkWorld [] [] [Some default_workflow] [] [] 7 0 [] in
  let r := fst (execute_workflow (demo_env "none") 1 w) in
  let w' := snd (execute_workflow (demo_env "none") 1 w) in
  fst (get_workflow 1 w) = Ok (Some default_workflow)
  /\ wf_status default_workflow = "active"
  /\ wf_type default_workflow = "video_creation"
  /\ dict_get (wf_config default_workflow) "idea_bank" JNull
     = inr (JStr "default")
  /\ chat_requests (run_trace w w') = [hd JNull IDEAS]
  /\ current_idea_index w' = current_idea_index w
  /\ (forall result, r = Ok result ->
        subscript_key result "success" = inr (JBool true) ->
        subscript_key result "idea_slug" = inr (JStr "baby-goat-happy-hops")).
Proof.
  cbv zeta.
  split; [reflexivity|]. split; [reflexivity|]. split; [reflexivity|].
  split; [reflexivity|].
  exact (execute_workflow_default_idea (demo_env "none") 1 default_workflow
           (mkWorld [] [] [Some default_workflow] [] [] 7 0 [])
           eq_refl eq_refl eq_refl eq_refl).
Defined.

(** X19. Workflows of another type than 'video_creation' call no
    collaborator: for the types 'engagement', 'analytics' and 'custom'
    the execution returns success and is logged as a success; for any
    other type it returns failure with the error 'Unknown workflow
    type: ...' and is logged as failed with that error.  Either way the
    only event of the run is the logging of the execution. *)
Theorem execute_workflow_other_types (E : Env) (workflow_id : nat)
    (wf : WorkflowRow) (w : World) :
  fst (get_workflow workflow_id w) = Ok (Some wf) ->
  wf_status wf = "active" ->
  wf_type wf <> "video_creation" ->
  let known := placeholder_type (wf_type wf) in
  let w' := snd (execute_workflow E workflow_id w) in
  let message :=
    JStr (format E [Lit "Unknown workflow type: "; Val (JStr (wf_type wf))]) in
  exists result logged,
    fst (execute_workflow E workflow_id w) = Ok result
    /\ subscript_key result "success" = inr (JBool known)
    /\ run_trace w w'
       = [ELogExecution workflow_id (if known then "success" else "failed")]
    /\ workflow_executions w' = (workflow_executions w ++ [logged])%list
    /\ (known = false ->
        subscript_key result "error" = inr message
        /\ x_error logged = message).
Proof.
  intros Hget Hactive Htype. cbv zeta.
  unfold get_workflow in Hget. cbn [fst] in Hget. injection Hget as Hget.
  assert (Hact : negb (String.eqb (wf_status wf) "active") = false)
    by (rewrite Hactive; reflexivity).
  assert (Hty : String.eqb (wf_type wf) "video_creation" = false)
    by (apply String.eqb_neq; exact Htype).
  destruct (execute_workflow E workflow_id w) as [r w'] eqn:H.
  cbn [fst snd].
  run_inv H;
    unfold placeholder_type;
    repeat match goal with
      | Hb : String.eqb (wf_type wf) _ = _ |- _ => rewrite Hb
      end;
    cbn [orb workflow_executions];
    do 2 eexists; (split; [reflexivity|]); (split; [reflexivity|]);
    (split; [trace_norm; reflexivity|]); (split; [reflexivity|]);
    first [ intros Hk; discriminate Hk | intros _; split; reflexivity ].
Qed.

Lemma execute_workflow_other_types_witness :
  let w := world_of "newsletter" [] in
  let w' := snd (execute_workflow (demo_env "none") 1 w) in
  fst (get_workflow 1 w) = Ok (Some (workflow_of "newsletter" []))
  /\ wf_status (workflow_of "newsletter" []) = "active"
  /\ wf_type (workflow_of "newsletter" []) <> "video_creation"
  /\ placeholder_type "newsletter" = false
  /\ exists result logged,
       fst (execute_workflow (demo_env "none") 1 w) = Ok result
       /\ subscript_key result "success"
          = inr (JBool (placeholder_type (wf_type (workflow_of "newsletter" []))))
       /\ run_trace w w'
          = [ELogExecution 1
               (if placeholder_type (wf_type (workflow_of "newsletter" []))
                then "success" else "failed")]
       /\ workflow_executions w' = (workflow_executions w ++ [logged])%list
       /\ (placeholder_type (wf_type (workflow_of "newsletter" [])) = false ->
           subscript_key result "error"
           = inr (JStr (format (demo_env "none")
                          [Lit "Unknown workflow type: ";
                           Val (JStr (wf_type (workflow_of "newsletter" [])))]))
           /\ x_error logged
              = JStr (format (demo_env "none")
                        [Lit "Unknown workflow type: ";
                         Val (JStr (wf_type (workflow_of "newsletter" [])))])).
Proof.
  cbv zeta.
  assert (Hne : wf_type (workflow_of "newsletter" []) <> "video_creation")
    by discriminate.
  split; [reflexivity|]. split; [reflexivity|]. split; [exact Hne|].
  split; [reflexivity|].
  exact (execute_workflow_other_types (demo_env "none") 1
           (workflow_of "newsletter" []) (world_of "newsletter" [])
           eq_refl eq_refl Hne).
Defined.

Section UnsupportedPlatforms.

Variable E : Env.
Variables config script description hashtags media_url : json.

Lemma post_to_platform_unsupported (platform : json) (posted : list json)
    (w : World) :
  unsupported platform = true ->
  post_to_platform E config script description hashtags media_url
    platform posted w
  = (Ok (posted ++ [platform])%list, w).
Proof.
  unfold unsupported. intros H. apply negb_true_iff in H.
  apply orb_false_iff in H as [H Ht]. apply orb_false_iff in H as [Hy Hi].
  unfold post_to_platform, try_except, bind. rewrite Hy, Hi, Ht. reflexivity.
Qed.

(** X20. A platform name the loop has no branch for is reported as posted to
    although nothing is posted: for a list of names other than
    'youtube', 'instagram' and 'tiktok' the loop makes no request,
    leaves the world as it is, and returns [posted_to] extended by the
    whole list. *)
Theorem post_to_platforms_unsupported (targets posted : list json) (w : World) :
  forallb unsupported targets = true ->
  post_to_platforms E config script description hashtags media_url
    targets posted w
  = (Ok (posted ++ targets)%list, w).
Proof.
  revert posted. induction targets as [|platform targets IH]; intros posted H.
  - rewrite app_nil_r. reflexivity.
  - cbn [forallb] in H. apply andb_true_iff in H as [Hp H].
    cbn [post_to_platforms]. unfold bind.
    rewrite (post_to_platform_unsupported platform posted w Hp).
    rewrite IH by exact H. rewrite <- app_assoc. reflexivity.
Qed.

End UnsupportedPlatforms.

Lemma post_to_platforms_unsupported_witness :
  let w := world_of "video_creation" [JStr "facebook"; JStr "YouTube"] in
  forallb unsupported [JStr "facebook"; JStr "YouTube"] = true
  /\ post_to_platforms (demo_env "none") JNull JNull JNull JNull JNull
       [JStr "facebook"; JStr "YouTube"] [] w
     = (Ok [JStr "facebook"; JStr "YouTube"], w)
  /\ subscript_key
       (match fst (execute_workflow (demo_env "none") 1 w) with
        | Ok result => result
        | _ => JNull
        end) "posted_to"
     = inr (JArr [JStr "facebook"; JStr "YouTube"])
  /\ existsb is_post
       (run_trace w (snd (execute_workflow (demo_env "none") 1 w))) = false.
Proof.
  cbv zeta.
  assert (H : forallb unsupported [JStr "facebook"; JStr "YouTube"] = true)
    by reflexivity.
  split; [exact H|].
  split; [exact (post_to_platforms_unsupported (demo_env "none") JNull JNull
                   JNull JNull JNull [JStr "facebook"; JStr "YouTube"] []
                   (world_of "video_creation" [JStr "facebook"; JStr "YouTube"]) H)|].
  split; vm_compute; reflexivity.
Defined.

(** ** Pausing and resuming a workflow *)

(** X21. Pausing stops a workflow and resuming restarts it.  After
    [pause_workflow] an execution of the workflow returns the failure
    'Workflow is paused' and leaves the world as it is: no request, no
    execution row, no counter moved.  [resume_workflow] after it gives
    the row back with status 'active'.  Each of the two calls sets the
    row's [updated_at] to the time of the call and changes nothing else
    of the row, so after a pause and a resume the table of an active
    workflow differs from the table before only in that [updated_at];
    and neither call touches another workflow, its [updated_at]
    included. *)
Theorem pause_stops_resume_restarts (E : Env) (workflow_id : nat)
    (wf : WorkflowRow) (m : Managed) :
  fst (get_workflow workflow_id (m_world m)) = Ok (Some wf) ->
  let paused := snd (pause_workflow workflow_id m) in
  let resumed := snd (resume_workflow workflow_id paused) in
  execute_workflow E workflow_id (m_world paused)
  = (Ok (JObj [("success", JBool false);
               ("error", JStr (format E [Lit "Workflow is ";
                                         Val (JStr "paused")]))]),
     m_world paused)
  /\ fst (get_workflow workflow_id (m_world paused))
     = Ok (Some (set_wf_status "paused" wf))
  /\ fst (get_workflow workflow_id (m_world resumed))
     = Ok (Some (set_wf_status "active" wf))
  /\ (wf_status wf = "active" -> m_world resumed = m_world m)
  /\ row workflow_id (m_updated_at paused)
     = option_map (fun _ => now (m_world m)) (row workflow_id (m_updated_at m))
  /\ row workflow_id (m_updated_at resumed)
     = option_map (fun _ => now (m_world paused))
         (row workflow_id (m_updated_at m))
  /\ (forall j, j <> workflow_id ->
        row j (workflows (m_world paused)) = row j (workflows (m_world m))
        /\ row j (workflows (m_world resumed)) = row j (workflows (m_world m))
        /\ row j (m_updated_at paused) = row j (m_updated_at m)
        /\ row j (m_updated_at resumed) = row j (m_updated_at m)).
Proof.
  intros Hget. cbv zeta.
  unfold get_workflow in Hget. cbn [fst] in Hget.
  destruct (row workflow_id (workflows (m_world m))) as [[wf0|]|] eqn:Hrow;
    try discriminate Hget.
  injection Hget as ->.
  unfold pause_workflow, resume_workflow, update_workflow.
  cbv zeta. cbn [snd m_world m_updated_at workflows set_workflows now].
  rewrite Hrow. rewrite !row_update_row, Hrow. cbn [option_map].
  split; [|split; [|split; [|split; [|split; [|split]]]]].
  - unfold execute_workflow, bind, get_workflow.
    cbn [workflows set_workflows]. rewrite row_update_row, Hrow. reflexivity.
  - unfold get_workflow. cbn [fst workflows set_workflows].
    rewrite row_update_row, Hrow. reflexivity.
  - unfold get_workflow. cbn [fst workflows set_workflows].
    rewrite !row_update_row, Hrow. reflexivity.
  - intros Hactive.
    assert (Hsame : update_row workflow_id (option_map (set_wf_status "active"))
                      (update_row workflow_id
                         (option_map (set_wf_status "paused"))
                         (workflows (m_world m)))
                    = workflows (m_world m)).
    { destruct workflow_id as [|i]; [reflexivity|]. cbn [update_row row] in *.
      apply list_eq. intros j. destruct (decide (j = i)) as [->|Hne].
      - rewrite !list_lookup_alter_eq, Hrow. cbn.
        destruct wf as [n t c s tr sr fr]. cbn in Hactive. subst s. reflexivity.
      - rewrite !list_lookup_alter_ne by congruence. reflexivity. }
    unfold set_workflows. cbn [videos workflow_runs workflows workflow_executions
                              custom_ideas current_idea_index now events].
    rewrite Hsame. destruct (m_world m); reflexivity.
  - reflexivity.
  - rewrite !row_update_row.
    destruct (row workflow_id (m_updated_at m)); reflexivity.
  - intros j Hj. rewrite !row_update_row_ne by exact Hj. repeat split.
Qed.

Lemma pause_stops_resume_restarts_witness :
  let m := managed_default_workflow in
  let paused := snd (pause_workflow 1 m) in
  let resumed := snd (resume_workflow 1 paused) in
  fst (get_workflow 1 (m_world m)) = Ok (Some default_workflow)
  /\ execute_workflow (demo_env "none") 1 (m_world paused)
     = (Ok (JObj [("success", JBool false); ("error", JStr "message")]),
        m_world paused)
  /\ m_world resumed = m_world m
  /\ m_updated_at m = [3]
  /\ row 1 (m_updated_at resumed) = Some 50.
Proof.
  cbv zeta. split; [reflexivity|].
  pose proof (pause_stops_resume_restarts (demo_env "none") 1 default_workflow
                managed_default_workflow eq_refl)
    as (H1 & _ & _ & H4 & _ & H6 & _).
  split; [exact H1|]. split; [exact (H4 eq_refl)|].
  split; [reflexivity | exact H6].
Defined.

(** ** The video table *)

(** X22. A video record can be read back as it was added: [add_video]
    returns an id that was not in use, [get_video] of that id gives the
    new row, with status 'created', the three posted flags unset, no
    task, URL or error, and the script kept unless it is empty; the
    rows that were there are read as before. *)
Theorem add_video_then_get_video (idea script : json) (w : World) :
  let video_id := S (length (videos w)) in
  let w' := snd (add_video idea script w) in
  fst (add_video idea script w) = Ok video_id
  /\ fst (get_video video_id w) = Ok None
  /\ fst (get_video video_id w')
     = Ok (Some (mkVideoRow idea
                   (if truthy script then Some script else None)
                   None None "created" false false false None))
  /\ (forall j, j <> video_id ->
        fst (get_video j w') = fst (get_video j w)).
Proof.
  cbv zeta. unfold add_video, get_video.
  cbn [fst snd videos emit set_videos row].
  split; [reflexivity|].
  split; [rewrite lookup_ge_None_2 by lia; reflexivity|].
  split; [rewrite lookup_app_r, Nat.sub_diag by lia; reflexivity|].
  intros j Hj. f_equal. destruct j as [|j]; [reflexivity|]. cbn [row].
  destruct (Nat.lt_ge_cases j (length (videos w))) as [Hlt|Hge].
  - apply lookup_app_l. exact Hlt.
  - rewrite lookup_ge_None_2 by (rewrite length_app; cbn; lia).
    rewrite lookup_ge_None_2 by lia. reflexivity.
Qed.



(** ** The clients of the language models *)

Lemma find_ge (c : ascii) (s : string) : -1 <= find c s.
Proof.
  induction s as [|a r IH]; cbn [find]; [lia|].
  destruct (Ascii.eqb a c); [lia|].
  destruct (Z.ltb_spec (find c r) 0); lia.
Qed.

Lemma find_app_first (c : ascii) (pre r : string) :
  find c pre = -1 ->
  find c (pre ++ String c r) = Z.of_nat (String.length pre).
Proof.
  induction pre as [|a pre IH]; cbn [find append String.length]; intros H.
  - rewrite Ascii.eqb_refl. reflexivity.
  - destruct (Ascii.eqb a c); [discriminate|].
    pose proof (find_ge c pre).
    destruct (Z.ltb_spec (find c pre) 0) as [Hlt|Hge]; [|lia].
    rewrite IH by lia.
    destruct (Z.ltb_spec (Z.of_nat (String.length pre)) 0); lia.
Qed.

Lemma rfind_app_last (c : ascii) (xs post : string) :
  rfind c post = -1 ->
  rfind c (xs ++ String c post) = Z.of_nat (String.length xs).
Proof.
  intros H. induction xs as [|a xs IH]; cbn [rfind append String.length].
  - rewrite H, Ascii.eqb_refl. reflexivity.
  - rewrite IH.
    destruct (Z.leb_spec 0 (Z.of_nat (String.length xs))); lia.
Qed.

Lemma skip_app (pre s : string) : skip (String.length pre) (pre ++ s) = s.
Proof. induction pre as [|a pre IH]; [destruct s|]; [reflexivity..|exact IH]. Qed.

Lemma prefix_app (body s : string) :
  prefix (String.length body) (body ++ s) = body.
Proof.
  induction body as [|a body IH]; cbn [prefix append String.length].
  - destruct s; reflexivity.
  - rewrite IH. reflexivity.
Qed.

Lemma length_append (s t : string) :
  String.length (s ++ t) = (String.length s + String.length t)%nat.
Proof. induction s as [|a s IH]; cbn; [reflexivity | rewrite IH; reflexivity]. Qed.

Lemma append_assoc (s t u : string) : ((s ++ t) ++ u = s ++ (t ++ u))%string.
Proof. induction s as [|a s IH]; cbn; [reflexivity | rewrite IH; reflexivity]. Qed.

(** X24. [generate_workflow_config] finds a JSON object inside the prose
    around it: when the reply is some text without an opening brace, then
    a part that starts with an opening and ends with a closing brace,
    then some text without a closing brace, it is that part alone that
    is decoded, and its value is the configuration returned; if the part
    does not decode, the result is the error configuration carrying the
    whole reply.  A reply that is not a string gives the error
    configuration too. *)
Theorem generate_workflow_config_extracts (E : Env) (pre mid post : string) :
  find "{" pre = -1 ->
  rfind "}" post = -1 ->
  let body := ("{" ++ mid ++ "}")%string in
  let response := JStr (pre ++ body ++ post) in
  generate_workflow_config E response
  = match json_loads E body with
    | inr config => config
    | inl _ => JObj [("error", JStr "Could not parse workflow configuration");
                     ("raw_response", response)]
    end
  /\ (forall v, is_str v = false ->
        generate_workflow_config E v
        = JObj [("error", JStr "Could not parse workflow configuration");
                ("raw_response", v)]).
Proof.
  intros Hpre Hpost body response. split.
  - subst response. unfold generate_workflow_config. cbv zeta.
    assert (Hstart : find "{" (pre ++ body ++ post)
                     = Z.of_nat (String.length pre)).
    { subst body. cbn [append]. apply find_app_first. exact Hpre. }
    assert (Hend : rfind "}" (pre ++ body ++ post)
                   = Z.of_nat (String.length (pre ++ "{" ++ mid))).
    { subst body.
      replace (pre ++ ("{" ++ mid ++ "}") ++ post)%string
        with ((pre ++ "{" ++ mid) ++ String "}" post)%string.
      - apply rfind_app_last. exact Hpost.
      - cbn [append]. rewrite !append_assoc. cbn [append]. reflexivity. }
    rewrite Hstart, Hend.
    assert (Hlen : Z.of_nat (String.length (pre ++ "{" ++ mid)) + 1
                   = Z.of_nat (String.length pre)
                     + Z.of_nat (String.length body)).
    { subst body. rewrite !length_append. cbn [String.length]. lia. }
    rewrite Hlen.
    assert (Hbody : (2 <= String.length body)%nat)
      by (subst body; cbn [append String.length]; rewrite length_append; cbn; lia).
    destruct (Z.leb_spec 0 (Z.of_nat (String.length pre))) as [_|?]; [|lia].
    destruct (Z.ltb_spec (Z.of_nat (String.length pre))
                (Z.of_nat (String.length pre) + Z.of_nat (String.length body)))
      as [_|?]; [|lia].
    cbn [andb]. unfold slice.
    replace (Z.of_nat (String.length pre) + Z.of_nat (String.length body)
             - Z.of_nat (String.length pre))
      with (Z.of_nat (String.length body)) by lia.
    rewrite !Nat2Z.id, skip_app, prefix_app. reflexivity.
  - intros v Hv. destruct v; try discriminate Hv; reflexivity.
Qed.

Lemma generate_workflow_config_extracts_witness :
  find "{" "Here it is: " = -1
  /\ rfind "}" " Enjoy." = -1
  /\ generate_workflow_config (text_env "S")
       (JStr ("Here it is: " ++ example_config ++ " Enjoy."))
     = JObj [("name", JStr "x")].
Proof.
  assert (H1 : find "{" "Here it is: " = -1) by reflexivity.
  assert (H2 : rfind "}" " Enjoy." = -1) by reflexivity.
  split; [exact H1|]. split; [exact H2|].
  exact (proj1 (generate_workflow_config_extracts (text_env "S")
                  "Here it is: " (quoted "name" ++ ":" ++ quoted "x")
                  " Enjoy." H1 H2)).
Defined.

(** X25. [EnhancedAIClient.chat] never raises.  It makes exactly one
    request and touches nothing else; when the request comes back with
    the expected body it returns the content of the first choice, and
    when anything goes wrong, the request itself or the shape of the
    body, it returns a text that starts with 'Error communicating with
    AI: ' and goes on with the message of the exception. *)
Theorem chat_never_raises (E : Env) (idea config : json) (w : World) :
  let reply := respond E (length (events w)) (CChat idea config) in
  exists text w',
    chat E idea config w = (Ok text, w')
    /\ run_trace w w' = [ECall (CChat idea config) reply]
    /\ same_store w w'
    /\ (forall content,
          reply = inr (JObj [("choices",
                              JArr [JObj [("message",
                                           JObj [("content", content)])]])]) ->
          text = content)
    /\ (forall e, reply = inl e ->
          text = JStr (format E (Lit "Error communicating with AI: "
                                   :: exc_args e)))
    /\ (forall body, reply = inr body ->
          subscript_key body "choices" = inr (JArr []) ->
          text = JStr (format E [Lit "Error communicating with AI: ";
                                 Lit "list index out of range"])).
Proof.
  cbv zeta. do 2 eexists. split; [apply chat_spec|].
  split; [trace_norm; reflexivity|].
  split; [repeat split|].
  split; [intros content ->; reflexivity|].
  split; [intros e ->; reflexivity|].
  intros body -> Hchoices. unfold chat_text. rewrite Hchoices. reflexivity.
Qed.

(** X26. [OpenAIClient.generate_script] on replies of the wrong shape.  It
    makes its one request and raises, leaving the tables alone: the
    exception of the request when the request raised; [KeyError] when
    the body has no ['choices']; [IndexError] when the list of choices
    is empty; [TypeError] when the content of the first choice is not a
    string; and what [json.loads] raises when the content is a string
    that does not decode. *)
Theorem generate_script_malformed_reply (E : Env) (idea : json) (w : World) :
  let reply := respond E (length (events w)) (CGenerateScript idea) in
  let w' := snd (generate_script E idea w) in
  let raises c := exists e, fst (generate_script E idea w) = Raise e
                            /\ exc_class e = c in
  run_trace w w' = [ECall (CGenerateScript idea) reply]
  /\ same_store w w'
  /\ (forall e, reply = inl e -> fst (generate_script E idea w) = Raise e)
  /\ (forall kv, reply = inr (JObj kv) -> assoc "choices" kv = None ->
      raises KeyError)
  /\ (forall body, reply = inr body ->
      subscript_key body "choices" = inr (JArr []) -> raises IndexError)
  /\ (forall content, is_str content = false ->
      reply = inr (JObj [("choices",
                          JArr [JObj [("message",
                                       JObj [("content", content)])]])]) ->
      raises TypeError)
  /\ (forall s e,
      reply = inr (JObj [("choices",
                          JArr [JObj [("message",
                                       JObj [("content", JStr s)])]])]) ->
      json_loads E s = inl e ->
      fst (generate_script E idea w) = Raise e).
Proof.
  cbv zeta. rewrite generate_script_spec. cbn [fst snd].
  split; [trace_norm; reflexivity|].
  split; [repeat split|].
  split; [intros e ->; reflexivity|].
  split.
  { intros kv -> Hkv. unfold script_of_reply, subscript_key at 1.
    rewrite Hkv. eexists. split; reflexivity. }
  split.
  { intros body -> Hchoices. unfold script_of_reply. rewrite Hchoices.
    eexists. split; reflexivity. }
  split.
  { intros content Hstr ->.
    destruct content; try discriminate Hstr; eexists; split; reflexivity. }
  intros s e -> Hloads.
  change (script_of_reply E
            (inr (JObj [("choices",
                         JArr [JObj [("message",
                                      JObj [("content", JStr s)])]])])))
    with (json_loads E s).
  rewrite Hloads. reflexivity.
Qed.
